(** * SayCuteWeb: the tool dispatcher and the streaming tool-call loop

    A shallow embedding of [tools.py] and [app.py].

    Conventions of the embedding.
    - A Python [str] is a Rocq [string], one [ascii] per character; [len] is
      [String.length].  The non-ASCII literals of the source are kept as
      they are written (their length is never inspected by the program).
    - A Python [int] is a [Z]; [//] is [Z.div] (both round towards minus
      infinity); slices clamp their bounds the way Python does.
    - JSON-like values (tool arguments, tool results, wire payloads) are
      [pyval]; a [dict] is an association list in insertion order.
    - An exception is a value of [exn]; a computation that may raise
      returns a [result].
    - Generators are run eagerly: a generator is a function from the
      program state to the list of values it yields, its outcome, and the
      state it leaves behind.
    - The memory file is embedded a second time, in module [Unicode], with
      a text as the sequence of its code points and a file write that
      fails on what UTF-8 cannot encode.
    - [config.py] is not part of the sources: its constants are the fields of
      [Config].  The JSON codec, the model backend and the subprocess are
      external: they are the fields of [Runtime]. *)

From Stdlib Require Import ZArith String Ascii List Floats Lia.
From stdpp Require Import base option list gmap strings.

Open Scope string_scope.
Open Scope list_scope.
Open Scope Z_scope.

(** ** Python values *)

Unset Elimination Schemes.
Inductive pyval : Type :=
| PNone
| PBool (b : bool)
| PInt (n : Z)
| PFloat (x : float)
| PStr (s : string)
| PList (items : list pyval)
| PDict (entries : list (string * pyval)).
Set Elimination Schemes.

Inductive exn : Type :=
| TypeError (msg : string)
| JSONDecodeError (msg : string)
| HTTPException (status_code : Z) (detail : string)
| OtherError (msg : string).

(** [str(e)] for an exception. *)
Definition exn_str (e : exn) : string :=
  match e with
  | TypeError msg => msg
  | JSONDecodeError msg => msg
  | HTTPException _ detail => detail
  | OtherError msg => msg
  end.

Inductive result (A : Type) : Type :=
| Ok (a : A)
| Raise (e : exn).
Arguments Ok {A} a.
Arguments Raise {A} e.

Definition nl : string := String (ascii_of_nat 10) EmptyString.

(** Truth value of an object ([if v:], [not v], [v or d]). *)
Definition truthy (v : pyval) : bool :=
  match v with
  | PNone => false
  | PBool b => b
  | PInt n => negb (n =? 0)
  | PFloat x => negb (PrimFloat.eqb x 0%float)
  | PStr s => negb (String.eqb s "")
  | PList items => match items with [] => false | _ => true end
  | PDict entries => match entries with [] => false | _ => true end
  end.

Definition type_name (v : pyval) : string :=
  match v with
  | PNone => "NoneType"
  | PBool _ => "bool"
  | PInt _ => "int"
  | PFloat _ => "float"
  | PStr _ => "str"
  | PList _ => "list"
  | PDict _ => "dict"
  end.

(** [d.get(key, default)] on the entries of a dict. *)
Fixpoint dict_get (entries : list (string * pyval)) (key : string) (default : pyval) : pyval :=
  match entries with
  | [] => default
  | (k, v) :: rest => if String.eqb k key then v else dict_get rest key default
  end.

(** [len(s)] for a string. *)
Definition str_len (s : string) : Z := Z.of_nat (String.length s).

(** A slice bound [i] of a sequence of length [len]: negative bounds count
    from the end and every bound is clamped to [0..len]. *)
Definition slice_index (len i : Z) : nat :=
  Z.to_nat (Z.max 0 (Z.min len (if i <? 0 then len + i else i))).

(** [l[:j]] and [l[i:]] on lists. *)
Definition list_slice_to {A} (l : list A) (j : Z) : list A :=
  take (slice_index (Z.of_nat (length l)) j) l.
Definition list_slice_from {A} (l : list A) (i : Z) : list A :=
  drop (slice_index (Z.of_nat (length l)) i) l.

(** [s[:j]] and [s[i:]] on strings. *)
Definition str_slice_to (s : string) (j : Z) : string :=
  string_of_list_ascii (list_slice_to (list_ascii_of_string s) j).
Definition str_slice_from (s : string) (i : Z) : string :=
  string_of_list_ascii (list_slice_from (list_ascii_of_string s) i).

(** [len(v)]: defined on strings, lists and dicts, a [TypeError] otherwise. *)
Definition py_len (v : pyval) : result Z :=
  match v with
  | PStr s => Ok (str_len s)
  | PList items => Ok (Z.of_nat (length items))
  | PDict entries => Ok (Z.of_nat (length entries))
  | _ => Raise (TypeError ("object of type '" +:+ type_name v +:+ "' has no len()"))
  end.

(** [v[:j]]: strings and lists are sliced, a dict rejects the slice as a
    key, the other values are not subscriptable. *)
Definition py_slice_to (v : pyval) (j : Z) : result pyval :=
  match v with
  | PStr s => Ok (PStr (str_slice_to s j))
  | PList items => Ok (PList (list_slice_to items j))
  | PDict _ => Raise (TypeError "unhashable type: 'slice'")
  | _ => Raise (TypeError ("'" +:+ type_name v +:+ "' object is not subscriptable"))
  end.

(** Characters removed by [str.strip()]. *)
Definition isspace (c : ascii) : bool :=
  let n := nat_of_ascii c in
  ((9 <=? n) && (n <=? 13) || (28 <=? n) && (n <=? 32) || (n =? 133) || (n =? 160))%nat.

Fixpoint lstrip_chars (l : list ascii) : list ascii :=
  match l with
  | [] => []
  | c :: rest => if isspace c then lstrip_chars rest else l
  end.

(** [s.strip()] *)
Definition strip (s : string) : string :=
  string_of_list_ascii
    (rev (lstrip_chars (rev (lstrip_chars (list_ascii_of_string s))))).

(** ["".join(parts)] *)
Definition join_empty (parts : list string) : string := String.concat "" parts.

(** ** tools.py: output truncation *)

Definition truncation_marker : string := nl +:+ "...<truncated>..." +:+ nl.

Definition _truncate_text (text : string) (max_chars : Z) : string :=
  if str_len text <=? max_chars then text
  else
    let half := max_chars / 2 in
    str_slice_to text half +:+ truncation_marker +:+ str_slice_from text (- half).

(** ** Data exchanged with the model backend *)

Record function_data : Type := {
  fn_name : option string;
  fn_arguments : option pyval }.

Record tool_call : Type := {
  tc_id : option string;
  tc_function : option function_data }.

(** A message of the conversation: a dict with the key [role] and any of
    the other keys. *)
Record message : Type := {
  msg_role : string;
  msg_content : option string;
  msg_thinking : option string;
  msg_tool_calls : option (list tool_call);
  msg_name : option string;
  msg_tool_call_id : option string }.

(** The message carried by one streamed chunk. *)
Record chunk_message : Type := {
  cm_thinking : option string;
  cm_content : option string;
  cm_tool_calls : option (list tool_call) }.

Record chunk : Type := { ck_message : option chunk_message }.

(** The arguments of one [client.chat] call. *)
Record chat_call : Type := {
  cc_model : string;
  cc_messages : list message;
  cc_tools : list pyval;
  cc_temperature : float;
  cc_num_predict : Z }.

(** What [subprocess.run] does: it completes, it times out, or it fails. *)
Inductive proc_outcome : Type :=
| Completed (returncode : Z) (stdout stderr : string)
| TimeoutExpired
| SubprocessFailed (e : exn).

(** ** config.py *)

Record member : Type := {
  m_id : string;
  m_name : string;
  m_display_name : string;
  m_avatar : string;
  m_system_prompt : string }.

Record Config : Type := {
  OLLAMA_HOST : string;
  MODEL_NAME : string;
  MAX_TOOL_ROUNDS : Z;
  TEAM_MEMBERS : list member;
  TEAM_LEADER : member;
  PYTHON_TOOL_TIMEOUT_SECONDS : Z;
  PYTHON_TOOL_MAX_OUTPUT_CHARS : Z;
  MAX_MEMORY_CHARS : Z }.

(** ** The world outside the program *)

Class Runtime : Type := {
  (** state of the model backend and of the host the subprocess runs on *)
  ext : Type;
  (** [json.dumps(v, ensure_ascii=.., indent=..)] *)
  json_dumps : bool -> option Z -> pyval -> string;
  (** [json.loads(text)] *)
  json_loads : string -> result pyval;
  (** [str(v)] for a value that is not a string *)
  py_repr : pyval -> string;
  (** [client.chat(...)] and the iteration over its stream: the chunks
      received, and the exception that ends the stream if there is one *)
  client_chat : chat_call -> ext -> list chunk * option exn * ext;
  (** [subprocess.run([sys.executable, "-c", code], timeout=..)] *)
  subprocess_run : string -> Z -> ext -> proc_outcome * ext }.

Section Program.

Context (cfg : Config) {rt : Runtime}.

(** ** Program state

    [st_ext] is the outside world, [st_memory_file] the text of the memory
    file ([None] when the file does not exist), [st_heap] the list objects
    that hold conversations (a list is shared by reference, its messages
    are never updated in place), and [st_calls] the history of the calls
    made to the model backend, oldest first. *)

Record state : Type := {
  st_ext : ext;
  st_memory_file : option string;
  st_heap : gmap positive (list message);
  st_calls : list chat_call }.

Definition set_ext (e : ext) (s : state) : state :=
  {| st_ext := e; st_memory_file := st_memory_file s;
     st_heap := st_heap s; st_calls := st_calls s |}.
Definition set_memory_file (f : option string) (s : state) : state :=
  {| st_ext := st_ext s; st_memory_file := f;
     st_heap := st_heap s; st_calls := st_calls s |}.
Definition set_heap (h : gmap positive (list message)) (s : state) : state :=
  {| st_ext := st_ext s; st_memory_file := st_memory_file s;
     st_heap := h; st_calls := st_calls s |}.
Definition log_call (c : chat_call) (s : state) : state :=
  {| st_ext := st_ext s; st_memory_file := st_memory_file s;
     st_heap := st_heap s; st_calls := st_calls s ++ [c] |}.

(** ** Generators and effects *)

Record run (Y A : Type) : Type := Run {
  yielded : list Y;
  outcome : result A;
  final : state }.
Arguments Run {Y A} yielded outcome final.
Arguments yielded {Y A} r.
Arguments outcome {Y A} r.
Arguments final {Y A} r.

Definition Gen (Y A : Type) : Type := state -> run Y A.

Definition ret {Y A} (a : A) : Gen Y A := fun s => Run [] (Ok a) s.
Definition raise {Y A} (e : exn) : Gen Y A := fun s => Run [] (Raise e) s.
Definition yield {Y} (y : Y) : Gen Y unit := fun s => Run [y] (Ok tt) s.
Definition yield_all {Y} (ys : list Y) : Gen Y unit := fun s => Run ys (Ok tt) s.
Definition get_state {Y} : Gen Y state := fun s => Run [] (Ok s) s.
Definition modify {Y} (f : state -> state) : Gen Y unit := fun s => Run [] (Ok tt) (f s).

Definition bind {Y A B} (m : Gen Y A) (k : A -> Gen Y B) : Gen Y B :=
  fun s =>
    let r := m s in
    match outcome r with
    | Ok a =>
        let r' := k a (final r) in
        Run (yielded r ++ yielded r') (outcome r') (final r')
    | Raise e => Run (yielded r) (Raise e) (final r)
    end.

Definition lift {Y A} (r : result A) : Gen Y A :=
  match r with Ok a => ret a | Raise e => raise e end.

Notation "'let!' x ':=' m 'in' k" := (bind m (fun x => k))
  (at level 10, x name, m at level 100, k at level 200, only parsing).
Notation "m ;;; k" := (bind m (fun _ => k))
  (at level 100, k at level 200, only parsing, right associativity).

(** [for x in l: body x] *)
Fixpoint for_each {Y A} (l : list A) (body : A -> Gen Y unit) : Gen Y unit :=
  match l with
  | [] => ret tt
  | x :: rest => body x ;;; for_each rest body
  end.

(** [for x in l: acc = body acc x] *)
Fixpoint for_fold {Y A B} (l : list A) (body : B -> A -> Gen Y B) (acc : B) : Gen Y B :=
  match l with
  | [] => ret acc
  | x :: rest => let! acc' := body acc x in for_fold rest body acc'
  end.

(** [try: m  except Exception as e: handler e] *)
Definition try_except {Y A} (m : Gen Y A) (handler : exn -> Gen Y A) : Gen Y A :=
  fun s =>
    let r := m s in
    match outcome r with
    | Ok a => r
    | Raise e =>
        let r' := handler e (final r) in
        Run (yielded r ++ yielded r') (outcome r') (final r')
    end.

(** [async for y in g: (out, acc) = step acc y; yield from out]: the
    consumer of a generator, when the loop body only forwards values and
    updates local variables. *)
Fixpoint feed {Y Y' B} (step : B -> Y -> list Y' * B) (ys : list Y) (acc : B) : list Y' * B :=
  match ys with
  | [] => ([], acc)
  | y :: rest =>
      let '(out, acc') := step acc y in
      let '(outs, acc'') := feed step rest acc' in
      (out ++ outs, acc'')
  end.

Definition async_for {Y Y' A B} (g : Gen Y A) (step : B -> Y -> list Y' * B) (acc : B) : Gen Y' B :=
  fun s =>
    let r := g s in
    let '(out, acc') := feed step (yielded r) acc in
    match outcome r with
    | Ok _ => Run out (Ok acc') (final r)
    | Raise e => Run out (Raise e) (final r)
    end.

(** ** tools.py: memory

    Reading and writing the memory file are taken to succeed when the file
    is there; a text that does not decode, or decodes to something else
    than a dict, reads as the empty memory. *)

(** What [load_memories] makes of the file. *)
Definition memory_text (file : option string) : string :=
  match file with
  | Some text =>
      match json_loads text with
      | Ok (PDict entries) =>
          match dict_get entries "content" (PStr "") with
          | PStr s => s
          | v => py_repr v
          end
      | _ => ""
      end
  | None => ""
  end.

Definition load_memories {Y} : Gen Y string :=
  let! s := get_state in ret (memory_text (st_memory_file s)).

Definition _save_memories {Y} (content : pyval) : Gen Y unit :=
  modify (set_memory_file (Some (json_dumps false (Some 2) (PDict [("content", content)])))).

Definition get_memory_system_prompt {Y} : Gen Y string :=
  let! content := load_memories in
  if String.eqb content "" then ret ""
  else ret ("以下是你记录的关于用户的偏好与最近行为的记忆，请结合这些信息个性化你的回答：" +:+ nl +:+ content).

Definition run_memory_tool {Y} (content : pyval) : Gen Y pyval :=
  if negb (truthy content) then
    ret (PDict [("ok", PBool false); ("error", PStr "需要提供 content")])
  else
    let! n := lift (py_len content) in
    let! content := (if n >? MAX_MEMORY_CHARS cfg
                then lift (py_slice_to content (MAX_MEMORY_CHARS cfg))
                else ret content) in
    _save_memories content ;;;
    ret (PDict [("ok", PBool true); ("content", content)]).

(** ** tools.py: python_exec *)

Definition run_python_tool {Y} (code : string) : Gen Y pyval :=
  let code := strip code in
  if String.eqb code "" then
    ret (PDict [("ok", PBool false); ("error", PStr "code is empty")])
  else
    let! s := get_state in
    let '(completed, e) := subprocess_run code (PYTHON_TOOL_TIMEOUT_SECONDS cfg) (st_ext s) in
    modify (set_ext e) ;;;
    match completed with
    | Completed returncode stdout stderr =>
        ret (PDict [("ok", PBool (returncode =? 0));
                    ("returncode", PInt returncode);
                    ("stdout", PStr (_truncate_text stdout (PYTHON_TOOL_MAX_OUTPUT_CHARS cfg)));
                    ("stderr", PStr (_truncate_text stderr (PYTHON_TOOL_MAX_OUTPUT_CHARS cfg)))])
    | TimeoutExpired =>
        ret (PDict [("ok", PBool false);
                    ("error", PStr ("python execution timed out after "
                                    +:+ py_repr (PInt (PYTHON_TOOL_TIMEOUT_SECONDS cfg)) +:+ "s"))])
    | SubprocessFailed e =>
        ret (PDict [("ok", PBool false); ("error", PStr (exn_str e))])
    end.

(** ** tools.py: the registry *)

Definition python_exec_schema : pyval :=
  PDict [("type", PStr "function");
         ("function", PDict [
            ("name", PStr "python_exec");
            ("description", PStr "执行一段 Python 代码并返回 stdout/stderr/返回码。适合计算、数据处理和验证中间结果。");
            ("parameters", PDict [
               ("type", PStr "object");
               ("properties", PDict [
                  ("code", PDict [("type", PStr "string");
                                  ("description", PStr "要执行的 Python 代码")])]);
               ("required", PList [PStr "code"])])])].

Definition memory_tool_schema : pyval :=
  PDict [("type", PStr "function");
         ("function", PDict [
            ("name", PStr "memory_tool");
            ("description", PStr ("覆盖写入关于用户的长期记忆（偏好、习惯、近期行为摘要）。"
               +:+ "每次调用都会用新内容完整替换旧记忆，请将所有需要保留的信息一次性写入。"
               +:+ "内容限制为 " +:+ py_repr (PInt (MAX_MEMORY_CHARS cfg)) +:+ " 字符，超过部分自动截断。"));
            ("parameters", PDict [
               ("type", PStr "object");
               ("properties", PDict [
                  ("content", PDict [("type", PStr "string");
                                     ("description", PStr ("要保存的全部记忆内容，不超过 "
                                        +:+ py_repr (PInt (MAX_MEMORY_CHARS cfg)) +:+ " 字符"))])]);
               ("required", PList [PStr "content"])])])].

Definition TOOLS : list pyval := [python_exec_schema; memory_tool_schema].

(** [t.get("function", {}).get("name")] for an entry of the registry. *)
Definition schema_name (t : pyval) : pyval :=
  match t with
  | PDict entries =>
      match dict_get entries "function" (PDict []) with
      | PDict f => dict_get f "name" PNone
      | _ => PNone
      end
  | _ => PNone
  end.

(** [v == text] *)
Definition eq_str (v : pyval) (text : string) : bool :=
  match v with
  | PStr s => String.eqb s text
  | _ => false
  end.

(** ** tools.py: argument normalization and dispatch *)

Definition _normalize_tool_arguments (raw_args : pyval) : list (string * pyval) :=
  match raw_args with
  | PDict entries => entries
  | PStr s =>
      match json_loads s with
      | Ok (PDict parsed) => parsed
      | Ok _ => [("code", raw_args)]
      | Raise _ => [("code", raw_args)]
      end
  | _ => []
  end.

(** [str(v)] *)
Definition py_str (v : pyval) : string :=
  match v with
  | PStr s => s
  | _ => py_repr v
  end.

Definition dispatch_tool {Y} (tool_name : string) (raw_args : pyval) : Gen Y pyval :=
  let args := _normalize_tool_arguments raw_args in
  if String.eqb tool_name "python_exec" then
    run_python_tool (py_str (dict_get args "code" (PStr "")))
  else if String.eqb tool_name "memory_tool" then
    run_memory_tool (dict_get args "content" PNone)
  else
    ret (PDict [("ok", PBool false); ("error", PStr ("unknown tool: " +:+ tool_name))]).

(** ** app.py *)

Definition PYTHON_ONLY_TOOLS : list pyval :=
  List.filter (fun t => eq_str (schema_name t) "python_exec") TOOLS.

Inductive event : Type :=
| EvThinking (text : string)
| EvContent (text : string)
| EvToolRequest (tool : string) (args : pyval)
| EvToolResult (tool : string) (tool_result : pyval).

Definition limit_message : string := "工具调用轮次达到上限，请缩小问题范围后重试。".

(** *** Conversation lists on the heap *)

(** [list(l)] and [[m1, m2, ...]]: a new list object. *)
Definition list_new {Y} (items : list message) : Gen Y positive :=
  let! s := get_state in
  let l := fresh (dom (st_heap s)) in
  modify (set_heap (<[l := items]> (st_heap s))) ;;;
  ret l.

Definition list_read {Y} (l : positive) : Gen Y (list message) :=
  let! s := get_state in
  ret (default [] (st_heap s !! l)).

Definition list_copy {Y} (l : positive) : Gen Y positive :=
  let! items := list_read l in
  list_new items.

(** [l.append(m)] *)
Definition list_append {Y} (l : positive) (m : message) : Gen Y unit :=
  modify (fun s => set_heap (alter (fun items => items ++ [m]) l (st_heap s)) s).

(** *** One model call *)

(** [await client.chat(model=MODEL_NAME, messages=ctx, stream=True, ...)]:
    the call is recorded in [st_calls]. *)
Definition client_chat_stream {Y} (call : chat_call) : Gen Y (list chunk * option exn) :=
  fun s =>
    let '(chunks, err, e) := client_chat call (st_ext s) in
    Run [] (Ok (chunks, err)) (log_call call (set_ext e s)).

Record collected : Type := {
  collected_content : list string;
  collected_thinking : list string;
  collected_tool_calls : list tool_call }.

Definition nothing_collected : collected :=
  {| collected_content := []; collected_thinking := []; collected_tool_calls := [] |}.

Definition nonempty_text (o : option string) : option string :=
  match o with
  | Some text => if String.eqb text "" then None else Some text
  | None => None
  end.

(** The body of [async for chunk in stream_response]: the events it
    yields and the updated accumulators. *)
Definition absorb_chunk (acc : collected) (c : chunk) : list event * collected :=
  let msg := default {| cm_thinking := None; cm_content := None; cm_tool_calls := None |}
                     (ck_message c) in
  let thinking := cm_thinking msg in
  let content := cm_content msg in
  let tool_calls := default [] (cm_tool_calls msg) in
  let '(out1, acc) :=
    match nonempty_text thinking with
    | Some text =>
        ([EvThinking text],
         {| collected_content := collected_content acc;
            collected_thinking := collected_thinking acc ++ [text];
            collected_tool_calls := collected_tool_calls acc |})
    | None => ([], acc)
    end in
  let '(out2, acc) :=
    match nonempty_text content with
    | Some text =>
        ([EvContent text],
         {| collected_content := collected_content acc ++ [text];
            collected_thinking := collected_thinking acc;
            collected_tool_calls := collected_tool_calls acc |})
    | None => ([], acc)
    end in
  (out1 ++ out2,
   match tool_calls with
   | [] => acc
   | _ => {| collected_content := collected_content acc;
             collected_thinking := collected_thinking acc;
             collected_tool_calls := tool_calls |}
   end).

(** What a whole stream yields and collects. *)
Definition collect (chunks : list chunk) : list event * collected :=
  feed absorb_chunk chunks nothing_collected.

(** The iteration over the stream: the chunks received, then the
    exception that ends the stream, if any. *)
Definition receive (stream_response : list chunk * option exn) : Gen event collected :=
  yield_all (fst (collect (fst stream_response))) ;;;
  match snd stream_response with
  | Some e => raise e
  | None => ret (snd (collect (fst stream_response)))
  end.

(** *** The assistant message of a round *)

Definition assistant_message (acc : collected) : message :=
  let full_content := strip (join_empty (collected_content acc)) in
  let full_thinking := strip (join_empty (collected_thinking acc)) in
  {| msg_role := "assistant";
     msg_content := if String.eqb full_content "" then None else Some full_content;
     msg_thinking := if String.eqb full_thinking "" then None else Some full_thinking;
     msg_tool_calls := match collected_tool_calls acc with
                       | [] => None
                       | calls => Some calls
                       end;
     msg_name := None;
     msg_tool_call_id := None |}.

(** [m.keys() - {"role"}] is not empty. *)
Definition has_field_besides_role (m : message) : bool :=
  match msg_content m, msg_thinking m, msg_tool_calls m, msg_name m, msg_tool_call_id m with
  | None, None, None, None, None => false
  | _, _, _, _, _ => true
  end.

Definition append_assistant {Y} (ctx : positive) (acc : collected) : Gen Y unit :=
  let assistant_msg := assistant_message acc in
  if has_field_besides_role assistant_msg then list_append ctx assistant_msg
  else ret tt.

(** *** Executing the tool calls of a round *)

Definition tool_message (tool_name : string) (tool_result : pyval) (tool_call_id : option string) : message :=
  {| msg_role := "tool";
     msg_content := Some (json_dumps false None tool_result);
     msg_thinking := None;
     msg_tool_calls := None;
     msg_name := Some tool_name;
     msg_tool_call_id := nonempty_text tool_call_id |}.

(** The body of [for tool_call in collected_tool_calls]. *)
Definition execute_tool_call (ctx : positive) (tc : tool_call) : Gen event unit :=
  let function_data := default {| fn_name := None; fn_arguments := None |} (tc_function tc) in
  let tool_name := default "" (fn_name function_data) in
  let arguments := default PNone (fn_arguments function_data) in
  let args := if truthy arguments then arguments else PDict [] in
  yield (EvToolRequest tool_name args) ;;;
  let! tool_result := dispatch_tool tool_name arguments in
  yield (EvToolResult tool_name tool_result) ;;;
  list_append ctx (tool_message tool_name tool_result (tc_id tc)).

(** *** The loop *)

Inductive round_exit : Type :=
| Continue   (** the round ran its tool calls: on to the next round *)
| Return.    (** the round had no tool call: the generator returns *)

(** The body of [for _ in range(MAX_TOOL_ROUNDS)]. *)
Definition tool_round (ctx : positive) (temperature : float) (max_tokens : Z)
    (tools : option (list pyval)) : Gen event round_exit :=
  let! messages := list_read ctx in
  let! stream_response :=
    client_chat_stream {| cc_model := MODEL_NAME cfg;
                          cc_messages := messages;
                          cc_tools := match tools with None => TOOLS | Some t => t end;
                          cc_temperature := temperature;
                          cc_num_predict := max_tokens |} in
  let! acc := receive stream_response in
  append_assistant ctx acc ;;;
  match collected_tool_calls acc with
  | [] => ret Return
  | calls => for_each calls (execute_tool_call ctx) ;;; ret Continue
  end.

Fixpoint tool_rounds (rounds : nat) (ctx : positive) (temperature : float) (max_tokens : Z)
    (tools : option (list pyval)) : Gen event round_exit :=
  match rounds with
  | O => ret Continue
  | S rounds' =>
      let! e := tool_round ctx temperature max_tokens tools in
      match e with
      | Return => ret Return
      | Continue => tool_rounds rounds' ctx temperature max_tokens tools
      end
  end.

(** The loop once [ctx] has been created. *)
Definition streaming_loop_on (ctx : positive) (temperature : float) (max_tokens : Z)
    (tools : option (list pyval)) : Gen event unit :=
  let! e := tool_rounds (Z.to_nat (MAX_TOOL_ROUNDS cfg)) ctx temperature max_tokens tools in
  match e with
  | Return => ret tt
  | Continue => yield (EvContent limit_message)
  end.

Definition _streaming_loop (conversation : positive) (temperature : float) (max_tokens : Z)
    (tools : option (list pyval)) : Gen event unit :=
  let! ctx := list_copy conversation in
  streaming_loop_on ctx temperature max_tokens tools.

(** *** Events on the wire *)

Definition sse_data (payload : string) : string := "data: " +:+ payload +:+ nl +:+ nl.

Definition _sse_from_event (e : event) : string :=
  match e with
  | EvThinking text =>
      sse_data (json_dumps true None
        (PDict [("choices", PList [PDict [("delta", PDict [("thinking", PStr text)])]])]))
  | EvContent text =>
      sse_data (json_dumps true None
        (PDict [("choices", PList [PDict [("delta", PDict [("content", PStr text)])]])]))
  | EvToolRequest tool args =>
      sse_data (json_dumps false None
        (PDict [("tool_event", PDict [("type", PStr "request"); ("tool", PStr tool);
                                      ("arguments", args)])]))
  | EvToolResult tool tool_result =>
      sse_data (json_dumps false None
        (PDict [("tool_event", PDict [("type", PStr "result"); ("tool", PStr tool);
                                      ("result", tool_result)])]))
  end.

Definition sse_done : string := sse_data "[DONE]".

Definition sse_error (e : exn) : string :=
  sse_data (json_dumps true None (PDict [("error", PStr (exn_str e))])).

(** [sse = _sse_from_event(event); if sse: yield sse] *)
Definition forward (e : event) : list string :=
  let sse := _sse_from_event e in
  if String.eqb sse "" then [] else [sse].

(** *** Requests *)

Record Message : Type := {
  role : string;
  content : string }.

Record ChatRequest : Type := {
  messages : list Message;
  temperature : float;
  max_tokens : Z;
  stream : bool }.

Definition outgoing_message (m : Message) : message :=
  {| msg_role := role m; msg_content := Some (content m); msg_thinking := None;
     msg_tool_calls := None; msg_name := None; msg_tool_call_id := None |}.

Definition system_message (prompt : string) : message :=
  {| msg_role := "system"; msg_content := Some prompt; msg_thinking := None;
     msg_tool_calls := None; msg_name := None; msg_tool_call_id := None |}.

Definition user_message (text : string) : message :=
  {| msg_role := "user"; msg_content := Some text; msg_thinking := None;
     msg_tool_calls := None; msg_name := None; msg_tool_call_id := None |}.

(** *** POST /api/chat *)

(** The generator behind the streaming response. *)
Definition chat_generate (request : ChatRequest) (outgoing : positive) : Gen string unit :=
  try_except
    (async_for (_streaming_loop outgoing (temperature request) (max_tokens request)
                                (Some PYTHON_ONLY_TOOLS))
               (fun (_ : unit) event => (forward event, tt)) tt ;;;
     yield sse_done)
    (fun e => yield (sse_error e)).

(** The body of the request when [stream] is false. *)
Definition chat_collect (request : ChatRequest) (outgoing : positive) : Gen string pyval :=
  try_except
    (let! texts :=
       async_for (_streaming_loop outgoing (temperature request) (max_tokens request)
                                  (Some PYTHON_ONLY_TOOLS))
                 (fun (acc : string * string) event =>
                    match event with
                    | EvContent text => ([], (fst acc +:+ text, snd acc))
                    | EvThinking text => ([], (fst acc, snd acc +:+ text))
                    | _ => ([], acc)
                    end)
                 ("", "") in
     ret (PDict [("choices", PList [PDict [("message",
            PDict [("role", PStr "assistant");
                   ("content", PStr (fst texts));
                   ("thinking", PStr (snd texts))])]])]))
    (fun e => raise (HTTPException 500 (exn_str e))).

(** The endpoint: it yields the body of a streaming response and returns
    [None], or yields nothing and returns the JSON answer. *)
Definition chat (request : ChatRequest) : Gen string (option pyval) :=
  let! outgoing := list_new (map outgoing_message (messages request)) in
  if stream request then
    chat_generate request outgoing ;;; ret None
  else
    let! answer := chat_collect request outgoing in
    ret (Some answer).

(** *** POST /api/chat/team *)

Definition team_meta (m : member) : list (string * pyval) :=
  [("id", PStr (m_id m)); ("name", PStr (m_name m));
   ("display_name", PStr (m_display_name m)); ("avatar", PStr (m_avatar m))].

Definition team_event (kind : string) (fields : list (string * pyval)) : string :=
  sse_data (json_dumps false None
    (PDict [("team_event", PDict (("type", PStr kind) :: fields))])).

Definition member_start (m : member) : string := team_event "member_start" (team_meta m).
Definition member_end (m : member) : string := team_event "member_end" [("id", PStr (m_id m))].
Definition leader_start (m : member) : string := team_event "leader_start" (team_meta m).
Definition leader_end (m : member) : string := team_event "leader_end" [("id", PStr (m_id m))].

(** The body of [async for event in _streaming_loop(...)] in the team
    endpoint: forward the event and accumulate the content text. *)
Definition forward_and_collect (full_content : string) (e : event) : list string * string :=
  (forward e,
   match e with
   | EvContent text => full_content +:+ text
   | _ => full_content
   end).

Definition no_answer : string := "（无回答）".

(** ["\n\n".join(f"<{id}>\n{member_answers.get(id, no_answer)}\n</{id}>" ...)] *)
Definition member_section (member_answers : gmap string string) (m : member) : string :=
  "<" +:+ m_id m +:+ ">" +:+ nl
  +:+ default no_answer (member_answers !! m_id m) +:+ nl
  +:+ "</" +:+ m_id m +:+ ">".

Definition member_sections (member_answers : gmap string string) : string :=
  String.concat (nl +:+ nl) (map (member_section member_answers) (TEAM_MEMBERS cfg)).

Definition leader_user_msg (original_question : string) (member_answers : gmap string string) : string :=
  "问题：" +:+ original_question +:+ nl +:+ nl
  +:+ "背景参考（内部分析，仅供参考）：" +:+ nl +:+ member_sections member_answers.

(** The body of [for member in TEAM_MEMBERS]. *)
Definition member_turn (request : ChatRequest) (outgoing : positive)
    (member_answers : gmap string string) (m : member) : Gen string (gmap string string) :=
  let member_system := m_system_prompt m in
  let! history := list_read outgoing in
  let! member_ctx := list_new (system_message member_system :: history) in
  yield (member_start m) ;;;
  let! full_content :=
    async_for (_streaming_loop member_ctx (temperature request) (max_tokens request)
                               (Some PYTHON_ONLY_TOOLS))
              forward_and_collect "" in
  let member_answers := <[m_id m := full_content]> member_answers in
  yield (member_end m) ;;;
  ret member_answers.

Definition leader_turn (request : ChatRequest) (outgoing : positive)
    (member_answers : gmap string string) : Gen string unit :=
  let! history := list_read outgoing in
  let original_question :=
    match last history with
    | Some m => default "" (msg_content m)
    | None => ""
    end in
  let! leader_ctx :=
    list_new [system_message (m_system_prompt (TEAM_LEADER cfg));
              user_message (leader_user_msg original_question member_answers)] in
  yield (leader_start (TEAM_LEADER cfg)) ;;;
  let! leader_answer :=
    async_for (_streaming_loop leader_ctx (temperature request) (max_tokens request)
                               (Some PYTHON_ONLY_TOOLS))
              forward_and_collect "" in
  yield (leader_end (TEAM_LEADER cfg)).

(** The [try] block of the generator of the team endpoint. *)
Definition team_pipeline (request : ChatRequest) (outgoing : positive) : Gen string unit :=
  let! member_answers := for_fold (TEAM_MEMBERS cfg) (member_turn request outgoing) ∅ in
  leader_turn request outgoing member_answers ;;;
  yield sse_done.

(** The generator behind the streaming response of the team endpoint. *)
Definition team_generate (request : ChatRequest) (outgoing : positive) : Gen string unit :=
  try_except (team_pipeline request outgoing) (fun e => yield (sse_error e)).

Definition chat_team (request : ChatRequest) : Gen string unit :=
  let! outgoing := list_new (map outgoing_message (messages request)) in
  team_generate request outgoing.

End Program.

Arguments Run {rt Y A} yielded outcome final.
Arguments yielded {rt Y A} r.
Arguments outcome {rt Y A} r.
Arguments final {rt Y A} r.

(** ** tools.py: the memory file, character by character

    The memory functions once more, for a content of the declared type
    [str | None], with what the definitions above leave out: a text is
    the sequence of its code points, and the file write can fail.
    [write_text] opens the file for writing, which empties it, then
    encodes the document as UTF-8; the encoding raises when the document
    holds a surrogate code point, and the file stays empty.  The JSON
    document is written with [ensure_ascii=False], so the characters of
    the content reach the file as they are. *)

Module Unicode.

Definition text : Type := list N.

(** The text of a literal made of ASCII characters. *)
Definition lit (s : string) : text := map N_of_ascii (list_ascii_of_string s).

(** The code points U+D800 to U+DFFF. *)
Definition is_surrogate (c : N) : bool := ((55296 <=? c) && (c <=? 57343))%N.

(** [t.encode("utf-8")] succeeds. *)
Definition utf8_encodable (t : text) : bool := forallb (fun c => negb (is_surrogate c)) t.

Unset Elimination Schemes.
Inductive value : Type :=
| VNone
| VBool (b : bool)
| VInt (n : Z)
| VText (t : text)
| VList (items : list value)
| VDict (entries : list (text * value)).
Set Elimination Schemes.

Inductive error : Type :=
| UnicodeEncodeError
| JSONDecodeError.

Inductive completion (A : Type) : Type :=
| Returns (a : A)
| Raises (e : error).
Arguments Returns {A} a.
Arguments Raises {A} e.

(** The JSON library, on texts. *)
Class Codec : Type := {
  (** [json.dumps(v, ensure_ascii=False, indent=2)] *)
  json_dumps : value -> text;
  (** [json.loads(t)] *)
  json_loads : text -> completion value;
  (** [str(v)] for a value that is not a text *)
  py_repr : value -> text }.

Section Memory.

Context (cfg : Config) {codec : Codec}.

(** [d.get(key, default)] *)
Fixpoint get (entries : list (text * value)) (key : text) (default : value) : value :=
  match entries with
  | [] => default
  | (k, v) :: rest => if decide (k = key) then v else get rest key default
  end.

(** [str(v)] *)
Definition str (v : value) : text :=
  match v with
  | VText t => t
  | _ => py_repr v
  end.

(** Truth value of a content. *)
Definition truthy (content : option text) : bool :=
  match content with
  | Some (_ :: _) => true
  | _ => false
  end.

(** [MEMORY_FILE.write_text(doc, encoding="utf-8")], on the text of the
    file ([None] when the file does not exist). *)
Definition write_text (doc : text) (file : option text) : completion unit * option text :=
  if utf8_encodable doc then (Returns tt, Some doc)
  else (Raises UnicodeEncodeError, Some []).

Definition load_memories (file : option text) : text :=
  match file with
  | Some written =>
      match json_loads written with
      | Returns (VDict entries) => str (get entries (lit "content") (VText []))
      | _ => []
      end
  | None => []
  end.

Definition _save_memories (content : text) (file : option text) : completion unit * option text :=
  write_text (json_dumps (VDict [(lit "content", VText content)])) file.

Definition needs_content : text :=
  [38656%N; 35201%N; 25552%N; 20379%N] ++ lit " content".

Definition run_memory_tool (content : option text) (file : option text)
    : completion value * option text :=
  if negb (truthy content) then
    (Returns (VDict [(lit "ok", VBool false); (lit "error", VText needs_content)]), file)
  else
    let content := default [] content in
    let content :=
      if Z.of_nat (length content) >? MAX_MEMORY_CHARS cfg
      then list_slice_to content (MAX_MEMORY_CHARS cfg)
      else content in
    match _save_memories content file with
    | (Returns _, file) =>
        (Returns (VDict [(lit "ok", VBool true); (lit "content", VText content)]), file)
    | (Raises e, file) => (Raises e, file)
    end.

(** *** Vocabulary *)

(** The document kept in the memory file for a content. *)
Definition document (content : text) : value := VDict [(lit "content", VText content)].

(** The file write accepts the document of [content]. *)
Definition writable (content : text) : Prop :=
  utf8_encodable (json_dumps (document content)) = true.

(** The JSON codec gives back the document of [content]. *)
Definition round_trips (content : text) : Prop :=
  json_loads (json_dumps (document content)) = Returns (document content).

(** The empty text does not decode to a JSON object. *)
Definition empty_is_no_object : Prop :=
  forall entries, json_loads [] <> Returns (VDict entries).

(** What the memory tool keeps of a content: the content, cut at the cap. *)
Definition kept (content : text) : text :=
  if Z.of_nat (length content) >? MAX_MEMORY_CHARS cfg
  then list_slice_to content (MAX_MEMORY_CHARS cfg)
  else content.

End Memory.

End Unicode.

(** ** Test doubles

    Concrete configurations, backends and model stubs on which the
    definitions above are evaluated. *)

Module Stub.

Definition rex : member :=
  {| m_id := "rex"; m_name := "Rex"; m_display_name := "Rex"; m_avatar := "R";
     m_system_prompt := "You are Rex." |}.
Definition nova : member :=
  {| m_id := "nova"; m_name := "Nova"; m_display_name := "Nova"; m_avatar := "N";
     m_system_prompt := "You are Nova." |}.
Definition vera : member :=
  {| m_id := "vera"; m_name := "Vera"; m_display_name := "Vera"; m_avatar := "V";
     m_system_prompt := "You are Vera." |}.
Definition sage : member :=
  {| m_id := "sage"; m_name := "Sage"; m_display_name := "Sage"; m_avatar := "S";
     m_system_prompt := "You are Sage." |}.

Definition config : Config :=
  {| OLLAMA_HOST := "http://localhost:11434";
     MODEL_NAME := "stub";
     MAX_TOOL_ROUNDS := 3;
     TEAM_MEMBERS := [rex; nova; vera];
     TEAM_LEADER := sage;
     PYTHON_TOOL_TIMEOUT_SECONDS := 10;
     PYTHON_TOOL_MAX_OUTPUT_CHARS := 8;
     MAX_MEMORY_CHARS := 4 |}.

(** A codec for the documents of the memory file only: the document is
    stored as its content text. *)
Definition dumps (ensure_ascii : bool) (indent : option Z) (v : pyval) : string :=
  match v with
  | PDict [(_, PStr s)] => s
  | _ => ""
  end.
Definition loads (text : string) : result pyval :=
  if String.eqb text "" then Raise (JSONDecodeError "Expecting value")
  else if String.eqb text "[]" then Ok (PList [])
  else Ok (PDict [("content", PStr text)]).

(** A backend whose state counts the calls made to it; [model] chooses the
    stream from the call and the count; every subprocess prints [ok]. *)
Definition runtime (model : chat_call -> nat -> list chunk * option exn) : Runtime :=
  {| ext := nat;
     json_dumps := dumps;
     json_loads := loads;
     py_repr := fun _ => "";
     client_chat := fun call n => (model call n, S n);
     subprocess_run := fun _ _ n => (Completed 0 "ok" "", n) |}.

Definition call_tool (tool_name : string) (arguments : pyval) : tool_call :=
  {| tc_id := None;
     tc_function := Some {| fn_name := Some tool_name; fn_arguments := Some arguments |} |}.

Definition chunk_of (thinking content : option string) (calls : list tool_call) : chunk :=
  {| ck_message := Some {| cm_thinking := thinking; cm_content := content;
                           cm_tool_calls := Some calls |} |}.

(** A model that answers nothing. *)
Definition silent_model (call : chat_call) (n : nat) : list chunk * option exn := ([], None).

(** A model that always asks to run a line of Python. *)
Definition python_model (call : chat_call) (n : nat) : list chunk * option exn :=
  ([chunk_of None None [call_tool "python_exec" (PDict [("code", PStr "print(1)")])]], None).

(** A model that always asks to store the number 5 as the memory. *)
Definition memory_model (call : chat_call) (n : nat) : list chunk * option exn :=
  ([chunk_of None None [call_tool "memory_tool" (PDict [("content", PInt 5)])]], None).

(** A backend that cannot be reached. *)
Definition failing_model (call : chat_call) (n : nat) : list chunk * option exn :=
  ([], Some (OtherError "connection refused")).

Definition initial (rt : Runtime) (e : @ext rt) : @state rt :=
  {| st_ext := e; st_memory_file := None; st_heap := ∅; st_calls := [] |}.

Definition request (question : string) : ChatRequest :=
  {| messages := [{| role := "user"; content := question |}];
     temperature := 0.5%float; max_tokens := 10240; stream := true |}.

(** A state whose heap holds one conversation, at location 1. *)
Definition holding (rt : Runtime) (e : @ext rt) (conversation : list message) : @state rt :=
  {| st_ext := e; st_memory_file := None; st_heap := {[ 1%positive := conversation ]};
     st_calls := [] |}.

(** The text sent to the leader for the question [hi] when each member's
    block holds [answer]. *)
Definition leader_prompt (answer : string) : string :=
  "问题：hi" +:+ nl +:+ nl +:+ "背景参考（内部分析，仅供参考）：" +:+ nl
  +:+ "<rex>" +:+ nl +:+ answer +:+ nl +:+ "</rex>" +:+ nl +:+ nl
  +:+ "<nova>" +:+ nl +:+ answer +:+ nl +:+ "</nova>" +:+ nl +:+ nl
  +:+ "<vera>" +:+ nl +:+ answer +:+ nl +:+ "</vera>".

End Stub.

(** ** Vocabulary of the statements *)

(** The first [n] characters of [s]. *)
Definition first_chars (n : Z) (s : string) : string :=
  string_of_list_ascii (take (Z.to_nat n) (list_ascii_of_string s)).

(** The document kept in the memory file for the content [s]. *)
Definition memory_document (s : string) : pyval := PDict [("content", PStr s)].

(** The JSON codec gives back the memory document of [s]. *)
Definition codec_keeps {rt : Runtime} (s : string) : Prop :=
  json_loads (json_dumps false (Some 2) (memory_document s)) = Ok (memory_document s).

(** What [load_memories] returns in state [s]. *)
Definition memory_read {rt : Runtime} (s : state) : string := memory_text (st_memory_file s).

(** The trimmed content and thinking texts of a round. *)
Definition full_content (acc : collected) : string := strip (join_empty (collected_content acc)).
Definition full_thinking (acc : collected) : string := strip (join_empty (collected_thinking acc)).

(** A round that collected something: content, thinking or tool calls. *)
Definition said_something (acc : collected) : Prop :=
  full_content acc <> "" \/ full_thinking acc <> "" \/ collected_tool_calls acc <> [].

(** The call that a round makes for the context [messages]. *)
Definition round_call {rt : Runtime} (cfg : Config) (messages : list message) (temperature : float)
    (max_tokens : Z) (tools : option (list pyval)) : chat_call :=
  {| cc_model := MODEL_NAME cfg;
     cc_messages := messages;
     cc_tools := match tools with None => TOOLS cfg | Some t => t end;
     cc_temperature := temperature;
     cc_num_predict := max_tokens |}.

(** The name and the arguments that a tool call hands to the dispatcher,
    and the arguments shown in its [tool_request] event. *)
Definition requested_tool (tc : tool_call) : string :=
  default "" (fn_name (default {| fn_name := None; fn_arguments := None |} (tc_function tc))).
Definition requested_arguments (tc : tool_call) : pyval :=
  default PNone (fn_arguments (default {| fn_name := None; fn_arguments := None |} (tc_function tc))).
Definition shown_arguments (tc : tool_call) : pyval :=
  if truthy (requested_arguments tc) then requested_arguments tc else PDict [].

(** Text events, and sequences of [tool_request]/[tool_result] pairs. *)
Definition is_text (e : event) : Prop :=
  match e with
  | EvThinking _ | EvContent _ => True
  | _ => False
  end.

Inductive tool_pairs : list event -> Prop :=
| tool_pairs_nil : tool_pairs []
| tool_pairs_cons (tool : string) (args tool_result : pyval) (rest : list event) :
    tool_pairs rest ->
    tool_pairs (EvToolRequest tool args :: EvToolResult tool tool_result :: rest).

(** The events of a round that ran tool calls: text events, then at least
    one [tool_request]/[tool_result] pair. *)
Definition round_events (events : list event) : Prop :=
  exists texts pairs,
    events = texts ++ pairs /\ Forall is_text texts /\ tool_pairs pairs /\ pairs <> [].

(** The dispatcher answers the tool call [tc] with a result in every state. *)
Definition dispatch_returns {rt : Runtime} (cfg : Config) (tc : tool_call) : Prop :=
  forall s : state, exists tool_result,
    outcome (@dispatch_tool cfg rt event (requested_tool tc) (requested_arguments tc) s)
    = Ok tool_result.

(** A model backend that answers every call with a stream that ends
    normally and asks for at least one tool call, each of which the
    dispatcher answers. *)
Definition always_calls_tools {rt : Runtime} (cfg : Config) : Prop :=
  forall call e, exists chunks e',
    client_chat call e = (chunks, None, e') /\
    collected_tool_calls (snd (collect chunks)) <> [] /\
    Forall (dispatch_returns cfg) (collected_tool_calls (snd (collect chunks))).

(** The content text of a sequence of events, after [text]. *)
Definition content_text (events : list event) (text : string) : string :=
  fold_left (fun acc e => match e with EvContent t => acc +:+ t | _ => acc end) events text.

(** The question the leader is asked: the content of the last message of
    the request. *)
Definition original_question (request : ChatRequest) : string :=
  match last (messages request) with
  | Some m => content m
  | None => ""
  end.

(** The team endpoint without its exception handler. *)
Definition chat_team_unguarded {rt : Runtime} (cfg : Config) (request : ChatRequest)
    : Gen string unit :=
  bind (list_new (map outgoing_message (messages request))) (team_pipeline cfg request).

(** The events of a run of the loop for the member [m]: a run on a
    context that starts as the member's system prompt followed by the
    messages of the request, with the restricted registry. *)
Definition member_run {rt : Runtime} (cfg : Config) (request : ChatRequest)
    (m : member) (events : list event) : Prop :=
  exists (s : state) (ctx : positive),
    st_heap s !! ctx
    = Some (system_message (m_system_prompt m) :: map outgoing_message (messages request)) /\
    events = yielded (_streaming_loop cfg ctx (temperature request) (max_tokens request)
                                      (Some (PYTHON_ONLY_TOOLS cfg)) s).

(** The part of the stream that belongs to one member: the start frame,
    the events of the member's run, and the end frame. *)
Definition member_block {rt : Runtime} (cfg : Config) (request : ChatRequest)
    (m : member) (out : list string) : Prop :=
  exists events,
    member_run cfg request m events /\
    out = member_start m :: flat_map forward events ++ [member_end m].

(** Every member of the roster has an answer recorded under its id: the
    content text of the run of a member with that id (the last one, when
    two members share an id). *)
Definition answers_recorded {rt : Runtime} (cfg : Config) (request : ChatRequest)
    (members : list member) (member_answers : gmap string string) : Prop :=
  forall m, In m members ->
    exists m' events,
      In m' members /\ m_id m' = m_id m /\
      member_run cfg request m' events /\
      member_answers !! m_id m = Some (content_text events "").

(** The part of the stream that belongs to the leader: the start frame,
    the events of a run of the loop on the leader's system prompt and the
    synthesis request built from the recorded answers, and the end frame. *)
Definition leader_block {rt : Runtime} (cfg : Config) (request : ChatRequest)
    (out : list string) : Prop :=
  exists (s : state) (ctx : positive) (member_answers : gmap string string),
    answers_recorded cfg request (TEAM_MEMBERS cfg) member_answers /\
    st_heap s !! ctx
    = Some [system_message (m_system_prompt (TEAM_LEADER cfg));
            user_message (leader_user_msg cfg (original_question request) member_answers)] /\
    out = leader_start (TEAM_LEADER cfg)
          :: flat_map forward
               (yielded (_streaming_loop cfg ctx (temperature request) (max_tokens request)
                                         (Some (PYTHON_ONLY_TOOLS cfg)) s))
          ++ [leader_end (TEAM_LEADER cfg)].

(** [m] relates every state to the state it leaves behind by [R]. *)
Definition preserves {rt : Runtime} {Y A} (R : state -> state -> Prop) (m : Gen Y A) : Prop :=
  forall s, R s (final (m s)).

(** The conversation lists and the history of model calls are the same. *)
Definition same_lists_and_calls {rt : Runtime} (s s' : state) : Prop :=
  st_heap s' = st_heap s /\ st_calls s' = st_calls s.

(** The model calls made from [s] to [s'] all offer the tools [tools]. *)
Definition only_offers {rt : Runtime} (tools : list pyval) (s s' : state) : Prop :=
  exists new, st_calls s' = st_calls s ++ new /\ Forall (fun c => cc_tools c = tools) new.

(** No list but [ctx] differs between [s] and [s']. *)
Definition only_writes {rt : Runtime} (ctx : positive) (s s' : state) : Prop :=
  forall l, l <> ctx -> st_heap s' !! l = st_heap s !! l.

(** The list [ctx] of [s'] is the one of [s] with messages appended. *)
Definition only_appends {rt : Runtime} (ctx : positive) (s s' : state) : Prop :=
  exists appended,
    st_heap s' !! ctx = (fun items => items ++ appended) <$> (st_heap s !! ctx).

(** The list [ctx] of [s'] is the one of [s] with tool messages appended. *)
Definition appends_tool_messages {rt : Runtime} (ctx : positive) (s s' : state) : Prop :=
  exists appended,
    Forall (fun m => msg_role m = "tool") appended /\
    st_heap s' !! ctx = (fun items => items ++ appended) <$> (st_heap s !! ctx).

(** Every list of [s] is a list of [s'], with the same messages. *)
Definition keeps_lists {rt : Runtime} (s s' : state) : Prop :=
  forall l items, st_heap s !! l = Some items -> st_heap s' !! l = Some items.

(** ** Vocabulary of the further properties *)

(** The result that reports a missing memory content. *)
Definition content_required : pyval :=
  PDict [("ok", PBool false); ("error", PStr "需要提供 content")].

(** The result that reports an empty code text. *)
Definition code_is_empty : pyval :=
  PDict [("ok", PBool false); ("error", PStr "code is empty")].

(** A value on which [len] is not defined. *)
Definition has_no_len (v : pyval) : Prop :=
  match v with
  | PNone | PBool _ | PInt _ | PFloat _ => True
  | _ => False
  end.

(** A dict with more than [n] entries. *)
Definition dict_larger_than (n : Z) (v : pyval) : Prop :=
  match v with
  | PDict entries => n < Z.of_nat (length entries)
  | _ => False
  end.

(** A tool result: a dict whose first entry is the flag [ok]. *)
Definition is_tool_result (v : pyval) : Prop :=
  exists (b : bool) (fields : list (string * pyval)), v = PDict (("ok", PBool b) :: fields).

(** [v.get(key)] on a result. *)
Definition result_field (v : pyval) (key : string) : pyval :=
  match v with
  | PDict entries => dict_get entries key PNone
  | _ => PNone
  end.

(** The text that introduces the memory in the system prompt. *)
Definition memory_preamble : string :=
  "以下是你记录的关于用户的偏好与最近行为的记忆，请结合这些信息个性化你的回答：".

(** What the memory tool keeps of a text: the text, cut at the cap. *)
Definition kept_content (cfg : Config) (content : string) : string :=
  if str_len content >? MAX_MEMORY_CHARS cfg
  then str_slice_to content (MAX_MEMORY_CHARS cfg)
  else content.

(** The message of a chunk, and what the loop reads from it. *)
Definition chunk_msg (c : chunk) : chunk_message :=
  default {| cm_thinking := None; cm_content := None; cm_tool_calls := None |} (ck_message c).
Definition chunk_thinking (c : chunk) : option string := nonempty_text (cm_thinking (chunk_msg c)).
Definition chunk_content (c : chunk) : option string := nonempty_text (cm_content (chunk_msg c)).
Definition chunk_tool_calls (c : chunk) : list tool_call := default [] (cm_tool_calls (chunk_msg c)).

(** The events that one chunk gives rise to. *)
Definition chunk_events (c : chunk) : list event :=
  option_list (EvThinking <$> chunk_thinking c) ++ option_list (EvContent <$> chunk_content c).

(** A batch of tool calls that is not empty. *)
Definition is_batch (calls : list tool_call) : bool :=
  match calls with
  | [] => false
  | _ => true
  end.

(** The thinking text of a sequence of events, after [text]. *)
Definition thinking_text (events : list event) (text : string) : string :=
  fold_left (fun acc e => match e with EvThinking t => acc +:+ t | _ => acc end) events text.

(** The history of model calls is the same. *)
Definition same_calls {rt : Runtime} (s s' : state) : Prop := st_calls s' = st_calls s.

(** The successive model calls of one run of the loop: the first is made
    on [context], each next one on the context of the call before it with
    messages appended. *)
Fixpoint contexts_from (context : list message) (calls : list chat_call) : Prop :=
  match calls with
  | [] => True
  | call :: rest =>
      cc_messages call = context /\
      exists appended, contexts_from (context ++ appended) rest
  end.

(** Events in which every [tool_request] is directly followed by the
    [tool_result] of the same tool, and every [tool_result] directly
    follows such a request. *)
Inductive paired : list event -> Prop :=
| paired_nil : paired []
| paired_text (e : event) (rest : list event) :
    is_text e -> paired rest -> paired (e :: rest)
| paired_tool (tool : string) (args tool_result : pyval) (rest : list event) :
    paired rest -> paired (EvToolRequest tool args :: EvToolResult tool tool_result :: rest).

(** Paired events followed by one [tool_request] that got no result. *)
Definition open_request (events : list event) : Prop :=
  exists answered tool args,
    paired answered /\ events = answered ++ [EvToolRequest tool args].

(** The events of a run are paired, up to a last request left open when
    the run ends with an exception. *)
Definition run_paired {rt : Runtime} {A} (r : run event A) : Prop :=
  match outcome r with
  | Ok _ => paired (yielded r)
  | Raise _ => paired (yielded r) \/ open_request (yielded r)
  end.

(** At most [n] model calls are made from [s] to [s']. *)
Definition calls_within {rt : Runtime} (n : nat) (s s' : state) : Prop :=
  exists new, st_calls s' = st_calls s ++ new /\ (length new <= n)%nat.

(** The two events and the message that one answered tool call adds. *)
Definition call_events (tc : tool_call) (tool_result : pyval) : list event :=
  [EvToolRequest (requested_tool tc) (shown_arguments tc);
   EvToolResult (requested_tool tc) tool_result].
Definition call_message {rt : Runtime} (tc : tool_call) (tool_result : pyval) : message :=
  tool_message (requested_tool tc) tool_result (tc_id tc).

(** The JSON answer of the chat endpoint when it does not stream. *)
Definition chat_answer (content_part thinking_part : string) : pyval :=
  PDict [("choices", PList [PDict [("message",
    PDict [("role", PStr "assistant");
           ("content", PStr content_part);
           ("thinking", PStr thinking_part)])]])].

(** The frame that ends a stream: the terminator, or the error frame. *)
Definition closing_frame {rt : Runtime} {A} (o : result A) : string :=
  match o with
  | Ok _ => sse_done
  | Raise e => sse_error e
  end.

(** ** Further test doubles *)

Module Scenario.

(** A model that answers [hello] and asks for no tool. *)
Definition plain_model (call : chat_call) (n : nat) : list chunk * option exn :=
  ([Stub.chunk_of None (Some "hello") []], None).

(** A model that always asks to store a text as the memory. *)
Definition remember_model (call : chat_call) (n : nat) : list chunk * option exn :=
  ([Stub.chunk_of None None
      [Stub.call_tool "memory_tool" (PDict [("content", PStr "likes tea")])]], None).

(** A backend whose subprocesses print sixteen characters. *)
Definition chatty_runtime : Runtime :=
  {| ext := nat;
     json_dumps := Stub.dumps;
     json_loads := Stub.loads;
     py_repr := fun _ => "";
     client_chat := fun call n => (Stub.silent_model call n, S n);
     subprocess_run := fun _ _ n => (Completed 0 "0123456789abcdef" "", n) |}.

(** The configuration of the test doubles, without any round. *)
Definition no_rounds : Config :=
  {| OLLAMA_HOST := OLLAMA_HOST Stub.config;
     MODEL_NAME := MODEL_NAME Stub.config;
     MAX_TOOL_ROUNDS := 0;
     TEAM_MEMBERS := TEAM_MEMBERS Stub.config;
     TEAM_LEADER := TEAM_LEADER Stub.config;
     PYTHON_TOOL_TIMEOUT_SECONDS := PYTHON_TOOL_TIMEOUT_SECONDS Stub.config;
     PYTHON_TOOL_MAX_OUTPUT_CHARS := PYTHON_TOOL_MAX_OUTPUT_CHARS Stub.config;
     MAX_MEMORY_CHARS := MAX_MEMORY_CHARS Stub.config |}.

(** A request that asks for no stream. *)
Definition plain_request (question : string) : ChatRequest :=
  {| messages := [{| role := "user"; content := question |}];
     temperature := 0.5%float; max_tokens := 10240; stream := false |}.

(** The call of a round on the conversation [hi]. *)
Definition first_call {rt : Runtime} (tools : option (list pyval)) : chat_call :=
  round_call Stub.config [user_message "hi"] 0.5%float 100 tools.

(** A codec on texts for the documents of the memory file only: the
    document is stored as its content text, every character as it is. *)
Definition codec : Unicode.Codec :=
  {| Unicode.json_dumps := fun v =>
       match v with
       | Unicode.VDict [(_, Unicode.VText t)] => t
       | _ => []
       end;
     Unicode.json_loads := fun t =>
       match t with
       | [] => Unicode.Raises Unicode.JSONDecodeError
       | _ => Unicode.Returns (Unicode.VDict [(Unicode.lit "content", Unicode.VText t)])
       end;
     Unicode.py_repr := fun _ => [] |}.

(** A text made of one lone surrogate, U+D800. *)
Definition lone_surrogate : Unicode.text := [55296%N].

End Scenario.

(** * Properties *)

(** ** Strings and slices *)

Lemma length_string_of_list_ascii (l : list ascii) :
  String.length (string_of_list_ascii l) = length l.
Proof. induction l as [|c l IH]; simpl; [reflexivity | now rewrite IH]. Qed.

Lemma length_list_ascii_of_string (s : string) :
  length (list_ascii_of_string s) = String.length s.
Proof. induction s as [|c s IH]; simpl; [reflexivity | now rewrite IH]. Qed.

Lemma string_of_list_ascii_app (l1 l2 : list ascii) :
  string_of_list_ascii (l1 ++ l2) = string_of_list_ascii l1 +:+ string_of_list_ascii l2.
Proof. induction l1 as [|c l1 IH]; simpl; [reflexivity | now rewrite IH]. Qed.

Lemma str_len_app (s1 s2 : string) : str_len (s1 +:+ s2) = str_len s1 + str_len s2.
Proof.
  unfold str_len. induction s1 as [|c s1 IH]; simpl String.length.
  - reflexivity.
  - rewrite !Nat2Z.inj_succ. lia.
Qed.

Lemma str_len_of_list (l : list ascii) :
  str_len (string_of_list_ascii l) = Z.of_nat (length l).
Proof. unfold str_len. now rewrite length_string_of_list_ascii. Qed.


Lemma str_len_marker : str_len truncation_marker = 19.
Proof. reflexivity. Qed.

Lemma slice_index_inside (len i : Z) : 0 <= i <= len -> slice_index len i = Z.to_nat i.
Proof.
  intros H. unfold slice_index.
  destruct (Z.ltb_spec i 0); [lia|]. f_equal. lia.
Qed.

Lemma slice_index_from_end (len i : Z) :
  0 < i <= len -> slice_index len (- i) = Z.to_nat (len - i).
Proof.
  intros H. unfold slice_index.
  destruct (Z.ltb_spec (- i) 0); [|lia]. f_equal. lia.
Qed.

(** [s[:j]] for [0 <= j <= len(s)] is the first [j] characters. *)
Lemma str_slice_to_inside (s : string) (j : Z) :
  0 <= j <= str_len s ->
  str_slice_to s j = string_of_list_ascii (take (Z.to_nat j) (list_ascii_of_string s)).
Proof.
  intros H. unfold str_slice_to, list_slice_to.
  rewrite length_list_ascii_of_string. fold (str_len s).
  now rewrite slice_index_inside.
Qed.

(** [s[-i:]] for [0 < i <= len(s)] is the last [i] characters. *)
Lemma str_slice_from_end (s : string) (i : Z) :
  0 < i <= str_len s ->
  str_slice_from s (- i)
  = string_of_list_ascii (drop (Z.to_nat (str_len s - i)) (list_ascii_of_string s)).
Proof.
  intros H. unfold str_slice_from, list_slice_from.
  rewrite length_list_ascii_of_string. fold (str_len s).
  now rewrite slice_index_from_end.
Qed.

(** ** Truncation of the captured output *)

Lemma truncate_text_within (text : string) (max_chars : Z) :
  str_len text <= max_chars -> _truncate_text text max_chars = text.
Proof.
  intros H. unfold _truncate_text.
  destruct (Z.leb_spec (str_len text) max_chars); [reflexivity | lia].
Qed.

Lemma truncate_text_beyond (text : string) (max_chars : Z) :
  max_chars < str_len text ->
  _truncate_text text max_chars
  = str_slice_to text (max_chars / 2) +:+ truncation_marker
    +:+ str_slice_from text (- (max_chars / 2)).
Proof.
  intros H. unfold _truncate_text.
  destruct (Z.leb_spec (str_len text) max_chars); [lia | reflexivity].
Qed.

(** A text longer than the cap, for a cap of at least 2, splits into the
    prefix and the suffix that are kept and the middle that is dropped. *)
Lemma truncate_text_split (text : string) (max_chars : Z) :
  2 <= max_chars -> max_chars < str_len text ->
  exists prefix middle suffix : string,
    text = prefix +:+ middle +:+ suffix /\
    str_len prefix = max_chars / 2 /\
    str_len suffix = max_chars / 2 /\
    _truncate_text text max_chars = prefix +:+ truncation_marker +:+ suffix.
Proof.
  intros Hcap Hlen.
  set (half := max_chars / 2).
  assert (Hhalf : 1 <= half /\ 2 * half <= max_chars).
  { subst half. split.
    - apply Z.div_le_lower_bound; lia.
    - apply Z.mul_div_le; lia. }
  set (chars := list_ascii_of_string text).
  assert (Hchars : Z.of_nat (length chars) = str_len text).
  { subst chars. now rewrite length_list_ascii_of_string. }
  set (h := Z.to_nat half).
  set (k := Z.to_nat (str_len text - half)).
  exists (string_of_list_ascii (take h chars)),
         (string_of_list_ascii (drop h (take k chars))),
         (string_of_list_ascii (drop k chars)).
  repeat split.
  - rewrite <- !string_of_list_ascii_app.
    replace (take h chars) with (take h (take k chars))
      by (rewrite take_take; f_equal; subst h k; lia).
    rewrite app_assoc, (take_drop h), (take_drop k).
    subst chars. now rewrite string_of_list_ascii_of_string.
  - rewrite str_len_of_list, length_take. subst h. lia.
  - rewrite str_len_of_list, length_drop. subst k. lia.
  - rewrite truncate_text_beyond by lia. fold half.
    rewrite str_slice_to_inside by lia.
    rewrite str_slice_from_end by lia.
    reflexivity.
Qed.

(** C4 (as amended).  A text whose length is the cap is returned as it is.
    A text one character longer than the cap, for a cap of at least 2, is
    cut to its first [cap / 2] and its last [cap / 2] characters around the
    truncation marker; the result has [2 * (cap / 2) + 19] characters, which
    is more, not less, than the text had. *)
Theorem truncate_text_boundary (text : string) (max_chars : Z) :
  (str_len text = max_chars -> _truncate_text text max_chars = text) /\
  (2 <= max_chars -> str_len text = max_chars + 1 ->
   exists prefix middle suffix : string,
     text = prefix +:+ middle +:+ suffix /\
     str_len prefix = max_chars / 2 /\
     str_len suffix = max_chars / 2 /\
     _truncate_text text max_chars = prefix +:+ truncation_marker +:+ suffix /\
     str_len (_truncate_text text max_chars) = 2 * (max_chars / 2) + 19 /\
     str_len text < str_len (_truncate_text text max_chars)).
Proof.
  split.
  - intros H. apply truncate_text_within. lia.
  - intros Hcap Hlen.
    destruct (truncate_text_split text max_chars) as (p & m & q & Ht & Hp & Hq & Hr);
      [lia | lia |].
    exists p, m, q. repeat split; try assumption.
    + rewrite Hr, !str_len_app, Hp, Hq, str_len_marker. lia.
    + rewrite Hr, !str_len_app, Hp, Hq, str_len_marker.
      assert (max_chars <= 2 * (max_chars / 2) + 1).
      { pose proof (Z.div_mod max_chars 2 ltac:(lia)).
        pose proof (Z.mod_pos_bound max_chars 2 ltac:(lia)). lia. }
      lia.
Qed.

(** ** The memory file: write, then read *)

Section MemoryFile.

Context (cfg : Config) {codec : Unicode.Codec}.

Lemma unicode_get_content (content : Unicode.text) :
  Unicode.get [(Unicode.lit "content", Unicode.VText content)] (Unicode.lit "content")
              (Unicode.VText [])
  = Unicode.VText content.
Proof.
  cbn [Unicode.get].
  destruct (decide (Unicode.lit "content" = Unicode.lit "content")) as [_|H];
    [reflexivity | now destruct H].
Qed.

Lemma unicode_run_memory_tool (content : Unicode.text) (file : option Unicode.text) :
  content <> [] ->
  Unicode.run_memory_tool cfg (Some content) file
  = match Unicode.write_text
            (Unicode.json_dumps (Unicode.document (Unicode.kept cfg content))) file with
    | (Unicode.Returns _, file') =>
        (Unicode.Returns (Unicode.VDict [(Unicode.lit "ok", Unicode.VBool true);
                                         (Unicode.lit "content",
                                          Unicode.VText (Unicode.kept cfg content))]), file')
    | (Unicode.Raises e, file') => (Unicode.Raises e, file')
    end.
Proof.
  intros Hne. destruct content as [|c content]; [contradiction|]. reflexivity.
Qed.

Lemma unicode_kept_short (content : Unicode.text) :
  Z.of_nat (length content) <= MAX_MEMORY_CHARS cfg -> Unicode.kept cfg content = content.
Proof.
  intros Hlen. unfold Unicode.kept.
  destruct (Z.gtb_spec (Z.of_nat (length content)) (MAX_MEMORY_CHARS cfg)); [lia | reflexivity].
Qed.

Lemma unicode_kept_long (content : Unicode.text) :
  0 <= MAX_MEMORY_CHARS cfg -> MAX_MEMORY_CHARS cfg < Z.of_nat (length content) ->
  Unicode.kept cfg content = take (Z.to_nat (MAX_MEMORY_CHARS cfg)) content.
Proof.
  intros Hcap Hlen. unfold Unicode.kept, list_slice_to.
  destruct (Z.gtb_spec (Z.of_nat (length content)) (MAX_MEMORY_CHARS cfg)); [|lia].
  now rewrite slice_index_inside by lia.
Qed.

Lemma unicode_write_then_read (content : Unicode.text) (file : option Unicode.text) :
  content <> [] ->
  Unicode.writable (Unicode.kept cfg content) ->
  Unicode.round_trips (Unicode.kept cfg content) ->
  Unicode.load_memories (snd (Unicode.run_memory_tool cfg (Some content) file))
  = Unicode.kept cfg content.
Proof.
  intros Hne Hwrite Hcodec. rewrite unicode_run_memory_tool by assumption.
  unfold Unicode.write_text. unfold Unicode.writable in Hwrite. rewrite Hwrite.
  cbn [snd]. unfold Unicode.load_memories. unfold Unicode.round_trips in Hcodec.
  rewrite Hcodec. unfold Unicode.document. rewrite unicode_get_content. reflexivity.
Qed.


End MemoryFile.

Section Proofs.

Context (cfg : Config) {rt : Runtime}.

(** ** The dispatcher *)

Lemma normalize_dict (entries : list (string * pyval)) :
  _normalize_tool_arguments (PDict entries) = entries.
Proof. reflexivity. Qed.

Lemma normalize_string_mapping (s : string) (parsed : list (string * pyval)) :
  json_loads s = Ok (PDict parsed) -> _normalize_tool_arguments (PStr s) = parsed.
Proof. intros H. unfold _normalize_tool_arguments. now rewrite H. Qed.

Lemma normalize_string_fallback (s : string) :
  (forall parsed, json_loads s <> Ok (PDict parsed)) ->
  _normalize_tool_arguments (PStr s) = [("code", PStr s)].
Proof.
  intros H. unfold _normalize_tool_arguments.
  destruct (json_loads s) as [v|e]; [|reflexivity].
  destruct v; try reflexivity. now destruct (H entries).
Qed.

Lemma normalize_other (raw_args : pyval) :
  (forall entries, raw_args <> PDict entries) -> (forall s, raw_args <> PStr s) ->
  _normalize_tool_arguments raw_args = [].
Proof.
  intros Hd Hs. destruct raw_args; try reflexivity.
  - now destruct (Hs s).
  - now destruct (Hd entries).
Qed.

(** C7.  Normalization of the arguments of a tool call: a mapping is
    returned as it is; a string that decodes to a mapping is replaced by
    that mapping; a string that does not decode, or decodes to something
    else, becomes [{"code": <the string>}]; any other value becomes the
    empty mapping. *)
Theorem normalize_tool_arguments_cases (raw_args : pyval) :
  (forall entries, raw_args = PDict entries ->
     _normalize_tool_arguments raw_args = entries) /\
  (forall s parsed, raw_args = PStr s -> json_loads s = Ok (PDict parsed) ->
     _normalize_tool_arguments raw_args = parsed) /\
  (forall s, raw_args = PStr s ->
     (exists e, json_loads s = Raise e) \/
     (exists v, json_loads s = Ok v /\ forall parsed, v <> PDict parsed) ->
     _normalize_tool_arguments raw_args = [("code", PStr s)]) /\
  ((forall entries, raw_args <> PDict entries) -> (forall s, raw_args <> PStr s) ->
     _normalize_tool_arguments raw_args = []).
Proof.
  repeat split.
  - intros entries ->. apply normalize_dict.
  - intros s parsed ->. apply normalize_string_mapping.
  - intros s -> H. apply normalize_string_fallback. intros parsed Hp.
    destruct H as [[e He] | (v & Hv & Hn)]; rewrite Hp in *.
    + discriminate.
    + injection Hv as <-. now destruct (Hn parsed).
  - apply normalize_other.
Qed.

(** A tool name that is not registered is answered with an error result,
    whatever the arguments and the state. *)
Lemma dispatch_unknown_tool {Y} (tool_name : string) (raw_args : pyval) (s : state) :
  tool_name <> "python_exec" -> tool_name <> "memory_tool" ->
  @dispatch_tool cfg rt Y tool_name raw_args s
  = Run [] (Ok (PDict [("ok", PBool false);
                       ("error", PStr ("unknown tool: " +:+ tool_name))])) s.
Proof.
  intros H1 H2. unfold dispatch_tool.
  destruct (String.eqb_spec tool_name "python_exec"); [contradiction|].
  destruct (String.eqb_spec tool_name "memory_tool"); [contradiction|].
  reflexivity.
Qed.

(** [python_exec] answers with a result for every code text. *)
Lemma run_python_tool_returns {Y} (code : string) (s : state) :
  exists tool_result, outcome (@run_python_tool cfg rt Y code s) = Ok tool_result.
Proof.
  unfold run_python_tool.
  destruct (String.eqb (strip code) ""); [eexists; reflexivity|].
  unfold bind, get_state, modify; simpl.
  destruct (subprocess_run _ _ _) as [[rc out err| |e] e']; simpl; eexists; reflexivity.
Qed.

(** [memory_tool] answers with a result when its content is a string (or
    is missing). *)
Lemma run_memory_tool_string_returns {Y} (content : string) (s : state) :
  exists tool_result, outcome (@run_memory_tool cfg rt Y (PStr content) s) = Ok tool_result.
Proof.
  unfold run_memory_tool.
  destruct (truthy (PStr content)); simpl; [|eexists; reflexivity].
  unfold bind, lift; simpl.
  destruct (str_len content >? MAX_MEMORY_CHARS cfg); simpl; eexists; reflexivity.
Qed.


(** ** The memory store *)

Lemma load_memories_run {Y} (s : state) :
  @load_memories rt Y s = Run [] (Ok (memory_read s)) s.
Proof. reflexivity. Qed.

Lemma memory_text_document (content : string) :
  codec_keeps content ->
  memory_text (Some (json_dumps false (Some 2) (memory_document content))) = content.
Proof. unfold codec_keeps, memory_text. intros ->. reflexivity. Qed.

Lemma truthy_nonempty (text : string) : text <> "" -> truthy (PStr text) = true.
Proof.
  intros H. unfold truthy. now destruct (String.eqb_spec text "").
Qed.

Lemma run_memory_tool_short {Y} (content : string) (s : state) :
  content <> "" -> str_len content <= MAX_MEMORY_CHARS cfg ->
  @run_memory_tool cfg rt Y (PStr content) s
  = Run [] (Ok (PDict [("ok", PBool true); ("content", PStr content)]))
        (set_memory_file (Some (json_dumps false (Some 2) (memory_document content))) s).
Proof.
  intros Hne Hlen. unfold run_memory_tool.
  rewrite truthy_nonempty by assumption. cbn [negb].
  unfold bind, lift, py_len; cbn.
  destruct (Z.gtb_spec (str_len content) (MAX_MEMORY_CHARS cfg)); [lia|].
  reflexivity.
Qed.

Lemma str_nonempty_of_len (content : string) : 0 < str_len content -> content <> "".
Proof. intros H ->. unfold str_len in H. simpl in H. lia. Qed.

Lemma run_memory_tool_long {Y} (content : string) (s : state) :
  0 <= MAX_MEMORY_CHARS cfg -> MAX_MEMORY_CHARS cfg < str_len content ->
  @run_memory_tool cfg rt Y (PStr content) s
  = Run [] (Ok (PDict [("ok", PBool true);
                       ("content", PStr (first_chars (MAX_MEMORY_CHARS cfg) content))]))
        (set_memory_file
           (Some (json_dumps false (Some 2)
                    (memory_document (first_chars (MAX_MEMORY_CHARS cfg) content)))) s).
Proof.
  intros Hcap Hlen. unfold run_memory_tool.
  rewrite truthy_nonempty by (apply str_nonempty_of_len; lia). cbn [negb].
  unfold bind, lift, py_len; cbn.
  destruct (Z.gtb_spec (str_len content) (MAX_MEMORY_CHARS cfg)); [|lia].
  cbn. rewrite str_slice_to_inside by lia. reflexivity.
Qed.

(** ** Generators: what a computation leaves unchanged *)

Section Preservation.

Variable R : state -> state -> Prop.
Hypothesis R_refl : forall s, R s s.
Hypothesis R_trans : forall s1 s2 s3, R s1 s2 -> R s2 s3 -> R s1 s3.

Lemma preserves_ret {Y A} (a : A) : preserves R (@ret rt Y A a).
Proof. intros s. apply R_refl. Qed.

Lemma preserves_raise {Y A} (e : exn) : preserves R (@raise rt Y A e).
Proof. intros s. apply R_refl. Qed.

Lemma preserves_yield {Y} (y : Y) : preserves R (@yield rt Y y).
Proof. intros s. apply R_refl. Qed.

Lemma preserves_yield_all {Y} (ys : list Y) : preserves R (@yield_all rt Y ys).
Proof. intros s. apply R_refl. Qed.

Lemma preserves_get_state {Y} : preserves R (@get_state rt Y).
Proof. intros s. apply R_refl. Qed.

Lemma preserves_lift {Y A} (r : result A) : preserves R (@lift rt Y A r).
Proof. destruct r; [apply preserves_ret | apply preserves_raise]. Qed.

Lemma preserves_bind {Y A B} (m : Gen Y A) (k : A -> Gen Y B) :
  preserves R m -> (forall a, preserves R (k a)) -> preserves R (bind m k).
Proof.
  intros Hm Hk s. unfold bind.
  destruct (outcome (m s)) as [a|e] eqn:E; simpl.
  - eapply R_trans; [apply Hm | apply Hk].
  - apply Hm.
Qed.

Lemma preserves_for_each {Y A} (l : list A) (body : A -> Gen Y unit) :
  (forall x, preserves R (body x)) -> preserves R (for_each l body).
Proof.
  intros Hbody. induction l as [|x l IH]; simpl.
  - apply preserves_ret.
  - apply preserves_bind; [apply Hbody | intros _; apply IH].
Qed.

Lemma preserves_for_fold {Y A B} (l : list A) (body : B -> A -> Gen Y B) (acc : B) :
  (forall acc x, preserves R (body acc x)) -> preserves R (for_fold l body acc).
Proof.
  intros Hbody. revert acc. induction l as [|x l IH]; intros acc; simpl.
  - apply preserves_ret.
  - apply preserves_bind; [apply Hbody | intros acc'; apply IH].
Qed.

Lemma preserves_try_except {Y A} (m : Gen Y A) (handler : exn -> Gen Y A) :
  preserves R m -> (forall e, preserves R (handler e)) -> preserves R (try_except m handler).
Proof.
  intros Hm Hh s. unfold try_except.
  destruct (outcome (m s)) as [a|e] eqn:E; simpl.
  - apply Hm.
  - eapply R_trans; [apply Hm | apply Hh].
Qed.

Lemma preserves_async_for {Y Y' A B} (g : Gen Y A) (step : B -> Y -> list Y' * B) (acc : B) :
  preserves R g -> preserves R (async_for g step acc).
Proof.
  intros Hg s. unfold async_for.
  destruct (feed step (yielded (g s)) acc) as [out acc'].
  destruct (outcome (g s)); simpl; apply Hg.
Qed.

Lemma preserves_if {Y A} (b : bool) (m1 m2 : Gen Y A) :
  preserves R m1 -> preserves R m2 -> preserves R (if b then m1 else m2).
Proof. now destruct b. Qed.

End Preservation.

Lemma same_lists_and_calls_refl (s : state) : same_lists_and_calls s s.
Proof. now split. Qed.

Lemma same_lists_and_calls_trans (s1 s2 s3 : state) :
  same_lists_and_calls s1 s2 -> same_lists_and_calls s2 s3 -> same_lists_and_calls s1 s3.
Proof. intros [H1 H2] [H3 H4]. split; congruence. Qed.

Lemma only_offers_refl (tools : list pyval) (s : state) : only_offers tools s s.
Proof. exists []. split; [now rewrite app_nil_r | constructor]. Qed.

Lemma only_offers_trans (tools : list pyval) (s1 s2 s3 : state) :
  only_offers tools s1 s2 -> only_offers tools s2 s3 -> only_offers tools s1 s3.
Proof.
  intros (n1 & E1 & F1) (n2 & E2 & F2). exists (n1 ++ n2). split.
  - now rewrite E2, E1, app_assoc.
  - now apply Forall_app.
Qed.

Lemma only_writes_refl (ctx : positive) (s : state) : only_writes ctx s s.
Proof. now intros l _. Qed.

Lemma only_writes_trans (ctx : positive) (s1 s2 s3 : state) :
  only_writes ctx s1 s2 -> only_writes ctx s2 s3 -> only_writes ctx s1 s3.
Proof. intros H1 H2 l Hl. now rewrite H2, H1. Qed.

Lemma only_appends_refl (ctx : positive) (s : state) : only_appends ctx s s.
Proof.
  exists []. destruct (st_heap s !! ctx) as [items|]; simpl; [|reflexivity].
  now rewrite app_nil_r.
Qed.

Lemma only_appends_trans (ctx : positive) (s1 s2 s3 : state) :
  only_appends ctx s1 s2 -> only_appends ctx s2 s3 -> only_appends ctx s1 s3.
Proof.
  intros (a1 & E1) (a2 & E2). exists (a1 ++ a2). rewrite E2, E1.
  destruct (st_heap s1 !! ctx) as [items|]; simpl; [|reflexivity].
  now rewrite app_assoc.
Qed.

Lemma keeps_lists_refl (s : state) : keeps_lists s s.
Proof. now intros l items. Qed.

Lemma keeps_lists_trans (s1 s2 s3 : state) :
  keeps_lists s1 s2 -> keeps_lists s2 s3 -> keeps_lists s1 s3.
Proof. intros H1 H2 l items H. now apply H2, H1. Qed.

(** A computation that leaves the lists and the call history alone
    preserves each of the relations above. *)
Lemma same_lists_and_calls_offers (tools : list pyval) (s s' : state) :
  same_lists_and_calls s s' -> only_offers tools s s'.
Proof. intros [_ H]. exists []. split; [now rewrite app_nil_r | constructor]. Qed.

Lemma same_lists_and_calls_writes (ctx : positive) (s s' : state) :
  same_lists_and_calls s s' -> only_writes ctx s s'.
Proof. intros [H _] l _. now rewrite H. Qed.

Lemma same_lists_and_calls_appends (ctx : positive) (s s' : state) :
  same_lists_and_calls s s' -> only_appends ctx s s'.
Proof.
  intros [H _]. exists []. rewrite H.
  destruct (st_heap s !! ctx) as [items|]; simpl; [|reflexivity].
  now rewrite app_nil_r.
Qed.

Lemma same_lists_and_calls_keeps (s s' : state) :
  same_lists_and_calls s s' -> keeps_lists s s'.
Proof. intros [H _] l items. now rewrite H. Qed.

(** ** What the tools and the loop touch *)

Lemma run_python_tool_same {Y} (code : string) :
  preserves same_lists_and_calls (@run_python_tool cfg rt Y code).
Proof.
  intros s. unfold run_python_tool.
  destruct (String.eqb (strip code) ""); [apply same_lists_and_calls_refl|].
  unfold bind, get_state, modify; simpl.
  destruct (subprocess_run _ _ _) as [[rc out err| |e] e']; simpl; now split.
Qed.

Lemma run_memory_tool_same {Y} (content : pyval) :
  preserves same_lists_and_calls (@run_memory_tool cfg rt Y content).
Proof.
  intros s. unfold run_memory_tool.
  destruct (negb (truthy content)); [apply same_lists_and_calls_refl|].
  unfold bind, lift. destruct (py_len content) as [n|e]; simpl; [|now split].
  destruct (n >? MAX_MEMORY_CHARS cfg); simpl; [|now split].
  destruct (py_slice_to content (MAX_MEMORY_CHARS cfg)); simpl; now split.
Qed.

Lemma dispatch_tool_same {Y} (tool_name : string) (raw_args : pyval) :
  preserves same_lists_and_calls (@dispatch_tool cfg rt Y tool_name raw_args).
Proof.
  unfold dispatch_tool.
  destruct (String.eqb tool_name "python_exec"); [apply run_python_tool_same|].
  destruct (String.eqb tool_name "memory_tool"); [apply run_memory_tool_same|].
  intros s. apply same_lists_and_calls_refl.
Qed.


Section LoopPreservation.

Variable R : state -> state -> Prop.
Variable ctx : positive.
Variable tools : option (list pyval).

Hypothesis R_refl : forall s, R s s.
Hypothesis R_trans : forall s1 s2 s3, R s1 s2 -> R s2 s3 -> R s1 s3.
Hypothesis R_same : forall s s', same_lists_and_calls s s' -> R s s'.
Hypothesis R_append : forall m, preserves R (@list_append rt event ctx m).
Hypothesis R_call : forall call,
  cc_tools call = match tools with None => TOOLS cfg | Some t => t end ->
  preserves R (@client_chat_stream rt event call).

Lemma receive_preserves (stream_response : list chunk * option exn) :
  preserves R (@receive rt stream_response).
Proof.
  unfold receive. apply preserves_bind; auto using preserves_yield_all.
  intros _. destruct (snd stream_response); auto using preserves_raise, preserves_ret.
Qed.

Lemma append_assistant_preserves (acc : collected) :
  preserves R (@append_assistant rt event ctx acc).
Proof.
  unfold append_assistant.
  destruct (has_field_besides_role (assistant_message acc)); auto using preserves_ret.
Qed.

Lemma execute_tool_call_preserves (tc : tool_call) :
  preserves R (execute_tool_call cfg ctx tc).
Proof.
  unfold execute_tool_call.
  apply preserves_bind; auto using preserves_yield. intros _.
  apply preserves_bind; try assumption.
  - intros s. apply R_same. apply dispatch_tool_same.
  - intros tool_result. apply preserves_bind; auto using preserves_yield.
Qed.

Lemma tool_round_preserves (temperature : float) (max_tokens : Z) :
  preserves R (tool_round cfg ctx temperature max_tokens tools).
Proof.
  unfold tool_round.
  apply preserves_bind; try assumption.
  intros messages. apply preserves_bind; try assumption.
  { apply R_call. reflexivity. }
  intros stream_response. apply preserves_bind; auto using receive_preserves.
  intros acc. apply preserves_bind; auto using append_assistant_preserves.
  intros _. destruct (collected_tool_calls acc) as [|tc calls]; auto using preserves_ret.
  apply preserves_bind; auto using preserves_ret.
  apply preserves_for_each; auto using execute_tool_call_preserves.
Qed.

Lemma tool_rounds_preserves (rounds : nat) (temperature : float) (max_tokens : Z) :
  preserves R (tool_rounds cfg rounds ctx temperature max_tokens tools).
Proof.
  induction rounds as [|n IH]; simpl.
  - now apply preserves_ret.
  - apply preserves_bind; auto using tool_round_preserves.
    intros [|]; auto using preserves_ret.
Qed.

Lemma streaming_loop_on_preserves (temperature : float) (max_tokens : Z) :
  preserves R (streaming_loop_on cfg ctx temperature max_tokens tools).
Proof.
  unfold streaming_loop_on.
  apply preserves_bind; auto using tool_rounds_preserves.
  intros [|]; auto using preserves_ret, preserves_yield.
Qed.

End LoopPreservation.

(** ** Running a computation step by step *)

Lemma bind_run_ok {Y A B} (m : Gen Y A) (k : A -> Gen Y B) (s s' : state)
    (ys : list Y) (a : A) :
  m s = Run ys (Ok a) s' ->
  bind m k s = Run (ys ++ yielded (k a s')) (outcome (k a s')) (final (k a s')).
Proof. intros H. unfold bind. now rewrite H. Qed.

Lemma bind_run_raise {Y A B} (m : Gen Y A) (k : A -> Gen Y B) (s s' : state)
    (ys : list Y) (e : exn) :
  m s = Run ys (Raise e) s' -> bind m k s = Run ys (Raise e) s'.
Proof. intros H. unfold bind. now rewrite H. Qed.


Lemma list_new_run {Y} (items : list message) (s : state) :
  @list_new rt Y items s
  = Run [] (Ok (fresh (dom (st_heap s))))
        (set_heap (<[fresh (dom (st_heap s)) := items]> (st_heap s)) s).
Proof. reflexivity. Qed.

Lemma list_copy_run {Y} (l : positive) (s : state) :
  @list_copy rt Y l s
  = Run [] (Ok (fresh (dom (st_heap s))))
        (set_heap (<[fresh (dom (st_heap s)) := default [] (st_heap s !! l)]> (st_heap s)) s).
Proof. reflexivity. Qed.

Lemma list_append_run {Y} (l : positive) (m : message) (s : state) :
  @list_append rt Y l m s
  = Run [] (Ok tt) (set_heap (alter (fun items => items ++ [m]) l (st_heap s)) s).
Proof. reflexivity. Qed.

Lemma fresh_list_not_allocated (s : state) (l : positive) (items : list message) :
  st_heap s !! l = Some items -> l <> fresh (dom (st_heap s)).
Proof.
  intros H ->. apply (is_fresh (dom (st_heap s))). apply elem_of_dom. eauto.
Qed.

(** ** The heap of conversation lists *)

Lemma list_new_keeps_lists {Y} (items : list message) :
  preserves keeps_lists (@list_new rt Y items).
Proof.
  intros s l old H. rewrite list_new_run. simpl.
  rewrite lookup_insert_ne; [assumption|].
  intros E. symmetry in E. revert E. eapply fresh_list_not_allocated; eauto.
Qed.

Lemma list_append_only_writes {Y} (ctx : positive) (m : message) :
  preserves (only_writes ctx) (@list_append rt Y ctx m).
Proof.
  intros s l Hl. rewrite list_append_run. simpl.
  now rewrite lookup_alter_ne by congruence.
Qed.

Lemma client_chat_stream_same_lists {Y} (call : chat_call) (s : state) :
  st_heap (final (@client_chat_stream rt Y call s)) = st_heap s.
Proof.
  unfold client_chat_stream. destruct (client_chat call (st_ext s)) as [[chunks err] e].
  reflexivity.
Qed.

Lemma client_chat_stream_only_writes {Y} (ctx : positive) (call : chat_call) :
  preserves (only_writes ctx) (@client_chat_stream rt Y call).
Proof. intros s l _. now rewrite client_chat_stream_same_lists. Qed.

Lemma streaming_loop_on_only_writes (ctx : positive) (temperature : float) (max_tokens : Z)
    (tools : option (list pyval)) :
  preserves (only_writes ctx) (streaming_loop_on cfg ctx temperature max_tokens tools).
Proof.
  apply streaming_loop_on_preserves.
  - apply only_writes_refl.
  - apply only_writes_trans.
  - apply same_lists_and_calls_writes.
  - intros m. apply list_append_only_writes.
  - intros call _. apply client_chat_stream_only_writes.
Qed.

Lemma streaming_loop_keeps_lists (conversation : positive) (temperature : float)
    (max_tokens : Z) (tools : option (list pyval)) :
  preserves keeps_lists (_streaming_loop cfg conversation temperature max_tokens tools).
Proof.
  intros s l items H. unfold _streaming_loop.
  rewrite (bind_run_ok _ _ _ _ _ _ (list_copy_run conversation s)). simpl.
  rewrite streaming_loop_on_only_writes.
  - simpl. rewrite lookup_insert_ne; [assumption|].
    intros E. symmetry in E. revert E. eapply fresh_list_not_allocated; eauto.
  - eapply fresh_list_not_allocated; eauto.
Qed.

(** C10.  The loop works on a copy of the conversation list: every list
    that exists when the loop is called, the caller's conversation among
    them, holds the same messages when the loop ends, whether it ends
    normally, at the round limit, or with an exception. *)
Theorem streaming_loop_leaves_conversation (conversation : positive) (temperature : float)
    (max_tokens : Z) (tools : option (list pyval)) (s : state) (items : list message) :
  st_heap s !! conversation = Some items ->
  st_heap (final (_streaming_loop cfg conversation temperature max_tokens tools s))
    !! conversation = Some items.
Proof. intros H. now apply streaming_loop_keeps_lists. Qed.

(** ** The tools offered to the model *)

Lemma python_only_tools : PYTHON_ONLY_TOOLS cfg = [python_exec_schema].
Proof. reflexivity. Qed.

Lemma full_registry : TOOLS cfg = [python_exec_schema; memory_tool_schema cfg].
Proof. reflexivity. Qed.

Lemma set_heap_offers (tools : list pyval) (h : gmap positive (list message)) (s : state) :
  only_offers tools s (set_heap h s).
Proof. exists []. split; [simpl; now rewrite app_nil_r | constructor]. Qed.

Lemma list_new_offers {Y} (tools : list pyval) (items : list message) :
  preserves (only_offers tools) (@list_new rt Y items).
Proof. intros s. rewrite list_new_run. apply set_heap_offers. Qed.

Lemma list_append_offers {Y} (tools : list pyval) (l : positive) (m : message) :
  preserves (only_offers tools) (@list_append rt Y l m).
Proof. intros s. rewrite list_append_run. apply set_heap_offers. Qed.

Lemma client_chat_stream_offers {Y} (call : chat_call) :
  preserves (only_offers (cc_tools call)) (@client_chat_stream rt Y call).
Proof.
  intros s. unfold client_chat_stream.
  destruct (client_chat call (st_ext s)) as [[chunks err] e]. simpl.
  exists [call]. split; [reflexivity | now constructor].
Qed.

Lemma streaming_loop_offers (conversation : positive) (temperature : float)
    (max_tokens : Z) (tools : list pyval) :
  preserves (only_offers tools)
            (_streaming_loop cfg conversation temperature max_tokens (Some tools)).
Proof.
  unfold _streaming_loop, list_copy.
  apply preserves_bind; [apply only_offers_trans | |].
  - apply preserves_bind; [apply only_offers_trans | |].
    + intros s. apply only_offers_refl.
    + intros items. apply list_new_offers.
  - intros ctx. apply streaming_loop_on_preserves.
    + apply only_offers_refl.
    + apply only_offers_trans.
    + apply same_lists_and_calls_offers.
    + intros m. apply list_append_offers.
    + intros call <-. apply client_chat_stream_offers.
Qed.

Lemma chat_generate_offers (request : ChatRequest) (outgoing : positive) :
  preserves (only_offers (PYTHON_ONLY_TOOLS cfg)) (chat_generate cfg request outgoing).
Proof.
  unfold chat_generate.
  apply preserves_try_except; [apply only_offers_trans | |].
  - apply preserves_bind; [apply only_offers_trans | |].
    + apply preserves_async_for, streaming_loop_offers.
    + intros _. apply preserves_yield, only_offers_refl.
  - intros e. apply preserves_yield, only_offers_refl.
Qed.

Lemma chat_collect_offers (request : ChatRequest) (outgoing : positive) :
  preserves (only_offers (PYTHON_ONLY_TOOLS cfg)) (chat_collect cfg request outgoing).
Proof.
  unfold chat_collect.
  apply preserves_try_except; [apply only_offers_trans | |].
  - apply preserves_bind; [apply only_offers_trans | |].
    + apply preserves_async_for, streaming_loop_offers.
    + intros texts. apply preserves_ret, only_offers_refl.
  - intros e. apply preserves_raise, only_offers_refl.
Qed.

Lemma chat_offers (request : ChatRequest) :
  preserves (only_offers (PYTHON_ONLY_TOOLS cfg)) (chat cfg request).
Proof.
  unfold chat.
  apply preserves_bind; [apply only_offers_trans | apply list_new_offers |].
  intros outgoing. destruct (stream request).
  - apply preserves_bind; [apply only_offers_trans | apply chat_generate_offers |].
    intros _. apply preserves_ret, only_offers_refl.
  - apply preserves_bind; [apply only_offers_trans | apply chat_collect_offers |].
    intros answer. apply preserves_ret, only_offers_refl.
Qed.

Lemma member_turn_offers (request : ChatRequest) (outgoing : positive)
    (member_answers : gmap string string) (m : member) :
  preserves (only_offers (PYTHON_ONLY_TOOLS cfg))
            (member_turn cfg request outgoing member_answers m).
Proof.
  unfold member_turn.
  apply preserves_bind; [apply only_offers_trans | |].
  { intros s. apply only_offers_refl. }
  intros history.
  apply preserves_bind; [apply only_offers_trans | apply list_new_offers |].
  intros member_ctx.
  apply preserves_bind; [apply only_offers_trans | apply preserves_yield, only_offers_refl |].
  intros _.
  apply preserves_bind; [apply only_offers_trans | |].
  { apply preserves_async_for, streaming_loop_offers. }
  intros full_content.
  apply preserves_bind; [apply only_offers_trans | apply preserves_yield, only_offers_refl |].
  intros _. apply preserves_ret, only_offers_refl.
Qed.

Lemma leader_turn_offers (request : ChatRequest) (outgoing : positive)
    (member_answers : gmap string string) :
  preserves (only_offers (PYTHON_ONLY_TOOLS cfg))
            (leader_turn cfg request outgoing member_answers).
Proof.
  unfold leader_turn.
  apply preserves_bind; [apply only_offers_trans | |].
  { intros s. apply only_offers_refl. }
  intros history.
  apply preserves_bind; [apply only_offers_trans | apply list_new_offers |].
  intros leader_ctx.
  apply preserves_bind; [apply only_offers_trans | apply preserves_yield, only_offers_refl |].
  intros _.
  apply preserves_bind; [apply only_offers_trans | |].
  { apply preserves_async_for, streaming_loop_offers. }
  intros leader_answer. apply preserves_yield, only_offers_refl.
Qed.

Lemma chat_team_offers (request : ChatRequest) :
  preserves (only_offers (PYTHON_ONLY_TOOLS cfg)) (chat_team cfg request).
Proof.
  unfold chat_team.
  apply preserves_bind; [apply only_offers_trans | apply list_new_offers |].
  intros outgoing. unfold team_generate.
  apply preserves_try_except; [apply only_offers_trans | |].
  - unfold team_pipeline.
    apply preserves_bind; [apply only_offers_trans | |].
    + apply preserves_for_fold; [apply only_offers_refl | apply only_offers_trans |].
      intros acc m. apply member_turn_offers.
    + intros member_answers.
      apply preserves_bind; [apply only_offers_trans | apply leader_turn_offers |].
      intros _. apply preserves_yield, only_offers_refl.
  - intros e. apply preserves_yield, only_offers_refl.
Qed.

(** C3 (as amended).  The single-agent chat endpoint and the team endpoint
    (members and leader alike) offer the model the restricted registry,
    whose only tool is [python_exec], in every call they make; no endpoint
    offers the full registry. *)
Theorem endpoints_offer_python_only (request : ChatRequest) (s : state) :
  PYTHON_ONLY_TOOLS cfg = [python_exec_schema] /\
  (exists new,
     st_calls (final (chat cfg request s)) = st_calls s ++ new /\
     Forall (fun call => cc_tools call = [python_exec_schema]) new) /\
  (exists new,
     st_calls (final (chat_team cfg request s)) = st_calls s ++ new /\
     Forall (fun call => cc_tools call = [python_exec_schema]) new).
Proof.
  split; [apply python_only_tools|]. split.
  - apply (chat_offers request s).
  - apply (chat_team_offers request s).
Qed.

(** ** The context of the loop *)

Lemma has_field_besides_role_assistant (acc : collected) :
  has_field_besides_role (assistant_message acc) = true <-> said_something acc.
Proof.
  unfold has_field_besides_role, assistant_message, said_something,
    full_content, full_thinking. simpl.
  destruct (String.eqb_spec (strip (join_empty (collected_content acc))) "") as [Ec|Ec];
  destruct (String.eqb_spec (strip (join_empty (collected_thinking acc))) "") as [Et|Et];
  destruct (collected_tool_calls acc) as [|tc calls]; simpl;
    split; intros H; try reflexivity; try discriminate; auto;
    try (destruct H as [H|[H|H]]; contradiction);
    try (right; right; discriminate).
Qed.

Lemma append_assistant_said {Y} (ctx : positive) (acc : collected) (s : state) :
  said_something acc ->
  @append_assistant rt Y ctx acc s
  = Run [] (Ok tt)
        (set_heap (alter (fun items => items ++ [assistant_message acc]) ctx (st_heap s)) s).
Proof.
  intros H. unfold append_assistant.
  apply has_field_besides_role_assistant in H. now rewrite H.
Qed.

Lemma append_assistant_silent {Y} (ctx : positive) (acc : collected) (s : state) :
  ~ said_something acc -> @append_assistant rt Y ctx acc s = Run [] (Ok tt) s.
Proof.
  intros H. unfold append_assistant.
  destruct (has_field_besides_role (assistant_message acc)) eqn:E; [|reflexivity].
  apply has_field_besides_role_assistant in E. contradiction.
Qed.

Lemma said_something_dec (acc : collected) : said_something acc \/ ~ said_something acc.
Proof.
  destruct (has_field_besides_role (assistant_message acc)) eqn:E.
  - left. now apply has_field_besides_role_assistant.
  - right. intros H. apply has_field_besides_role_assistant in H. congruence.
Qed.

Lemma list_append_only_appends {Y} (ctx : positive) (m : message) :
  preserves (only_appends ctx) (@list_append rt Y ctx m).
Proof.
  intros s. rewrite list_append_run. exists [m]. simpl.
  now rewrite lookup_alter_eq.
Qed.

Lemma client_chat_stream_only_appends {Y} (ctx : positive) (call : chat_call) :
  preserves (only_appends ctx) (@client_chat_stream rt Y call).
Proof.
  intros s. exists []. rewrite client_chat_stream_same_lists.
  destruct (st_heap s !! ctx); simpl; [now rewrite app_nil_r | reflexivity].
Qed.

Lemma streaming_loop_on_only_appends (ctx : positive) (temperature : float) (max_tokens : Z)
    (tools : option (list pyval)) :
  preserves (only_appends ctx) (streaming_loop_on cfg ctx temperature max_tokens tools).
Proof.
  apply streaming_loop_on_preserves.
  - apply only_appends_refl.
  - apply only_appends_trans.
  - apply same_lists_and_calls_appends.
  - intros m. apply list_append_only_appends.
  - intros call _. apply client_chat_stream_only_appends.
Qed.

Lemma tool_round_only_appends (ctx : positive) (temperature : float) (max_tokens : Z)
    (tools : option (list pyval)) :
  preserves (only_appends ctx) (tool_round cfg ctx temperature max_tokens tools).
Proof.
  apply tool_round_preserves.
  - apply only_appends_refl.
  - apply only_appends_trans.
  - apply same_lists_and_calls_appends.
  - intros m. apply list_append_only_appends.
  - intros call _. apply client_chat_stream_only_appends.
Qed.

Lemma client_chat_stream_run {Y} (call : chat_call) (s : state)
    (chunks : list chunk) (err : option exn) (e : ext) :
  client_chat call (st_ext s) = (chunks, err, e) ->
  @client_chat_stream rt Y call s = Run [] (Ok (chunks, err)) (log_call call (set_ext e s)).
Proof. intros H. unfold client_chat_stream. now rewrite H. Qed.

Lemma receive_run (chunks : list chunk) (s : state) :
  @receive rt (chunks, None) s = Run (fst (collect chunks)) (Ok (snd (collect chunks))) s.
Proof. unfold receive, bind, yield_all, ret. simpl. now rewrite app_nil_r. Qed.

Lemma receive_run_raise (chunks : list chunk) (e : exn) (s : state) :
  @receive rt (chunks, Some e) s = Run (fst (collect chunks)) (Raise e) s.
Proof. unfold receive, bind, yield_all, raise. simpl. now rewrite app_nil_r. Qed.

(** A round in which the model says nothing ends the loop and leaves the
    lists as they are. *)
Lemma tool_round_silent (ctx : positive) (temperature : float) (max_tokens : Z)
    (tools : option (list pyval)) (s : state) (chunks : list chunk) (e : ext) :
  let call := round_call cfg (default [] (st_heap s !! ctx)) temperature max_tokens tools in
  client_chat call (st_ext s) = (chunks, None, e) ->
  ~ said_something (snd (collect chunks)) ->
  tool_round cfg ctx temperature max_tokens tools s
  = Run (fst (collect chunks)) (Ok Return) (log_call call (set_ext e s)).
Proof.
  intros call Hc Hs. unfold tool_round.
  rewrite (bind_run_ok _ _ s s [] (default [] (st_heap s !! ctx))) by reflexivity.
  fold call.
  rewrite (bind_run_ok _ _ _ _ _ _ (client_chat_stream_run call s _ _ _ Hc)).
  rewrite (bind_run_ok _ _ _ _ _ _ (receive_run chunks _)).
  rewrite (bind_run_ok _ _ _ _ _ _ (append_assistant_silent ctx _ _ Hs)).
  assert (Hcalls : collected_tool_calls (snd (collect chunks)) = []).
  { destruct (collected_tool_calls (snd (collect chunks))) eqn:E; [reflexivity|].
    destruct Hs. right; right. rewrite E. discriminate. }
  rewrite Hcalls. simpl. now rewrite app_nil_r.
Qed.

Lemma appends_tool_messages_refl (ctx : positive) (s : state) : appends_tool_messages ctx s s.
Proof.
  exists []. split; [constructor|].
  destruct (st_heap s !! ctx); simpl; [now rewrite app_nil_r | reflexivity].
Qed.

Lemma appends_tool_messages_trans (ctx : positive) (s1 s2 s3 : state) :
  appends_tool_messages ctx s1 s2 -> appends_tool_messages ctx s2 s3 ->
  appends_tool_messages ctx s1 s3.
Proof.
  intros (a1 & F1 & E1) (a2 & F2 & E2). exists (a1 ++ a2). split.
  - now apply Forall_app.
  - rewrite E2, E1. destruct (st_heap s1 !! ctx); simpl; [now rewrite app_assoc | reflexivity].
Qed.

Lemma execute_tool_call_appends_tool (ctx : positive) (tc : tool_call) :
  preserves (appends_tool_messages ctx) (execute_tool_call cfg ctx tc).
Proof.
  unfold execute_tool_call.
  apply preserves_bind; [apply appends_tool_messages_trans | |].
  { apply preserves_yield, appends_tool_messages_refl. }
  intros _. apply preserves_bind; [apply appends_tool_messages_trans | |].
  { intros s. destruct (dispatch_tool_same (Y:=event)
      (default "" (fn_name (default {| fn_name := None; fn_arguments := None |} (tc_function tc))))
      (default PNone (fn_arguments (default {| fn_name := None; fn_arguments := None |} (tc_function tc))))
      s) as [Hh _].
    exists []. split; [constructor|]. rewrite Hh.
    destruct (st_heap s !! ctx); simpl; [now rewrite app_nil_r | reflexivity]. }
  intros tool_result. apply preserves_bind; [apply appends_tool_messages_trans | |].
  { apply preserves_yield, appends_tool_messages_refl. }
  intros _ s. rewrite list_append_run. simpl.
  eexists [tool_message _ _ _]. split; [constructor; [reflexivity | constructor]|].
  simpl. now rewrite lookup_alter_eq.
Qed.

(** What a round whose stream ends normally does to the context. *)
Lemma tool_round_context (ctx : positive) (temperature : float) (max_tokens : Z)
    (tools : option (list pyval)) (s : state) (items : list message)
    (chunks : list chunk) (e : ext) :
  st_heap s !! ctx = Some items ->
  client_chat (round_call cfg items temperature max_tokens tools) (st_ext s)
    = (chunks, None, e) ->
  (said_something (snd (collect chunks)) ->
   exists tool_messages,
     Forall (fun m => msg_role m = "tool") tool_messages /\
     st_heap (final (tool_round cfg ctx temperature max_tokens tools s)) !! ctx
     = Some (items ++ [assistant_message (snd (collect chunks))] ++ tool_messages)) /\
  (~ said_something (snd (collect chunks)) ->
   st_heap (final (tool_round cfg ctx temperature max_tokens tools s)) !! ctx = Some items).
Proof.
  intros Hctx Hc. split.
  - intros Hs. unfold tool_round.
    rewrite (bind_run_ok _ _ s s [] (default [] (st_heap s !! ctx))) by reflexivity.
    rewrite Hctx. simpl default.
    change {| cc_model := MODEL_NAME cfg; cc_messages := items;
              cc_tools := match tools with Some t => t | None => TOOLS cfg end;
              cc_temperature := temperature; cc_num_predict := max_tokens |}
      with (round_call cfg items temperature max_tokens tools).
    rewrite (bind_run_ok _ _ _ _ _ _ (client_chat_stream_run _ s _ _ _ Hc)).
    rewrite (bind_run_ok _ _ _ _ _ _ (receive_run chunks _)).
    rewrite (bind_run_ok _ _ _ _ _ _ (append_assistant_said ctx _ _ Hs)).
    set (acc := snd (collect chunks)).
    set (s2 := set_heap _ _).
    assert (H2 : st_heap s2 !! ctx = Some (items ++ [assistant_message acc])).
    { subst s2. simpl. now rewrite lookup_alter_eq, Hctx. }
    destruct (collected_tool_calls acc) as [|tc calls] eqn:Ecalls.
    + exists []. split; [constructor|]. cbn [final]. unfold ret. cbn [final].
      now rewrite H2, app_nil_r.
    + destruct (preserves_for_each (appends_tool_messages ctx)
                  (appends_tool_messages_refl ctx) (appends_tool_messages_trans ctx)
                  (tc :: calls) (execute_tool_call cfg ctx)
                  (execute_tool_call_appends_tool ctx) s2) as (app & Fapp & Eapp).
      exists app. split; [assumption|].
      rewrite H2 in Eapp. cbn [fmap option_fmap option_map] in Eapp.
      cbn [final]. unfold bind at 1.
      destruct (outcome (for_each (tc :: calls) (execute_tool_call cfg ctx) s2));
        cbn [final]; unfold ret; cbn [final]; rewrite Eapp; now rewrite <- app_assoc.
  - intros Hs.
    pose proof (tool_round_silent ctx temperature max_tokens tools s chunks e) as H.
    simpl in H. rewrite Hctx in H. simpl in H. rewrite (H Hc Hs). simpl. assumption.
Qed.

(** A round whose stream fails appends nothing. *)
Lemma tool_round_stream_failure (ctx : positive) (temperature : float) (max_tokens : Z)
    (tools : option (list pyval)) (s : state) (chunks : list chunk) (err : exn) (e : ext) :
  client_chat (round_call cfg (default [] (st_heap s !! ctx)) temperature max_tokens tools)
              (st_ext s) = (chunks, Some err, e) ->
  outcome (tool_round cfg ctx temperature max_tokens tools s) = Raise err /\
  st_heap (final (tool_round cfg ctx temperature max_tokens tools s)) = st_heap s.
Proof.
  intros Hc. unfold tool_round.
  rewrite (bind_run_ok _ _ s s [] (default [] (st_heap s !! ctx))) by reflexivity.
  rewrite (bind_run_ok _ _ _ _ _ _ (client_chat_stream_run _ s _ _ _ Hc)).
  rewrite (bind_run_raise _ _ _ _ _ _ (receive_run_raise chunks err _)).
  now split.
Qed.


(** ** Running the loop *)

(** A round whose stream ends normally, as one step. *)
Lemma tool_round_run (ctx : positive) (temperature : float) (max_tokens : Z)
    (tools : option (list pyval)) (s : state) (chunks : list chunk) (e : ext) :
  let call := round_call cfg (default [] (st_heap s !! ctx)) temperature max_tokens tools in
  client_chat call (st_ext s) = (chunks, None, e) ->
  let acc := snd (collect chunks) in
  let s2 := final (@append_assistant rt event ctx acc (log_call call (set_ext e s))) in
  tool_round cfg ctx temperature max_tokens tools s
  = match collected_tool_calls acc with
    | [] => Run (fst (collect chunks)) (Ok Return) s2
    | calls =>
        let r := for_each calls (execute_tool_call cfg ctx) s2 in
        Run (fst (collect chunks) ++ yielded r)
            (match outcome r with Ok _ => Ok Continue | Raise err => Raise err end)
            (final r)
    end.
Proof.
  intros call Hc acc s2. unfold tool_round.
  rewrite (bind_run_ok _ _ s s [] (default [] (st_heap s !! ctx))) by reflexivity.
  fold call.
  rewrite (bind_run_ok _ _ _ _ _ _ (client_chat_stream_run call s _ _ _ Hc)).
  rewrite (bind_run_ok _ _ _ _ _ _ (receive_run chunks _)).
  fold acc.
  assert (Ha : @append_assistant rt event ctx acc (log_call call (set_ext e s))
               = Run [] (Ok tt) s2).
  { subst s2. unfold append_assistant.
    destruct (has_field_besides_role (assistant_message acc)); reflexivity. }
  rewrite (bind_run_ok _ _ _ _ _ _ Ha).
  destruct (collected_tool_calls acc) as [|tc calls].
  - cbn. now rewrite app_nil_r.
  - cbv zeta. generalize (for_each (tc :: calls) (execute_tool_call cfg ctx)).
    intros loop. unfold bind, ret.
    destruct (outcome (loop s2)); cbn; rewrite ?app_nil_r; reflexivity.
Qed.

Lemma execute_tool_call_run (ctx : positive) (tc : tool_call) (s : state) :
  let d := @dispatch_tool cfg rt event (requested_tool tc) (requested_arguments tc) s in
  execute_tool_call cfg ctx tc s
  = match outcome d with
    | Ok tool_result =>
        Run (EvToolRequest (requested_tool tc) (shown_arguments tc)
               :: yielded d ++ [EvToolResult (requested_tool tc) tool_result])
            (Ok tt)
            (set_heap (alter (fun items =>
                                items ++ [tool_message (requested_tool tc) tool_result (tc_id tc)])
                             ctx (st_heap (final d))) (final d))
    | Raise err =>
        Run (EvToolRequest (requested_tool tc) (shown_arguments tc) :: yielded d)
            (Raise err) (final d)
    end.
Proof.
  intros d. subst d.
  unfold execute_tool_call, bind, yield, list_append, modify.
  fold (requested_tool tc). fold (requested_arguments tc). fold (shown_arguments tc).
  cbn -[dispatch_tool requested_tool requested_arguments shown_arguments].
  destruct (outcome (dispatch_tool cfg (requested_tool tc) (requested_arguments tc) s))
    as [tool_result|err];
    cbn -[dispatch_tool requested_tool requested_arguments shown_arguments];
    rewrite ?app_nil_r; reflexivity.
Qed.

Lemma dispatch_memory_tool_number {Y} (s : state) :
  @dispatch_tool cfg rt Y "memory_tool" (PDict [("content", PInt 5)]) s
  = Run [] (Raise (TypeError "object of type 'int' has no len()")) s.
Proof. reflexivity. Qed.

Lemma model_reply (call : chat_call) (e : ext) (reply : list chunk * option exn) :
  fst (client_chat call e) = reply ->
  exists e', client_chat call e = (fst reply, snd reply, e').
Proof.
  intros <-. destruct (client_chat call e) as [[chunks err] e']. now exists e'.
Qed.

Lemma append_assistant_calls {Y} (ctx : positive) (acc : collected) (s : state) :
  st_calls (final (@append_assistant rt Y ctx acc s)) = st_calls s.
Proof.
  unfold append_assistant.
  destruct (has_field_besides_role (assistant_message acc)); reflexivity.
Qed.

(** C6 (the failing input).  A [memory_tool] call whose [content] is the
    number 5 is not answered with a result: [len(5)] raises a [TypeError]
    that nothing in [dispatch_tool] catches. *)
Theorem dispatch_memory_tool_number_raises (s : state) :
  outcome (@dispatch_tool cfg rt event "memory_tool" (PDict [("content", PInt 5)]) s)
  = Raise (TypeError "object of type 'int' has no len()") /\
  ~ exists tool_result,
      outcome (@dispatch_tool cfg rt event "memory_tool" (PDict [("content", PInt 5)]) s)
      = Ok tool_result.
Proof.
  rewrite dispatch_memory_tool_number. split; [reflexivity|].
  intros [tool_result H]. discriminate.
Qed.

(** C1 (the failing input).  With a model that asks, at every call, to
    store the number 5 as the memory, and a round limit of at least one,
    the loop does not run its rounds to the limit: the first tool call
    raises, the loop ends there with that exception after one model call
    and one [tool_request] event, without a [tool_result] and without the
    round-limit message. *)
Theorem streaming_loop_aborts_on_memory_number (conversation : positive)
    (temperature : float) (max_tokens : Z) (tools : option (list pyval)) (s : state) :
  0 < MAX_TOOL_ROUNDS cfg ->
  (forall call e, fst (client_chat call e) = Stub.memory_model call 0%nat) ->
  let r := _streaming_loop cfg conversation temperature max_tokens tools s in
  yielded r = [EvToolRequest "memory_tool" (PDict [("content", PInt 5)])] /\
  outcome r = Raise (TypeError "object of type 'int' has no len()") /\
  length (st_calls (final r)) = S (length (st_calls s)).
Proof.
  intros Hmax Hmodel r. subst r. unfold _streaming_loop.
  rewrite (bind_run_ok _ _ _ _ _ _ (list_copy_run conversation s)).
  set (ctx := fresh (dom (st_heap s))). set (s1 := set_heap _ s).
  unfold streaming_loop_on.
  destruct (Z.to_nat (MAX_TOOL_ROUNDS cfg)) as [|n] eqn:En; [lia|].
  cbn [tool_rounds].
  destruct (model_reply _ (st_ext s1) _ (Hmodel
    (round_call cfg (default [] (st_heap s1 !! ctx)) temperature max_tokens tools) (st_ext s1)))
    as [e' Hc].
  pose proof (tool_round_run ctx temperature max_tokens tools s1 _ e' Hc) as Hr.
  cbv zeta in Hr.
  change (Stub.memory_model _ 0%nat).1
    with [Stub.chunk_of None None [Stub.call_tool "memory_tool" (PDict [("content", PInt 5)])]]
    in Hr.
  change (collect [Stub.chunk_of None None
                     [Stub.call_tool "memory_tool" (PDict [("content", PInt 5)])]])
    with (@nil event,
          {| collected_content := []; collected_thinking := [];
             collected_tool_calls :=
               [Stub.call_tool "memory_tool" (PDict [("content", PInt 5)])] |}) in Hr.
  cbn [fst snd collected_tool_calls for_each app] in Hr.
  set (s2 := final (append_assistant _ _ _)) in Hr.
  unfold bind in Hr.
  rewrite execute_tool_call_run in Hr.
  change (requested_tool (Stub.call_tool "memory_tool" (PDict [("content", PInt 5)])))
    with "memory_tool" in Hr.
  change (requested_arguments (Stub.call_tool "memory_tool" (PDict [("content", PInt 5)])))
    with (PDict [("content", PInt 5)]) in Hr.
  rewrite dispatch_memory_tool_number in Hr.
  cbn [outcome yielded final app] in Hr.
  rewrite (bind_run_raise _ _ _ _ _ _ (bind_run_raise _ _ _ _ _ _ Hr)).
  cbn [outcome yielded final app].
  repeat split.
  subst s2. rewrite append_assistant_calls. simpl.
  rewrite length_app. simpl. lia.
Qed.

(** ** The round limit, for tool calls that the dispatcher answers *)

Lemma run_python_tool_yields_nothing {Y} (code : string) (s : state) :
  yielded (@run_python_tool cfg rt Y code s) = [].
Proof.
  unfold run_python_tool.
  destruct (String.eqb (strip code) ""); [reflexivity|].
  unfold bind, get_state, modify; simpl.
  destruct (subprocess_run _ _ _) as [[rc out err| |e] e']; reflexivity.
Qed.

Lemma run_memory_tool_yields_nothing {Y} (content : pyval) (s : state) :
  yielded (@run_memory_tool cfg rt Y content s) = [].
Proof.
  unfold run_memory_tool.
  destruct (negb (truthy content)); [reflexivity|].
  unfold bind, lift. destruct (py_len content) as [n|e]; simpl; [|reflexivity].
  destruct (n >? MAX_MEMORY_CHARS cfg); simpl; [|reflexivity].
  destruct (py_slice_to content (MAX_MEMORY_CHARS cfg)); reflexivity.
Qed.

Lemma dispatch_tool_yields_nothing {Y} (tool_name : string) (raw_args : pyval) (s : state) :
  yielded (@dispatch_tool cfg rt Y tool_name raw_args s) = [].
Proof.
  unfold dispatch_tool.
  destruct (String.eqb tool_name "python_exec"); [apply run_python_tool_yields_nothing|].
  destruct (String.eqb tool_name "memory_tool"); [apply run_memory_tool_yields_nothing|].
  reflexivity.
Qed.

Lemma absorb_chunk_yields_text (acc : collected) (c : chunk) :
  Forall is_text (fst (absorb_chunk acc c)).
Proof.
  unfold absorb_chunk.
  destruct (nonempty_text _); destruct (nonempty_text _); simpl;
    repeat constructor.
Qed.

Lemma feed_absorb_yields_text (chunks : list chunk) (acc : collected) :
  Forall is_text (fst (feed absorb_chunk chunks acc)).
Proof.
  revert acc. induction chunks as [|c chunks IH]; intros acc; simpl; [constructor|].
  pose proof (absorb_chunk_yields_text acc c) as Hc.
  destruct (absorb_chunk acc c) as [out acc'].
  pose proof (IH acc') as Ht.
  destruct (feed absorb_chunk chunks acc') as [outs acc'']. simpl in *.
  now apply Forall_app.
Qed.

Lemma collect_yields_text (chunks : list chunk) : Forall is_text (fst (collect chunks)).
Proof. apply feed_absorb_yields_text. Qed.

Lemma execute_tool_calls_run (ctx : positive) (calls : list tool_call) :
  Forall (dispatch_returns cfg) calls ->
  forall s, exists pairs s',
    for_each calls (execute_tool_call cfg ctx) s = Run pairs (Ok tt) s' /\
    tool_pairs pairs /\ (calls <> [] -> pairs <> []) /\ st_calls s' = st_calls s.
Proof.
  induction 1 as [|tc calls Htc _ IH]; intros s.
  - exists [], s. repeat split; [constructor | congruence].
  - destruct (Htc s) as [tool_result Hd].
    pose proof (execute_tool_call_run ctx tc s) as Hrun. cbv zeta in Hrun.
    rewrite Hd, dispatch_tool_yields_nothing in Hrun.
    destruct (dispatch_tool_same (Y:=event) (requested_tool tc) (requested_arguments tc) s)
      as [_ Hcalls].
    set (s1 := set_heap _ _) in Hrun.
    destruct (IH s1) as (pairs & s' & Hrest & Hpairs & _ & Hc').
    exists (EvToolRequest (requested_tool tc) (shown_arguments tc)
              :: EvToolResult (requested_tool tc) tool_result :: pairs), s'.
    repeat split.
    + cbn [for_each]. rewrite (bind_run_ok _ _ _ _ _ _ Hrun), Hrest. reflexivity.
    + now constructor.
    + discriminate.
    + rewrite Hc'. subst s1. simpl. assumption.
Qed.

Lemma tool_round_calls_tools (ctx : positive) (temperature : float) (max_tokens : Z)
    (tools : option (list pyval)) :
  always_calls_tools cfg ->
  forall s, exists events s',
    tool_round cfg ctx temperature max_tokens tools s = Run events (Ok Continue) s' /\
    round_events events /\ length (st_calls s') = S (length (st_calls s)).
Proof.
  intros Hmodel s.
  destruct (Hmodel (round_call cfg (default [] (st_heap s !! ctx)) temperature max_tokens tools)
                   (st_ext s)) as (chunks & e' & Hc & Hne & Hret).
  pose proof (tool_round_run ctx temperature max_tokens tools s chunks e' Hc) as Hr.
  cbv zeta in Hr.
  set (s2 := final (append_assistant _ _ _)) in Hr.
  destruct (execute_tool_calls_run ctx _ Hret s2) as (pairs & s' & Hrun & Hpairs & Hnil & Hcalls).
  destruct (collected_tool_calls (snd (collect chunks))) as [|tc calls] eqn:E; [congruence|].
  rewrite Hrun in Hr. cbn [yielded outcome final] in Hr.
  exists (fst (collect chunks) ++ pairs), s'. repeat split.
  - assumption.
  - exists (fst (collect chunks)), pairs.
    repeat split; auto using collect_yields_text.
  - rewrite Hcalls. subst s2. rewrite append_assistant_calls. simpl.
    rewrite length_app. simpl. lia.
Qed.

Lemma tool_rounds_calls_tools (ctx : positive) (temperature : float) (max_tokens : Z)
    (tools : option (list pyval)) (rounds : nat) :
  always_calls_tools cfg ->
  forall s, exists events s',
    tool_rounds cfg rounds ctx temperature max_tokens tools s
      = Run (concat events) (Ok Continue) s' /\
    length events = rounds /\ Forall round_events events /\
    length (st_calls s') = (length (st_calls s) + rounds)%nat.
Proof.
  intros Hmodel. induction rounds as [|n IH]; intros s.
  - exists [], s. repeat split; [constructor | simpl; lia].
  - destruct (tool_round_calls_tools ctx temperature max_tokens tools Hmodel s)
      as (evs & s1 & Hround & Hshape & Hc1).
    destruct (IH s1) as (events & s' & Hrest & Hlen & Hall & Hc').
    exists (evs :: events), s'. repeat split.
    + cbn [tool_rounds]. rewrite (bind_run_ok _ _ _ _ _ _ Hround), Hrest. reflexivity.
    + simpl. now rewrite Hlen.
    + now constructor.
    + rewrite Hc', Hc1. lia.
Qed.

(** The round limit.  When the model asks for at least one tool call at
    every invocation and the dispatcher answers each of them, the loop runs
    exactly [MAX_TOOL_ROUNDS] rounds, each yielding its text events and its
    [tool_request]/[tool_result] pairs, calls the model once per round and
    not again, yields the round-limit message as its last event, and ends
    normally. *)
Lemma streaming_loop_round_limit (conversation : positive) (temperature : float)
    (max_tokens : Z) (tools : option (list pyval)) (s : state) :
  always_calls_tools cfg ->
  let r := _streaming_loop cfg conversation temperature max_tokens tools s in
  exists events,
    length events = Z.to_nat (MAX_TOOL_ROUNDS cfg) /\
    Forall round_events events /\
    yielded r = concat events ++ [EvContent limit_message] /\
    outcome r = Ok tt /\
    length (st_calls (final r))
    = (length (st_calls s) + Z.to_nat (MAX_TOOL_ROUNDS cfg))%nat.
Proof.
  intros Hmodel r. subst r. unfold _streaming_loop.
  rewrite (bind_run_ok _ _ _ _ _ _ (list_copy_run conversation s)).
  set (ctx := fresh (dom (st_heap s))). set (s1 := set_heap _ s).
  destruct (tool_rounds_calls_tools ctx temperature max_tokens tools
              (Z.to_nat (MAX_TOOL_ROUNDS cfg)) Hmodel s1)
    as (events & s' & Hrun & Hlen & Hall & Hcalls).
  exists events. unfold streaming_loop_on.
  rewrite (bind_run_ok _ _ _ _ _ _ Hrun). cbn.
  repeat split; assumption.
Qed.

(** ** The team pipeline *)

Lemma forward_one (e : event) : forward e = [_sse_from_event e].
Proof. destruct e; reflexivity. Qed.

Lemma feed_forward_and_collect (events : list event) (text : string) :
  feed forward_and_collect events text = (flat_map forward events, content_text events text).
Proof.
  revert text. induction events as [|e events IH]; intros text; [reflexivity|].
  cbn [feed flat_map content_text fold_left]. unfold forward_and_collect at 1.
  rewrite IH. destruct e; reflexivity.
Qed.

Lemma async_for_forward_run (g : Gen event unit) (s : state) :
  async_for g forward_and_collect "" s
  = Run (flat_map forward (yielded (g s)))
        (match outcome (g s) with
         | Ok _ => Ok (content_text (yielded (g s)) "")
         | Raise e => Raise e
         end)
        (final (g s)).
Proof.
  unfold async_for. rewrite feed_forward_and_collect.
  destruct (outcome (g s)); reflexivity.
Qed.

Lemma member_turn_run (request : ChatRequest) (outgoing : positive)
    (member_answers : gmap string string) (m : member) (s : state) :
  let history := default [] (st_heap s !! outgoing) in
  let ctx := fresh (dom (st_heap s)) in
  let s1 := set_heap (<[ctx := system_message (m_system_prompt m) :: history]> (st_heap s)) s in
  let r := _streaming_loop cfg ctx (temperature request) (max_tokens request)
                           (Some (PYTHON_ONLY_TOOLS cfg)) s1 in
  member_turn cfg request outgoing member_answers m s
  = match outcome r with
    | Ok _ =>
        Run (member_start m :: flat_map forward (yielded r) ++ [member_end m])
            (Ok (<[m_id m := content_text (yielded r) ""]> member_answers))
            (final r)
    | Raise e => Run (member_start m :: flat_map forward (yielded r)) (Raise e) (final r)
    end.
Proof.
  intros history ctx s1 r. unfold member_turn.
  rewrite (bind_run_ok _ _ s s [] history) by reflexivity.
  rewrite (bind_run_ok _ _ _ _ _ _ (list_new_run _ s)). fold ctx s1.
  rewrite (bind_run_ok _ _ s1 s1 [member_start m] tt) by reflexivity.
  pose proof (async_for_forward_run
    (_streaming_loop cfg ctx (temperature request) (max_tokens request)
                     (Some (PYTHON_ONLY_TOOLS cfg))) s1) as Ha.
  fold r in Ha. clearbody r.
  destruct (outcome r) as [[]|e].
  - rewrite (bind_run_ok _ _ _ _ _ _ Ha). cbn [yielded outcome final app].
    unfold bind, yield, ret. cbn [yielded outcome final app].
    rewrite ?app_nil_r. reflexivity.
  - rewrite (bind_run_raise _ _ _ _ _ _ Ha). cbn [yielded outcome final app].
    rewrite ?app_nil_r. reflexivity.
Qed.

Lemma leader_turn_run (request : ChatRequest) (outgoing : positive)
    (member_answers : gmap string string) (s : state) :
  let history := default [] (st_heap s !! outgoing) in
  let question := match last history with
                  | Some m => default "" (msg_content m)
                  | None => ""
                  end in
  let ctx := fresh (dom (st_heap s)) in
  let s1 := set_heap (<[ctx := [system_message (m_system_prompt (TEAM_LEADER cfg));
                                user_message (leader_user_msg cfg question member_answers)]]>
                        (st_heap s)) s in
  let r := _streaming_loop cfg ctx (temperature request) (max_tokens request)
                           (Some (PYTHON_ONLY_TOOLS cfg)) s1 in
  leader_turn cfg request outgoing member_answers s
  = match outcome r with
    | Ok _ =>
        Run (leader_start (TEAM_LEADER cfg) :: flat_map forward (yielded r)
               ++ [leader_end (TEAM_LEADER cfg)])
            (Ok tt) (final r)
    | Raise e =>
        Run (leader_start (TEAM_LEADER cfg) :: flat_map forward (yielded r)) (Raise e) (final r)
    end.
Proof.
  intros history question ctx s1 r. unfold leader_turn.
  rewrite (bind_run_ok _ _ s s [] history) by reflexivity.
  fold question.
  rewrite (bind_run_ok _ _ _ _ _ _ (list_new_run _ s)). fold ctx s1.
  rewrite (bind_run_ok _ _ s1 s1 [leader_start (TEAM_LEADER cfg)] tt) by reflexivity.
  pose proof (async_for_forward_run
    (_streaming_loop cfg ctx (temperature request) (max_tokens request)
                     (Some (PYTHON_ONLY_TOOLS cfg))) s1) as Ha.
  fold r in Ha. clearbody r.
  destruct (outcome r) as [[]|e].
  - rewrite (bind_run_ok _ _ _ _ _ _ Ha). cbn [yielded outcome final app].
    unfold bind, yield, ret. cbn [yielded outcome final app].
    rewrite ?app_nil_r. reflexivity.
  - rewrite (bind_run_raise _ _ _ _ _ _ Ha). cbn [yielded outcome final app].
    rewrite ?app_nil_r. reflexivity.
Qed.

Lemma for_fold_cons {Y A B} (x : A) (l : list A) (body : B -> A -> Gen Y B) (acc : B) :
  for_fold (x :: l) body acc = bind (body acc x) (fun acc' => for_fold l body acc').
Proof. reflexivity. Qed.

Lemma try_except_run {Y A} (m : Gen Y A) (handler : exn -> Gen Y A) (s : state) :
  try_except m handler s
  = match outcome (m s) with
    | Ok _ => m s
    | Raise e =>
        Run (yielded (m s) ++ yielded (handler e (final (m s))))
            (outcome (handler e (final (m s))))
            (final (handler e (final (m s))))
    end.
Proof. reflexivity. Qed.

Lemma yield_run {Y} (y : Y) (s : state) : yield y s = Run [y] (Ok tt) s.
Proof. reflexivity. Qed.

Lemma team_pipeline_eq (request : ChatRequest) (outgoing : positive) :
  team_pipeline cfg request outgoing
  = bind (for_fold (TEAM_MEMBERS cfg) (member_turn cfg request outgoing) ∅)
         (fun member_answers =>
            bind (leader_turn cfg request outgoing member_answers)
                 (fun _ => yield sse_done)).
Proof. reflexivity. Qed.

Lemma bind_ok_inv {Y A B} (m : Gen Y A) (k : A -> Gen Y B) (s : state) (b : B) :
  outcome (bind m k s) = Ok b ->
  exists a,
    outcome (m s) = Ok a /\
    outcome (k a (final (m s))) = Ok b /\
    yielded (bind m k s) = yielded (m s) ++ yielded (k a (final (m s))) /\
    final (bind m k s) = final (k a (final (m s))).
Proof.
  unfold bind. destruct (outcome (m s)) as [a|e]; cbn [outcome yielded final].
  - intros H. exists a. repeat split. assumption.
  - discriminate.
Qed.

Lemma list_new_lookup (items : list message) (s : state) :
  st_heap (set_heap (<[fresh (dom (st_heap s)) := items]> (st_heap s)) s)
    !! fresh (dom (st_heap s)) = Some items.
Proof. simpl. apply lookup_insert_eq. Qed.

Lemma list_new_lookup_other (items old : list message) (l : positive) (s : state) :
  st_heap s !! l = Some old ->
  st_heap (set_heap (<[fresh (dom (st_heap s)) := items]> (st_heap s)) s) !! l = Some old.
Proof.
  intros H. simpl. rewrite lookup_insert_ne; [assumption|].
  intros E. symmetry in E. revert E. eapply fresh_list_not_allocated; eauto.
Qed.

(** One member's turn, when it completes: the list of the request is left
    as it is, the content text of the member's run is recorded as its
    answer, and the turn yields the member's block. *)
Lemma member_turn_step (request : ChatRequest) (outgoing : positive)
    (member_answers : gmap string string) (m : member) (s : state) :
  st_heap s !! outgoing = Some (map outgoing_message (messages request)) ->
  forall answers,
    outcome (member_turn cfg request outgoing member_answers m s) = Ok answers ->
    st_heap (final (member_turn cfg request outgoing member_answers m s)) !! outgoing
    = Some (map outgoing_message (messages request)) /\
    exists events,
      member_run cfg request m events /\
      answers = <[m_id m := content_text events ""]> member_answers /\
      yielded (member_turn cfg request outgoing member_answers m s)
      = member_start m :: flat_map forward events ++ [member_end m].
Proof.
  intros Hout answers.
  rewrite member_turn_run. cbv zeta. rewrite Hout. cbn [default from_option id].
  generalize (list_new_lookup (system_message (m_system_prompt m)
                                 :: map outgoing_message (messages request)) s).
  generalize (list_new_lookup_other (system_message (m_system_prompt m)
                                 :: map outgoing_message (messages request)) _ _ s Hout).
  generalize (fresh (dom (st_heap s))). intros ctx.
  generalize (set_heap (<[ctx:=system_message (m_system_prompt m)
                                :: map outgoing_message (messages request)]> (st_heap s)) s).
  intros s1 Hout1 Hctx.
  pose proof (streaming_loop_keeps_lists ctx (temperature request) (max_tokens request)
                (Some (PYTHON_ONLY_TOOLS cfg)) s1 _ _ Hout1) as Hout2.
  assert (Hrun : member_run cfg request m
            (yielded (_streaming_loop cfg ctx (temperature request) (max_tokens request)
                                      (Some (PYTHON_ONLY_TOOLS cfg)) s1))).
  { exists s1, ctx. split; [assumption | reflexivity]. }
  revert Hrun Hout2.
  generalize (_streaming_loop cfg ctx (temperature request) (max_tokens request)
                              (Some (PYTHON_ONLY_TOOLS cfg)) s1).
  intros [events [[]|e] s2]; cbn [yielded outcome final]; intros Hrun Hout2 Hr;
    [|discriminate].
  injection Hr as <-. split; [assumption|].
  exists events. split; [assumption|]. split; reflexivity.
Qed.

(** The members' turns, when they all complete: the list of the request
    is left as it is, every member has its answer recorded, the answers
    under other ids are untouched, and the stream is the sequence of the
    members' blocks. *)
Lemma member_turns_run (request : ChatRequest) (outgoing : positive) (members : list member) :
  forall (member_answers : gmap string string) (s : state) (answers : gmap string string),
    st_heap s !! outgoing = Some (map outgoing_message (messages request)) ->
    outcome (for_fold members (member_turn cfg request outgoing) member_answers s)
    = Ok answers ->
    st_heap (final (for_fold members (member_turn cfg request outgoing) member_answers s))
      !! outgoing = Some (map outgoing_message (messages request)) /\
    answers_recorded cfg request members answers /\
    (forall k, ~ In k (map m_id members) -> answers !! k = member_answers !! k) /\
    exists blocks,
      Forall2 (member_block cfg request) members blocks /\
      yielded (for_fold members (member_turn cfg request outgoing) member_answers s)
      = concat blocks.
Proof.
  induction members as [|m members IH]; intros member_answers s answers Hout Hr.
  - injection Hr as <-. split; [assumption|]. split; [intros m []|]. split; [reflexivity|].
    exists []. split; [constructor | reflexivity].
  - rewrite for_fold_cons in *.
    destruct (bind_ok_inv _ _ _ _ Hr) as (answers1 & H1 & H2 & Hy & Hf).
    destruct (member_turn_step request outgoing member_answers m s Hout answers1 H1)
      as (Hout1 & events & Hrun & -> & Hym).
    destruct (IH _ _ _ Hout1 H2) as (Hfin & Hrec & Hkeep & blocks & Hblocks & Hys).
    rewrite Hy, Hf. split; [assumption|]. split; [|split].
    + intros m0 [<-|Hin].
      * destruct (in_dec string_dec (m_id m) (map m_id members)) as [Hlater|Hlast].
        -- apply in_map_iff in Hlater. destruct Hlater as (m2 & Hid & Hin2).
           destruct (Hrec m2 Hin2) as (m' & evs & Hin' & Hid' & Hrun' & Hans).
           exists m', evs. rewrite <- Hid.
           split; [now right|]. split; [assumption|]. split; assumption.
        -- exists m, events. split; [now left|]. split; [reflexivity|].
           split; [assumption|]. rewrite (Hkeep _ Hlast). apply lookup_insert_eq.
      * destruct (Hrec m0 Hin) as (m' & evs & Hin' & Hid' & Hrun' & Hans).
        exists m', evs. split; [now right|]. split; [assumption|]. split; assumption.
    + intros k Hk. cbn [map] in Hk. rewrite Hkeep by (intros H; apply Hk; now right).
      apply lookup_insert_ne. intros E. apply Hk. now left.
    + exists ((member_start m :: flat_map forward events ++ [member_end m]) :: blocks).
      split.
      * constructor; [|assumption]. exists events. split; [assumption | reflexivity].
      * rewrite Hym, Hys. reflexivity.
Qed.

Lemma last_outgoing_question (request : ChatRequest) :
  match last (map outgoing_message (messages request)) with
  | Some m => default "" (msg_content m)
  | None => ""
  end = original_question request.
Proof.
  unfold original_question.
  change (map outgoing_message (messages request))
    with (outgoing_message <$> messages request).
  rewrite fmap_last. now destruct (last (messages request)).
Qed.

(** The leader's turn, when it completes, yields the leader's block. *)
Lemma leader_turn_step (request : ChatRequest) (outgoing : positive)
    (member_answers : gmap string string) (s : state) :
  st_heap s !! outgoing = Some (map outgoing_message (messages request)) ->
  answers_recorded cfg request (TEAM_MEMBERS cfg) member_answers ->
  outcome (leader_turn cfg request outgoing member_answers s) = Ok tt ->
  leader_block cfg request (yielded (leader_turn cfg request outgoing member_answers s)).
Proof.
  intros Hout Hall.
  rewrite leader_turn_run. cbv zeta. rewrite Hout. cbn [default from_option id].
  rewrite last_outgoing_question.
  generalize (list_new_lookup
    [system_message (m_system_prompt (TEAM_LEADER cfg));
     user_message (leader_user_msg cfg (original_question request) member_answers)] s).
  generalize (fresh (dom (st_heap s))). intros ctx.
  generalize (set_heap
    (<[ctx:=[system_message (m_system_prompt (TEAM_LEADER cfg));
             user_message (leader_user_msg cfg (original_question request) member_answers)]]>
       (st_heap s)) s).
  intros s1 Hctx.
  unfold leader_block.
  destruct (outcome (_streaming_loop cfg ctx (temperature request) (max_tokens request)
                                     (Some (PYTHON_ONLY_TOOLS cfg)) s1)) as [[]|e];
    cbn [yielded outcome final]; intros Hr; [|discriminate].
  exists s1, ctx, member_answers. split; [assumption|]. split; [assumption | reflexivity].
Qed.

(** The team endpoint is its pipeline, with one error event in place of
    an exception. *)
Lemma chat_team_guard (request : ChatRequest) (s : state) :
  chat_team cfg request s
  = match outcome (chat_team_unguarded cfg request s) with
    | Ok _ => chat_team_unguarded cfg request s
    | Raise e =>
        Run (yielded (chat_team_unguarded cfg request s) ++ [sse_error e])
            (Ok tt)
            (final (chat_team_unguarded cfg request s))
    end.
Proof.
  unfold chat_team, chat_team_unguarded.
  rewrite !(bind_run_ok _ _ _ _ _ _ (list_new_run _ s)).
  unfold team_generate. rewrite try_except_run.
  generalize (team_pipeline cfg request (fresh (dom (st_heap s)))
    (set_heap (<[fresh (dom (st_heap s)):=map outgoing_message (messages request)]>
                 (st_heap s)) s)).
  intros [ys [a|e] s']; cbn [yielded outcome final app]; [reflexivity|].
  rewrite yield_run. cbn [yielded outcome final app]. reflexivity.
Qed.

Lemma team_pipeline_order (request : ChatRequest) (s : state) :
  outcome (chat_team_unguarded cfg request s) = Ok tt ->
  exists member_blocks leader_out,
    Forall2 (member_block cfg request) (TEAM_MEMBERS cfg) member_blocks /\
    leader_block cfg request leader_out /\
    yielded (chat_team_unguarded cfg request s)
    = concat member_blocks ++ leader_out ++ [sse_done].
Proof.
  unfold chat_team_unguarded.
  rewrite !(bind_run_ok _ _ _ _ _ _ (list_new_run _ s)).
  generalize (list_new_lookup (map outgoing_message (messages request)) s).
  generalize (fresh (dom (st_heap s))). intros outgoing.
  generalize (set_heap (<[outgoing:=map outgoing_message (messages request)]> (st_heap s)) s).
  intros s0 Hout. cbn [yielded outcome final app].
  rewrite team_pipeline_eq. intros H.
  destruct (bind_ok_inv _ _ _ _ H) as (answers & Hm & H1 & Hy & _).
  destruct (bind_ok_inv _ _ _ _ H1) as ([] & Hl & _ & Hy1 & _).
  destruct (member_turns_run request outgoing (TEAM_MEMBERS cfg) ∅ s0 answers Hout Hm)
    as (Hfin & Hall & _ & blocks & Hblocks & Hys).
  pose proof (leader_turn_step request outgoing answers _ Hfin Hall Hl) as Hleader.
  exists blocks, (yielded (leader_turn cfg request outgoing answers
                     (final (for_fold (TEAM_MEMBERS cfg)
                                      (member_turn cfg request outgoing) ∅ s0)))).
  split; [assumption|]. split; [assumption|].
  rewrite Hy, Hy1, Hys, yield_run. reflexivity.
Qed.

(** ** The team stream when a tool raises *)

Lemma streaming_loop_memory_number_run (conversation : positive) (temperature : float)
    (max_tokens : Z) (tools : option (list pyval)) (s : state) :
  0 < MAX_TOOL_ROUNDS cfg ->
  (forall call e, fst (client_chat call e) = Stub.memory_model call 0%nat) ->
  exists s',
    _streaming_loop cfg conversation temperature max_tokens tools s
    = Run [EvToolRequest "memory_tool" (PDict [("content", PInt 5)])]
          (Raise (TypeError "object of type 'int' has no len()")) s' /\
    length (st_calls s') = S (length (st_calls s)).
Proof.
  intros Hmax Hmodel. unfold _streaming_loop.
  rewrite (bind_run_ok _ _ _ _ _ _ (list_copy_run conversation s)).
  set (ctx := fresh (dom (st_heap s))). set (s1 := set_heap _ s).
  unfold streaming_loop_on.
  destruct (Z.to_nat (MAX_TOOL_ROUNDS cfg)) as [|n] eqn:En; [lia|].
  cbn [tool_rounds].
  destruct (model_reply _ (st_ext s1) _ (Hmodel
    (round_call cfg (default [] (st_heap s1 !! ctx)) temperature max_tokens tools) (st_ext s1)))
    as [e' Hc].
  pose proof (tool_round_run ctx temperature max_tokens tools s1 _ e' Hc) as Hr.
  cbv zeta in Hr.
  change (Stub.memory_model _ 0%nat).1
    with [Stub.chunk_of None None [Stub.call_tool "memory_tool" (PDict [("content", PInt 5)])]]
    in Hr.
  change (collect [Stub.chunk_of None None
                     [Stub.call_tool "memory_tool" (PDict [("content", PInt 5)])]])
    with (@nil event,
          {| collected_content := []; collected_thinking := [];
             collected_tool_calls :=
               [Stub.call_tool "memory_tool" (PDict [("content", PInt 5)])] |}) in Hr.
  cbn [fst snd collected_tool_calls for_each app] in Hr.
  set (s2 := final (append_assistant _ _ _)) in Hr.
  unfold bind in Hr.
  rewrite execute_tool_call_run in Hr.
  change (requested_tool (Stub.call_tool "memory_tool" (PDict [("content", PInt 5)])))
    with "memory_tool" in Hr.
  change (requested_arguments (Stub.call_tool "memory_tool" (PDict [("content", PInt 5)])))
    with (PDict [("content", PInt 5)]) in Hr.
  rewrite dispatch_memory_tool_number in Hr.
  cbn [outcome yielded final app] in Hr.
  rewrite (bind_run_raise _ _ _ _ _ _ (bind_run_raise _ _ _ _ _ _ Hr)).
  exists s2. split; [reflexivity|].
  subst s2. rewrite append_assistant_calls. simpl.
  rewrite length_app. simpl. lia.
Qed.

Lemma member_block_length (request : ChatRequest) (m : member) (out : list string) :
  member_block cfg request m out -> (2 <= length out)%nat.
Proof.
  intros (events & _ & ->). cbn [length]. rewrite length_app. simpl. lia.
Qed.

Lemma leader_block_length (request : ChatRequest) (out : list string) :
  leader_block cfg request out -> (2 <= length out)%nat.
Proof.
  intros (s & ctx & answers & _ & _ & ->). cbn [length]. rewrite length_app. simpl. lia.
Qed.

(** C9 (the failing input).  With at least one member, a round limit of
    at least one and a model that never fails and asks, at every call, to
    store the number 5 as the memory, the stream of the team endpoint is
    not the sequence of the members' blocks, the leader's block and the
    terminator: the first member's tool call raises, and the stream is
    that member's start frame, the frame of the tool request and one
    error frame, after a single model call; no end frame, no other member
    and no leader follow. *)
Theorem team_stream_cut_by_memory_number (request : ChatRequest) (s : state)
    (m : member) (others : list member) :
  TEAM_MEMBERS cfg = m :: others ->
  0 < MAX_TOOL_ROUNDS cfg ->
  (forall call e, fst (client_chat call e) = Stub.memory_model call 0%nat) ->
  let r := chat_team cfg request s in
  yielded r
  = [member_start m;
     _sse_from_event (EvToolRequest "memory_tool" (PDict [("content", PInt 5)]));
     sse_error (TypeError "object of type 'int' has no len()")] /\
  length (st_calls (final r)) = S (length (st_calls s)) /\
  ~ exists member_blocks leader_out,
      Forall2 (member_block cfg request) (TEAM_MEMBERS cfg) member_blocks /\
      leader_block cfg request leader_out /\
      yielded r = concat member_blocks ++ leader_out ++ [sse_done].
Proof.
  intros Hmembers Hmax Hmodel r. subst r.
  assert (Hun : exists s',
             chat_team_unguarded cfg request s
             = Run [member_start m;
                    _sse_from_event (EvToolRequest "memory_tool" (PDict [("content", PInt 5)]))]
                   (Raise (TypeError "object of type 'int' has no len()")) s' /\
             length (st_calls s') = S (length (st_calls s))).
  { unfold chat_team_unguarded.
    rewrite (bind_run_ok _ _ _ _ _ _ (list_new_run _ s)).
    set (outgoing := fresh (dom (st_heap s))). set (s1 := set_heap _ s).
    pose proof (member_turn_run request outgoing ∅ m s1) as Hturn. cbv zeta in Hturn.
    match type of Hturn with
    | context [_streaming_loop cfg ?ctx ?t ?mt ?tl ?s2] =>
        destruct (streaming_loop_memory_number_run ctx t mt tl s2 Hmax Hmodel)
          as (s' & Hloop & Hcalls)
    end.
    rewrite Hloop in Hturn. cbn [outcome yielded final flat_map app] in Hturn.
    rewrite forward_one in Hturn.
    exists s'. split.
    - rewrite team_pipeline_eq, Hmembers, for_fold_cons.
      rewrite (bind_run_raise _ _ _ _ _ _ (bind_run_raise _ _ _ _ _ _ Hturn)).
      reflexivity.
    - exact Hcalls. }
  destruct Hun as (s' & Hun & Hcalls).
  rewrite chat_team_guard, Hun. cbn [outcome yielded final app].
  split; [reflexivity|]. split; [exact Hcalls|].
  intros (blocks & leader_out & Hblocks & Hleader & Hy).
  rewrite Hmembers in Hblocks.
  apply Forall2_cons_inv_l in Hblocks as (block & rest & Hblock & _ & ->).
  apply member_block_length in Hblock. apply leader_block_length in Hleader.
  apply (f_equal length) in Hy. cbn [concat] in Hy.
  rewrite !length_app in Hy. simpl in Hy. lia.
Qed.

End Proofs.

(** ** The leader's prompt when members say nothing *)

(** Once every member's turn has completed, every member has an answer
    recorded, so its block holds that answer, never the placeholder of
    [member_section], even when the answer is the empty text. *)
Lemma member_section_recorded (member_answers : gmap string string)
    (m : member) (text : string) :
  member_answers !! m_id m = Some text ->
  member_section member_answers m
  = "<" +:+ m_id m +:+ ">" +:+ nl +:+ text +:+ nl +:+ "</" +:+ m_id m +:+ ">".
Proof. intros H. unfold member_section. now rewrite H. Qed.

Lemma content_text_without_content (events : list event) (text : string) :
  (forall t, ~ In (EvContent t) events) -> content_text events text = text.
Proof.
  revert text. induction events as [|e events IH]; intros text Hnone; [reflexivity|].
  cbn [content_text fold_left]. destruct e as [t|t|tool args|tool res].
  - apply IH. intros t' H. apply (Hnone t'). now right.
  - destruct (Hnone t). now left.
  - apply IH. intros t' H. apply (Hnone t'). now right.
  - apply IH. intros t' H. apply (Hnone t'). now right.
Qed.

(** In the leader's prompt, the block of every member holds the content
    text of a run of a member with that id; for a run without content
    events it is the empty text. *)
Lemma recorded_sections {rt : Runtime} (cfg : Config) (request : ChatRequest)
    (member_answers : gmap string string) (m : member) :
  answers_recorded cfg request (TEAM_MEMBERS cfg) member_answers ->
  In m (TEAM_MEMBERS cfg) ->
  exists m' events,
    In m' (TEAM_MEMBERS cfg) /\ m_id m' = m_id m /\ member_run cfg request m' events /\
    member_section member_answers m
    = "<" +:+ m_id m +:+ ">" +:+ nl +:+ content_text events "" +:+ nl
      +:+ "</" +:+ m_id m +:+ ">".
Proof.
  intros Hrec Hin. destruct (Hrec m Hin) as (m' & events & Hin' & Hid & Hrun & Hans).
  exists m', events. split; [assumption|]. split; [assumption|]. split; [assumption|].
  now apply member_section_recorded.
Qed.

(** C5 (the failing input).  With the roster Rex, Nova, Vera, the leader
    Sage and a model that answers nothing, the request [hi] makes four model
    calls; the user message of the last one, the leader's, holds an empty
    block for every member, not the placeholder. *)
Theorem silent_members_get_empty_blocks :
  let rt := Stub.runtime Stub.silent_model in
  let r := @chat_team Stub.config rt (Stub.request "hi") (Stub.initial rt 0%nat) in
  map cc_messages (st_calls (final r))
  = [[system_message "You are Rex."; user_message "hi"];
     [system_message "You are Nova."; user_message "hi"];
     [system_message "You are Vera."; user_message "hi"];
     [system_message "You are Sage."; user_message (Stub.leader_prompt "")]] /\
  Stub.leader_prompt "" <> Stub.leader_prompt no_answer.
Proof.
  split.
  - vm_compute. reflexivity.
  - apply String.eqb_neq. vm_compute. reflexivity.
Qed.

(** * The statements at concrete inputs *)

(** C4, at the cap 4: the text [abcd] is returned as it is, and the text
    [abcde] comes back longer than it was. *)
Lemma truncate_text_boundary_witness :
  _truncate_text "abcd" 4 = "abcd" /\
  str_len "abcde" < str_len (_truncate_text "abcde" 4).
Proof.
  split.
  - apply (proj1 (truncate_text_boundary "abcd" 4)). reflexivity.
  - destruct (proj2 (truncate_text_boundary "abcde" 4))
      as (p & m & q & _ & _ & _ & _ & _ & H); [lia | reflexivity | exact H].
Defined.

(** C4 as it was stated fails at the cap 4 for the text [abcde], of length
    cap + 1: the result has 23 characters, the text 5. *)
Lemma truncate_text_longer_than_original :
  str_len "abcde" = 4 + 1 /\
  _truncate_text "abcde" 4 = "ab" +:+ truncation_marker +:+ "de" /\
  ~ str_len (_truncate_text "abcde" 4) < str_len "abcde".
Proof.
  split; [reflexivity|]. split; [reflexivity|].
  intros H. vm_compute in H. discriminate H.
Qed.

(** C7, with the codec of the test doubles: a mapping, a string that
    decodes to a mapping, a string that does not decode, a string that
    decodes to a list, and a number. *)
Lemma normalize_tool_arguments_cases_witness :
  let rt := Stub.runtime Stub.silent_model in
  @_normalize_tool_arguments rt (PDict [("code", PStr "1")]) = [("code", PStr "1")] /\
  @_normalize_tool_arguments rt (PStr "x") = [("content", PStr "x")] /\
  @_normalize_tool_arguments rt (PStr "") = [("code", PStr "")] /\
  @_normalize_tool_arguments rt (PStr "[]") = [("code", PStr "[]")] /\
  @_normalize_tool_arguments rt (PInt 3) = [].
Proof.
  intros rt. split; [|split; [|split; [|split]]].
  - apply (proj1 (@normalize_tool_arguments_cases rt (PDict [("code", PStr "1")]))).
    reflexivity.
  - apply (proj1 (proj2 (@normalize_tool_arguments_cases rt (PStr "x"))) "x");
      reflexivity.
  - apply (proj1 (proj2 (proj2 (@normalize_tool_arguments_cases rt (PStr "")))) "");
      [reflexivity|].
    left. eexists. reflexivity.
  - apply (proj1 (proj2 (proj2 (@normalize_tool_arguments_cases rt (PStr "[]")))) "[]");
      [reflexivity|].
    right. exists (PList []). split; [reflexivity | discriminate].
  - apply (proj2 (proj2 (proj2 (@normalize_tool_arguments_cases rt (PInt 3)))));
      discriminate.
Defined.




(** C10, for the same loop: the caller's list still holds [hi] alone. *)
Lemma streaming_loop_leaves_conversation_witness :
  let rt := Stub.runtime Stub.python_model in
  let s := Stub.holding rt 0%nat [user_message "hi"] in
  st_heap s !! 1%positive = Some [user_message "hi"] /\
  st_heap (final (@_streaming_loop Stub.config rt 1%positive 0.5%float 100 None s))
    !! 1%positive = Some [user_message "hi"].
Proof.
  intros rt s. split; [vm_compute; reflexivity|].
  apply (@streaming_loop_leaves_conversation Stub.config rt 1%positive 0.5%float 100 None s).
  vm_compute. reflexivity.
Defined.

(** C1, with a round limit of 3 and the model that always asks to store
    the number 5: one [tool_request], then the exception. *)
Lemma streaming_loop_aborts_on_memory_number_witness :
  let rt := Stub.runtime Stub.memory_model in
  let s := Stub.holding rt 0%nat [user_message "hi"] in
  let r := @_streaming_loop Stub.config rt 1%positive 0.5%float 100 None s in
  MAX_TOOL_ROUNDS Stub.config = 3 /\
  yielded r = [EvToolRequest "memory_tool" (PDict [("content", PInt 5)])] /\
  outcome r = Raise (TypeError "object of type 'int' has no len()") /\
  length (st_calls (final r)) = 1%nat.
Proof.
  intros rt s r. split; [reflexivity|].
  apply (@streaming_loop_aborts_on_memory_number Stub.config rt 1%positive 0.5%float 100
           None s).
  - reflexivity.
  - intros call e. reflexivity.
Defined.

(** C3 as it was stated fails: the single-agent endpoint offers the model
    the restricted registry, not the full one. *)
Lemma chat_offers_restricted_registry :
  let rt := Stub.runtime Stub.silent_model in
  let r := @chat Stub.config rt (Stub.request "hi") (Stub.initial rt 0%nat) in
  map cc_tools (st_calls (final r)) = [[python_exec_schema]] /\
  @TOOLS Stub.config rt = [python_exec_schema; @memory_tool_schema Stub.config rt] /\
  [python_exec_schema] <> @TOOLS Stub.config rt.
Proof.
  intros rt r. split; [vm_compute; reflexivity|]. split; [reflexivity|].
  unfold TOOLS. discriminate.
Qed.

(** C9, with the three members of the test roster: the stream stops
    after the first member's tool request. *)
Lemma team_stream_cut_by_memory_number_witness :
  let rt := Stub.runtime Stub.memory_model in
  let r := @chat_team Stub.config rt (Stub.request "hi") (Stub.initial rt 0%nat) in
  yielded r
  = [@member_start rt Stub.rex;
     @_sse_from_event rt (EvToolRequest "memory_tool" (PDict [("content", PInt 5)]));
     @sse_error rt (TypeError "object of type 'int' has no len()")] /\
  length (st_calls (final r)) = 1%nat /\
  ~ exists member_blocks leader_out,
      Forall2 (@member_block rt Stub.config (Stub.request "hi"))
              [Stub.rex; Stub.nova; Stub.vera] member_blocks /\
      @leader_block rt Stub.config (Stub.request "hi") leader_out /\
      yielded r = concat member_blocks ++ leader_out ++ [sse_done].
Proof.
  intros rt r.
  apply (@team_stream_cut_by_memory_number Stub.config rt (Stub.request "hi")
           (Stub.initial rt 0%nat) Stub.rex [Stub.nova; Stub.vera]).
  - reflexivity.
  - simpl. lia.
  - intros call e. reflexivity.
Defined.

(** The order of the team stream with tool calls that are answered: with
    a model that always asks to run a line of Python, nothing raises, and
    the stream is the three members' blocks, each with the frames of its
    tool events between its start and end frames, the leader's block and
    the terminator: 37 frames, after 12 model calls. *)
Lemma team_stream_order_with_tool_calls :
  let rt := Stub.runtime Stub.python_model in
  let s := Stub.initial rt 0%nat in
  exists member_blocks leader_out,
    Forall2 (@member_block rt Stub.config (Stub.request "hi"))
            [Stub.rex; Stub.nova; Stub.vera] member_blocks /\
    @leader_block rt Stub.config (Stub.request "hi") leader_out /\
    yielded (@chat_team Stub.config rt (Stub.request "hi") s)
    = concat member_blocks ++ leader_out ++ [sse_done] /\
    length (yielded (@chat_team Stub.config rt (Stub.request "hi") s)) = 37%nat /\
    length (st_calls (final (@chat_team Stub.config rt (Stub.request "hi") s))) = 12%nat.
Proof.
  intros rt s.
  assert (Hok : outcome (@chat_team_unguarded rt Stub.config (Stub.request "hi") s) = Ok tt)
    by (vm_compute; reflexivity).
  destruct (team_pipeline_order Stub.config (Stub.request "hi") s Hok)
    as (blocks & leader_out & Hblocks & Hleader & Hy).
  exists blocks, leader_out. split; [assumption|]. split; [assumption|].
  split; [rewrite chat_team_guard, Hok; exact Hy|].
  split; vm_compute; reflexivity.
Qed.

(** * Further properties *)

(** ** Output truncation *)

Lemma truncate_text_length (text : string) (max_chars : Z) :
  2 <= max_chars -> str_len (_truncate_text text max_chars) <= max_chars + 19.
Proof.
  intros Hcap. destruct (Z.le_gt_cases (str_len text) max_chars) as [Hle|Hgt].
  - rewrite truncate_text_within by assumption. lia.
  - destruct (truncate_text_split text max_chars Hcap ltac:(lia))
      as (prefix & middle & suffix & _ & Hp & Hs & ->).
    rewrite !str_len_app, str_len_marker, Hp, Hs.
    pose proof (Z.mul_div_le max_chars 2 ltac:(lia)). lia.
Qed.

(** X1.  Truncation keeps both ends.  For a cap of at least 2 and every
    text longer than the cap, the result is the first [cap // 2]
    characters of the text, the marker, and the last [cap // 2]
    characters; a non-empty middle part of the text is dropped, and the
    result is [2 * (cap // 2) + 19] characters long whatever the length of
    the text. *)
Theorem truncate_text_keeps_both_ends (text : string) (max_chars : Z) :
  2 <= max_chars -> max_chars < str_len text ->
  exists prefix middle suffix : string,
    text = prefix +:+ middle +:+ suffix /\
    str_len prefix = max_chars / 2 /\
    str_len suffix = max_chars / 2 /\
    middle <> "" /\
    _truncate_text text max_chars = prefix +:+ truncation_marker +:+ suffix /\
    str_len (_truncate_text text max_chars) = 2 * (max_chars / 2) + 19.
Proof.
  intros Hcap Hlong.
  destruct (truncate_text_split text max_chars Hcap Hlong)
    as (prefix & middle & suffix & Htext & Hp & Hs & Hres).
  exists prefix, middle, suffix. repeat split; try assumption.
  - intros ->. rewrite Htext in Hlong. rewrite !str_len_app, Hp, Hs in Hlong.
    change (str_len "") with 0 in Hlong.
    pose proof (Z.mul_div_le max_chars 2 ltac:(lia)). lia.
  - rewrite Hres, !str_len_app, str_len_marker, Hp, Hs. lia.
Qed.

Lemma str_slice_to_zero (text : string) : str_slice_to text 0 = "".
Proof.
  unfold str_slice_to, list_slice_to, slice_index. cbn [Z.ltb Z.compare].
  replace (Z.max 0 (Z.min _ 0)) with 0 by lia. reflexivity.
Qed.

Lemma str_slice_from_zero (text : string) : str_slice_from text 0 = text.
Proof.
  unfold str_slice_from, list_slice_from, slice_index. cbn [Z.ltb Z.compare].
  replace (Z.max 0 (Z.min _ 0)) with 0 by lia.
  cbn [Z.to_nat drop]. apply string_of_list_ascii_of_string.
Qed.

(** X2.  Truncation with a cap of 0 or 1 drops nothing.  Half the cap is
    then 0, and the slice [text[-0:]] is the whole text: a text longer
    than the cap comes back in full, behind the marker. *)
Theorem truncate_text_small_cap (text : string) (max_chars : Z) :
  0 <= max_chars <= 1 -> max_chars < str_len text ->
  _truncate_text text max_chars = truncation_marker +:+ text.
Proof.
  intros Hcap Hlong. rewrite truncate_text_beyond by assumption.
  replace (max_chars / 2) with 0 by (symmetry; apply Z.div_small; lia).
  change (- 0) with 0. now rewrite str_slice_to_zero, str_slice_from_zero.
Qed.

Section More.

Context (cfg : Config) {rt : Runtime}.

(** ** The dispatcher and its tools *)

(** X3.  A tool name that is not registered.  For every name other than
    [python_exec] and [memory_tool], and every argument, the dispatcher
    answers with the error result that names the tool; it yields nothing
    and leaves the state as it was. *)
Theorem dispatch_answers_unknown_tool (tool_name : string) (raw_args : pyval) (s : state) :
  tool_name <> "python_exec" -> tool_name <> "memory_tool" ->
  @dispatch_tool cfg rt event tool_name raw_args s
  = Run [] (Ok (PDict [("ok", PBool false);
                       ("error", PStr ("unknown tool: " +:+ tool_name))])) s.
Proof. apply dispatch_unknown_tool. Qed.

Lemma run_python_tool_result {Y} (code : string) (s : state) :
  exists tool_result,
    outcome (@run_python_tool cfg rt Y code s) = Ok tool_result /\
    is_tool_result tool_result.
Proof.
  unfold run_python_tool.
  destruct (String.eqb (strip code) "").
  - eexists. split; [reflexivity|]. eexists _, _. reflexivity.
  - unfold bind, get_state, modify; simpl.
    destruct (subprocess_run _ _ _) as [[rc out err| |e] e']; simpl;
      (eexists; split; [reflexivity|]; eexists _, _; reflexivity).
Qed.

(** X4.  [python_exec] never raises.  Whatever the shape of its arguments
    and whatever the subprocess does (it completes, times out or fails),
    the dispatcher answers a [python_exec] call with a tool result. *)
Theorem dispatch_python_exec_returns (raw_args : pyval) (s : state) :
  exists tool_result,
    outcome (@dispatch_tool cfg rt event "python_exec" raw_args s) = Ok tool_result /\
    is_tool_result tool_result.
Proof.
  unfold dispatch_tool. cbn [String.eqb Ascii.eqb Bool.eqb andb].
  destruct (run_python_tool_result (Y:=event)
              (py_str (dict_get (_normalize_tool_arguments raw_args) "code" (PStr ""))) s)
    as (v & Hv & Hshape).
  exists v. split; assumption.
Qed.

Lemma run_python_tool_empty {Y} (code : string) (s : state) :
  strip code = "" -> @run_python_tool cfg rt Y code s = Run [] (Ok code_is_empty) s.
Proof. intros H. unfold run_python_tool. now rewrite H. Qed.

(** X5.  [python_exec] without code.  When the arguments are neither a
    mapping nor a string, or are a mapping whose [code] entry is missing,
    empty or made of white space only, no subprocess is started: the
    answer is the error result [code is empty] and the state is the one
    before the call. *)
Theorem dispatch_python_exec_without_code (raw_args : pyval) (s : state) :
  ((forall entries, raw_args <> PDict entries) -> (forall text, raw_args <> PStr text) ->
   @dispatch_tool cfg rt event "python_exec" raw_args s = Run [] (Ok code_is_empty) s) /\
  (forall entries code,
     raw_args = PDict entries -> dict_get entries "code" (PStr "") = PStr code ->
     strip code = "" ->
     @dispatch_tool cfg rt event "python_exec" raw_args s = Run [] (Ok code_is_empty) s).
Proof.
  split.
  - intros Hd Hs. unfold dispatch_tool. cbn [String.eqb Ascii.eqb Bool.eqb andb].
    rewrite normalize_other by assumption. now apply run_python_tool_empty.
  - intros entries code -> Hcode Hstrip.
    unfold dispatch_tool. cbn [String.eqb Ascii.eqb Bool.eqb andb].
    rewrite normalize_dict, Hcode. now apply run_python_tool_empty.
Qed.

(** X6.  The output of [python_exec] is bounded.  With an output cap of at
    least 2, the [stdout] and [stderr] texts of every result are at most
    the cap plus the 19 characters of the marker long, whatever the
    subprocess printed. *)
Theorem python_exec_output_bounded (code : string) (s : state) (tool_result : pyval)
    (text : string) :
  2 <= PYTHON_TOOL_MAX_OUTPUT_CHARS cfg ->
  outcome (@run_python_tool cfg rt event code s) = Ok tool_result ->
  result_field tool_result "stdout" = PStr text \/
  result_field tool_result "stderr" = PStr text ->
  str_len text <= PYTHON_TOOL_MAX_OUTPUT_CHARS cfg + 19.
Proof.
  intros Hcap. unfold run_python_tool.
  destruct (String.eqb (strip code) "").
  - intros [= <-] [H|H]; discriminate.
  - unfold bind, get_state, modify; simpl.
    destruct (subprocess_run _ _ _) as [[rc out err| |e] e']; simpl.
    + intros [= <-] [H|H]; simpl in H; injection H as <-;
        now apply truncate_text_length.
    + intros [= <-] [H|H]; discriminate.
    + intros [= <-] [H|H]; discriminate.
Qed.

(** X7.  The flag of a [python_exec] result.  The result says [ok] exactly
    when the code, trimmed, is not empty and the subprocess run on the
    trimmed code with the configured timeout completed with return code
    0; a timeout, a failure to start and a non-zero return code all give
    a result that is not [ok]. *)
Theorem python_exec_ok_iff_exit_zero (code : string) (s : state) :
  result_field
    (match outcome (@run_python_tool cfg rt event code s) with
     | Ok tool_result => tool_result
     | Raise _ => PNone
     end) "ok" = PBool true
  <->
  strip code <> "" /\
  exists stdout stderr e',
    subprocess_run (strip code) (PYTHON_TOOL_TIMEOUT_SECONDS cfg) (st_ext s)
    = (Completed 0 stdout stderr, e').
Proof.
  unfold run_python_tool.
  destruct (String.eqb_spec (strip code) "") as [He|Hne].
  - simpl. split; [discriminate|]. intros [H _]. contradiction.
  - unfold bind, get_state, modify; simpl.
    destruct (subprocess_run _ _ _) as [[rc out err| |e] e'] eqn:Erun; simpl.
    + split.
      * intros [= Hrc]. apply Z.eqb_eq in Hrc. subst rc.
        split; [assumption|]. now exists out, err, e'.
      * intros [_ (out' & err' & e'' & [= -> _ _ _])]. reflexivity.
    + split; [discriminate|]. intros [_ (out' & err' & e'' & H)]. discriminate.
    + split; [discriminate|]. intros [_ (out' & err' & e'' & H)]. discriminate.
Qed.

(** ** The memory tool *)

Lemma run_memory_tool_falsy {Y} (content : pyval) (s : state) :
  truthy content = false ->
  @run_memory_tool cfg rt Y content s = Run [] (Ok content_required) s.
Proof. intros H. unfold run_memory_tool. now rewrite H. Qed.

Lemma run_memory_tool_text {Y} (content : string) (s : state) :
  content <> "" ->
  @run_memory_tool cfg rt Y (PStr content) s
  = Run [] (Ok (PDict [("ok", PBool true); ("content", PStr (kept_content cfg content))]))
        (set_memory_file
           (Some (json_dumps false (Some 2) (memory_document (kept_content cfg content)))) s).
Proof.
  intros Hne. unfold run_memory_tool, kept_content.
  rewrite (truthy_nonempty content Hne). cbn [negb].
  unfold bind, lift, py_len, ret. cbn [outcome final yielded].
  destruct (str_len content >? MAX_MEMORY_CHARS cfg); reflexivity.
Qed.


(** X9.  [memory_tool] without content.  When the arguments are neither a
    mapping nor a string, or are a string that does not decode to a JSON
    object (it is then kept under the key [code]), or are a mapping whose
    [content] entry is missing or falsy, nothing is stored: the answer is
    the error result that asks for a content, and the state, the memory
    file included, is the one before the call. *)
Theorem dispatch_memory_tool_without_content (raw_args : pyval) (s : state) :
  ((forall entries, raw_args <> PDict entries) -> (forall text, raw_args <> PStr text) ->
   @dispatch_tool cfg rt event "memory_tool" raw_args s = Run [] (Ok content_required) s) /\
  (forall text,
     raw_args = PStr text -> (forall parsed, json_loads text <> Ok (PDict parsed)) ->
     @dispatch_tool cfg rt event "memory_tool" raw_args s = Run [] (Ok content_required) s) /\
  (forall entries,
     raw_args = PDict entries -> truthy (dict_get entries "content" PNone) = false ->
     @dispatch_tool cfg rt event "memory_tool" raw_args s = Run [] (Ok content_required) s).
Proof.
  repeat split.
  - intros Hd Hs. unfold dispatch_tool. cbn [String.eqb Ascii.eqb Bool.eqb andb].
    rewrite normalize_other by assumption. now apply run_memory_tool_falsy.
  - intros text -> Hload. unfold dispatch_tool. cbn [String.eqb Ascii.eqb Bool.eqb andb].
    rewrite normalize_string_fallback by assumption. now apply run_memory_tool_falsy.
  - intros entries -> Hfalsy. unfold dispatch_tool. cbn [String.eqb Ascii.eqb Bool.eqb andb].
    rewrite normalize_dict. now apply run_memory_tool_falsy.
Qed.

Lemma run_memory_tool_final {Y} (content : pyval) (s : state) :
  exists file, final (@run_memory_tool cfg rt Y content s) = set_memory_file file s.
Proof.
  assert (Hs : s = set_memory_file (st_memory_file s) s) by now destruct s.
  unfold run_memory_tool.
  destruct (negb (truthy content)); [exists (st_memory_file s); exact Hs|].
  unfold bind, lift. destruct (py_len content) as [n|e]; cbn [outcome final yielded ret raise].
  2:{ exists (st_memory_file s); exact Hs. }
  destruct (n >? MAX_MEMORY_CHARS cfg).
  - destruct (py_slice_to content (MAX_MEMORY_CHARS cfg)) as [kept|e];
      cbn [outcome final yielded ret raise].
    + eexists. reflexivity.
    + exists (st_memory_file s); exact Hs.
  - cbn [outcome final yielded ret raise]. eexists. reflexivity.
Qed.


(** ** The memory prompt *)

Lemma get_memory_system_prompt_run {Y} (s : state) :
  @get_memory_system_prompt rt Y s
  = Run [] (Ok (if String.eqb (memory_read s) "" then ""
                else memory_preamble +:+ nl +:+ memory_read s)) s.
Proof.
  unfold get_memory_system_prompt.
  rewrite (bind_run_ok _ _ _ _ _ _ (load_memories_run s)).
  destruct (String.eqb (memory_read s) ""); reflexivity.
Qed.


(** X12.  Reading without a usable memory file.  When the memory file
    does not exist, or its text does not decode, or decodes to something
    that is not a JSON object, [load_memories] returns the empty text and
    the memory prompt is empty; neither raises nor changes the state. *)
Theorem memory_reads_empty_without_document (s : state) :
  st_memory_file s = None \/
  (exists text, st_memory_file s = Some text /\
                forall entries, json_loads text <> Ok (PDict entries)) ->
  @load_memories rt event s = Run [] (Ok "") s /\
  @get_memory_system_prompt rt event s = Run [] (Ok "") s.
Proof.
  intros H.
  assert (Hread : memory_read s = "").
  { unfold memory_read, memory_text. destruct H as [-> | (text & -> & Hno)]; [reflexivity|].
    destruct (json_loads text) as [[| | | | | |entries]|e]; try reflexivity.
    now destruct (Hno entries). }
  rewrite get_memory_system_prompt_run, load_memories_run, Hread. split; reflexivity.
Qed.

(** ** What a tool call touches *)

Lemma run_memory_tool_ext {Y} (content : pyval) (s : state) :
  st_ext (final (@run_memory_tool cfg rt Y content s)) = st_ext s.
Proof.
  destruct (run_memory_tool_final (Y:=Y) content s) as [file ->]. reflexivity.
Qed.

(** X13.  What a tool call touches.  A call of the dispatcher, for any
    tool name and arguments, yields no event and leaves the conversation
    lists and the history of model calls as they were; a call for any
    tool other than [python_exec] starts no subprocess (the world outside
    is as it was), a call for any tool other than [python_exec] and
    [memory_tool] leaves the memory file as it was, and only
    [memory_tool] can raise. *)
Theorem dispatch_tool_footprint (tool_name : string) (raw_args : pyval) (s : state) :
  let r := @dispatch_tool cfg rt event tool_name raw_args s in
  yielded r = [] /\
  st_heap (final r) = st_heap s /\
  st_calls (final r) = st_calls s /\
  (tool_name <> "python_exec" -> st_ext (final r) = st_ext s) /\
  (tool_name <> "python_exec" -> tool_name <> "memory_tool" ->
   st_memory_file (final r) = st_memory_file s) /\
  (forall e, outcome r = Raise e -> tool_name = "memory_tool").
Proof.
  cbv zeta.
  destruct (dispatch_tool_same cfg (Y:=event) tool_name raw_args s) as [Hheap Hcalls].
  split; [apply dispatch_tool_yields_nothing|].
  split; [assumption|]. split; [assumption|].
  unfold dispatch_tool.
  destruct (String.eqb_spec tool_name "python_exec") as [->|Hpy].
  - split; [intros H; now destruct H|].
    split; [intros H; now destruct H|].
    intros e H.
    destruct (run_python_tool_result (Y:=event)
                (py_str (dict_get (_normalize_tool_arguments raw_args) "code" (PStr ""))) s)
      as (v & Hv & _). rewrite Hv in H. discriminate.
  - destruct (String.eqb_spec tool_name "memory_tool") as [->|Hmem].
    + split; [intros _; apply run_memory_tool_ext|].
      split; [intros _ H; now destruct H | reflexivity].
    + split; [reflexivity|]. split; [reflexivity|]. intros e H. discriminate.
Qed.

(** X29.  Arguments given as a string.  For every tool, arguments that
    are a string which decodes to a JSON object are handled as that
    object.  For [python_exec], a string that does not decode to a JSON
    object is itself run as the code (the dispatcher keeps it under the
    key [code]). *)
Theorem dispatch_string_arguments (tool_name : string) (text : string) (s : state) :
  (forall parsed,
     json_loads text = Ok (PDict parsed) ->
     @dispatch_tool cfg rt event tool_name (PStr text) s
     = @dispatch_tool cfg rt event tool_name (PDict parsed) s) /\
  ((forall parsed, json_loads text <> Ok (PDict parsed)) ->
   @dispatch_tool cfg rt event "python_exec" (PStr text) s
   = @run_python_tool cfg rt event text s).
Proof.
  split.
  - intros parsed Hload. unfold dispatch_tool.
    now rewrite (normalize_string_mapping text parsed Hload), normalize_dict.
  - intros Hload. unfold dispatch_tool. cbn [String.eqb Ascii.eqb Bool.eqb andb].
    now rewrite normalize_string_fallback by assumption.
Qed.

(** ** What a round collects from the stream *)

Lemma absorb_chunk_eq (acc : collected) (c : chunk) :
  absorb_chunk acc c
  = (chunk_events c,
     {| collected_content := collected_content acc ++ option_list (chunk_content c);
        collected_thinking := collected_thinking acc ++ option_list (chunk_thinking c);
        collected_tool_calls := if is_batch (chunk_tool_calls c) then chunk_tool_calls c
                                else collected_tool_calls acc |}).
Proof.
  unfold absorb_chunk, chunk_events, chunk_content, chunk_thinking, chunk_tool_calls.
  fold (chunk_msg c).
  destruct acc as [contents thinkings calls].
  destruct (nonempty_text (cm_thinking (chunk_msg c)));
    destruct (nonempty_text (cm_content (chunk_msg c)));
    destruct (default [] (cm_tool_calls (chunk_msg c)));
    cbn; rewrite ?app_nil_r; reflexivity.
Qed.

Lemma feed_absorb_eq (chunks : list chunk) (acc : collected) :
  feed absorb_chunk chunks acc
  = (flat_map chunk_events chunks,
     {| collected_content := collected_content acc ++ omap chunk_content chunks;
        collected_thinking := collected_thinking acc ++ omap chunk_thinking chunks;
        collected_tool_calls :=
          default (collected_tool_calls acc)
                  (last (List.filter is_batch (map chunk_tool_calls chunks))) |}).
Proof.
  revert acc. induction chunks as [|c chunks IH]; intros acc.
  - destruct acc. cbn. now rewrite !app_nil_r.
  - cbn [feed]. rewrite absorb_chunk_eq, IH.
    cbn [collected_content collected_thinking collected_tool_calls flat_map map List.filter].
    f_equal. f_equal.
    + rewrite <- app_assoc. f_equal. unfold omap. cbn [list_omap].
      now destruct (chunk_content c).
    + rewrite <- app_assoc. f_equal. unfold omap. cbn [list_omap].
      now destruct (chunk_thinking c).
    + destruct (is_batch (chunk_tool_calls c)); [|reflexivity].
      rewrite last_cons. now destruct (last _).
Qed.

(** X14.  What a round collects.  Over a whole stream, the events yielded
    are the thinking and content texts of the chunks, in order, empty
    texts left out; the content and thinking parts collected are those
    same texts; and the tool calls kept for execution are those of the
    last chunk that carries any: the tool calls of earlier chunks are
    replaced, not accumulated. *)
Theorem collect_keeps_last_tool_calls (chunks : list chunk) :
  fst (collect chunks) = flat_map chunk_events chunks /\
  collected_content (snd (collect chunks)) = omap chunk_content chunks /\
  collected_thinking (snd (collect chunks)) = omap chunk_thinking chunks /\
  collected_tool_calls (snd (collect chunks))
  = default [] (last (List.filter is_batch (map chunk_tool_calls chunks))).
Proof.
  unfold collect. rewrite feed_absorb_eq. repeat split.
Qed.

Lemma str_app_assoc (s1 s2 s3 : string) : (s1 +:+ s2) +:+ s3 = s1 +:+ (s2 +:+ s3).
Proof.
  induction s1 as [|c s1 IH]; [reflexivity|].
  change (String c ((s1 +:+ s2) +:+ s3) = String c (s1 +:+ s2 +:+ s3)). now f_equal.
Qed.

Lemma str_app_empty (text : string) : text +:+ "" = text.
Proof.
  induction text as [|c text IH]; [reflexivity|].
  change (String c (text +:+ "") = String c text). now f_equal.
Qed.

Lemma join_empty_cons (part : string) (parts : list string) :
  join_empty (part :: parts) = part +:+ join_empty parts.
Proof.
  unfold join_empty. destruct parts as [|next parts]; cbn [String.concat].
  - symmetry. apply str_app_empty.
  - reflexivity.
Qed.

Lemma content_text_app (events others : list event) (text : string) :
  content_text (events ++ others) text = content_text others (content_text events text).
Proof. apply fold_left_app. Qed.

Lemma thinking_text_app (events others : list event) (text : string) :
  thinking_text (events ++ others) text = thinking_text others (thinking_text events text).
Proof. apply fold_left_app. Qed.

Lemma join_empty_app (parts others : list string) :
  join_empty (parts ++ others) = join_empty parts +:+ join_empty others.
Proof.
  induction parts as [|part parts IH]; [reflexivity|].
  rewrite <- app_comm_cons, !join_empty_cons, IH. now rewrite str_app_assoc.
Qed.

Lemma omap_cons_list {A B} (f : A -> option B) (x : A) (l : list A) :
  omap f (x :: l) = option_list (f x) ++ omap f l.
Proof. unfold omap. cbn [list_omap]. now destruct (f x). Qed.

Lemma content_text_chunk (c : chunk) (text : string) :
  content_text (chunk_events c) text = text +:+ join_empty (option_list (chunk_content c)).
Proof.
  unfold chunk_events, content_text, join_empty.
  destruct (chunk_thinking c); destruct (chunk_content c); simpl;
    rewrite ?str_app_empty; reflexivity.
Qed.

Lemma thinking_text_chunk (c : chunk) (text : string) :
  thinking_text (chunk_events c) text = text +:+ join_empty (option_list (chunk_thinking c)).
Proof.
  unfold chunk_events, thinking_text, join_empty.
  destruct (chunk_thinking c); destruct (chunk_content c); simpl;
    rewrite ?str_app_empty; reflexivity.
Qed.

Lemma content_text_chunks (chunks : list chunk) (text : string) :
  content_text (flat_map chunk_events chunks) text
  = text +:+ join_empty (omap chunk_content chunks).
Proof.
  revert text. induction chunks as [|c chunks IH]; intros text.
  - cbn. now rewrite str_app_empty.
  - cbn [flat_map].
    rewrite content_text_app, content_text_chunk, IH, omap_cons_list, join_empty_app.
    now rewrite str_app_assoc.
Qed.

Lemma thinking_text_chunks (chunks : list chunk) (text : string) :
  thinking_text (flat_map chunk_events chunks) text
  = text +:+ join_empty (omap chunk_thinking chunks).
Proof.
  revert text. induction chunks as [|c chunks IH]; intros text.
  - cbn. now rewrite str_app_empty.
  - cbn [flat_map].
    rewrite thinking_text_app, thinking_text_chunk, IH, omap_cons_list, join_empty_app.
    now rewrite str_app_assoc.
Qed.

(** X15.  The assistant message holds what was streamed.  The content of
    the assistant message of a round is the concatenation of the content
    events of that round, trimmed, and the field is absent when that text
    is empty; the same holds for the thinking field and the thinking
    events; the tool calls are the collected ones. *)
Theorem assistant_message_holds_streamed_text (chunks : list chunk) :
  let events := fst (collect chunks) in
  let assistant_msg := assistant_message (snd (collect chunks)) in
  msg_role assistant_msg = "assistant" /\
  msg_content assistant_msg = nonempty_text (Some (strip (content_text events ""))) /\
  msg_thinking assistant_msg = nonempty_text (Some (strip (thinking_text events ""))) /\
  msg_tool_calls assistant_msg
  = (if is_batch (collected_tool_calls (snd (collect chunks)))
     then Some (collected_tool_calls (snd (collect chunks))) else None).
Proof.
  cbv zeta.
  unfold collect. rewrite feed_absorb_eq.
  cbn [fst snd collected_content collected_thinking collected_tool_calls nothing_collected app].
  rewrite content_text_chunks, thinking_text_chunks.
  unfold assistant_message, nonempty_text.
  cbn [msg_role msg_content msg_thinking msg_tool_calls append].
  split; [reflexivity|]. split; [reflexivity|]. split; [reflexivity|].
  cbn [collected_tool_calls]. now destruct (default [] _).
Qed.

(** ** The model calls of a run of the loop *)

Lemma same_calls_refl (s : state) : same_calls s s.
Proof. reflexivity. Qed.

Lemma same_calls_trans (s1 s2 s3 : state) :
  same_calls s1 s2 -> same_calls s2 s3 -> same_calls s1 s3.
Proof. unfold same_calls. congruence. Qed.

Lemma execute_tool_call_same_calls (ctx : positive) (tc : tool_call) :
  preserves same_calls (execute_tool_call cfg ctx tc).
Proof.
  apply execute_tool_call_preserves.
  - exact same_calls_refl.
  - exact same_calls_trans.
  - intros s s' [_ H]. exact H.
  - intros m s. reflexivity.
Qed.

Lemma execute_tool_calls_same_calls (ctx : positive) (calls : list tool_call) :
  preserves same_calls (for_each calls (execute_tool_call cfg ctx)).
Proof.
  apply preserves_for_each;
    [exact same_calls_refl | exact same_calls_trans | apply execute_tool_call_same_calls].
Qed.

Lemma tool_round_failure_run (ctx : positive) (temperature : float) (max_tokens : Z)
    (tools : option (list pyval)) (s : state) (chunks : list chunk) (err : exn) (e : ext) :
  client_chat (round_call cfg (default [] (st_heap s !! ctx)) temperature max_tokens tools)
              (st_ext s) = (chunks, Some err, e) ->
  tool_round cfg ctx temperature max_tokens tools s
  = Run (fst (collect chunks)) (Raise err)
        (log_call (round_call cfg (default [] (st_heap s !! ctx)) temperature max_tokens tools)
                  (set_ext e s)).
Proof.
  intros Hc. unfold tool_round.
  rewrite (bind_run_ok _ _ s s [] (default [] (st_heap s !! ctx))) by reflexivity.
  rewrite (bind_run_ok _ _ _ _ _ _ (client_chat_stream_run _ s _ _ _ Hc)).
  rewrite (bind_run_raise _ _ _ _ _ _ (receive_run_raise chunks err _)).
  reflexivity.
Qed.

Lemma tool_round_calls (ctx : positive) (temperature : float) (max_tokens : Z)
    (tools : option (list pyval)) (s : state) :
  st_calls (final (tool_round cfg ctx temperature max_tokens tools s))
  = st_calls s
    ++ [round_call cfg (default [] (st_heap s !! ctx)) temperature max_tokens tools].
Proof.
  destruct (client_chat
              (round_call cfg (default [] (st_heap s !! ctx)) temperature max_tokens tools)
              (st_ext s)) as [[chunks [err|]] e] eqn:Hc.
  - now rewrite (tool_round_failure_run ctx temperature max_tokens tools s chunks err e Hc).
  - pose proof (tool_round_run cfg ctx temperature max_tokens tools s chunks e Hc) as Hr.
    cbv zeta in Hr. rewrite Hr.
    destruct (collected_tool_calls (snd (collect chunks))) as [|tc calls].
    + cbn [final]. now rewrite append_assistant_calls.
    + cbn [final]. rewrite (execute_tool_calls_same_calls ctx (tc :: calls)).
      now rewrite append_assistant_calls.
Qed.

Lemma tool_rounds_calls (ctx : positive) (temperature : float) (max_tokens : Z)
    (tools : option (list pyval)) (rounds : nat) :
  forall (s : state) (items : list message),
    st_heap s !! ctx = Some items ->
    exists new,
      st_calls (final (tool_rounds cfg rounds ctx temperature max_tokens tools s))
      = st_calls s ++ new /\
      (length new <= rounds)%nat /\
      Forall (fun call => exists context,
                call = round_call cfg context temperature max_tokens tools) new /\
      contexts_from items new.
Proof.
  induction rounds as [|n IH]; intros s items Hitems.
  - exists []. cbn. rewrite app_nil_r. repeat split; [lia | constructor].
  - pose proof (tool_round_calls ctx temperature max_tokens tools s) as Hcalls.
    destruct (tool_round_only_appends cfg ctx temperature max_tokens tools s)
      as [appended Happ].
    rewrite Hitems in Hcalls, Happ. cbn [default fmap option_fmap option_map] in Hcalls, Happ.
    cbn [tool_rounds].
    destruct (tool_round cfg ctx temperature max_tokens tools s)
      as [ys [[|]|err] s1] eqn:E; cbn [final] in Hcalls, Happ.
    + rewrite (bind_run_ok _ _ _ _ _ _ E). cbn [final].
      destruct (IH s1 (items ++ appended) Happ) as (new & Hnew & Hlen & Hall & Hctx).
      exists (round_call cfg items temperature max_tokens tools :: new).
      split; [rewrite Hnew, Hcalls, <- app_assoc; reflexivity|].
      split; [simpl; lia|].
      split; [constructor; [now exists items | assumption]|].
      split; [reflexivity | now exists appended].
    + rewrite (bind_run_ok _ _ _ _ _ _ E). cbn [final ret].
      exists [round_call cfg items temperature max_tokens tools].
      split; [assumption|]. split; [simpl; lia|].
      split; [constructor; [now exists items | constructor]|].
      split; [reflexivity | now exists []].
    + rewrite (bind_run_raise _ _ _ _ _ _ E). cbn [final].
      exists [round_call cfg items temperature max_tokens tools].
      split; [assumption|]. split; [simpl; lia|].
      split; [constructor; [now exists items | constructor]|].
      split; [reflexivity | now exists []].
Qed.

Lemma streaming_loop_on_final (ctx : positive) (temperature : float) (max_tokens : Z)
    (tools : option (list pyval)) (s : state) :
  final (streaming_loop_on cfg ctx temperature max_tokens tools s)
  = final (tool_rounds cfg (Z.to_nat (MAX_TOOL_ROUNDS cfg)) ctx temperature max_tokens tools s).
Proof.
  unfold streaming_loop_on, bind.
  generalize (tool_rounds cfg (Z.to_nat (MAX_TOOL_ROUNDS cfg)) ctx temperature max_tokens
                tools s).
  intros [ys [[|]|err] s1]; reflexivity.
Qed.

Lemma streaming_loop_calls (conversation : positive) (temperature : float) (max_tokens : Z)
    (tools : option (list pyval)) (s : state) :
  exists new,
    st_calls (final (_streaming_loop cfg conversation temperature max_tokens tools s))
    = st_calls s ++ new /\
    (length new <= Z.to_nat (MAX_TOOL_ROUNDS cfg))%nat /\
    Forall (fun call => exists context,
              call = round_call cfg context temperature max_tokens tools) new /\
    contexts_from (default [] (st_heap s !! conversation)) new.
Proof.
  unfold _streaming_loop.
  rewrite (bind_run_ok _ _ _ _ _ _ (list_copy_run conversation s)). cbn [final].
  rewrite streaming_loop_on_final.
  apply (tool_rounds_calls _ temperature max_tokens tools _
           (set_heap (<[fresh (dom (st_heap s)) := default [] (st_heap s !! conversation)]>
                        (st_heap s)) s)).
  apply list_new_lookup.
Qed.

(** X16.  The loop bounds the model calls.  A run of the loop, whatever
    the model answers and however the run ends, makes at most
    [MAX_TOOL_ROUNDS] model calls (none when the limit is zero or
    negative), and each of them carries the configured model name, the
    temperature and the token budget of the caller, and the tool list of
    the caller (the full registry when none is given). *)
Theorem streaming_loop_bounds_model_calls (conversation : positive) (temperature : float)
    (max_tokens : Z) (tools : option (list pyval)) (s : state) :
  exists new,
    st_calls (final (_streaming_loop cfg conversation temperature max_tokens tools s))
    = st_calls s ++ new /\
    (length new <= Z.to_nat (MAX_TOOL_ROUNDS cfg))%nat /\
    Forall (fun call =>
              cc_model call = MODEL_NAME cfg /\
              cc_tools call = match tools with None => TOOLS cfg | Some t => t end /\
              cc_temperature call = temperature /\
              cc_num_predict call = max_tokens) new.
Proof.
  destruct (streaming_loop_calls conversation temperature max_tokens tools s)
    as (new & Hnew & Hlen & Hall & _).
  exists new. split; [assumption|]. split; [assumption|].
  eapply Forall_impl; [exact Hall|].
  intros call [context ->]. repeat split.
Qed.

(** X17.  The context only grows.  In a run of the loop the first model
    call is made on exactly the messages of the caller's conversation,
    and every later call on the messages of the call before it followed
    by further messages: nothing is dropped from or rewritten in the
    context between two rounds. *)
Theorem streaming_loop_contexts_grow (conversation : positive) (temperature : float)
    (max_tokens : Z) (tools : option (list pyval)) (s : state) :
  exists new,
    st_calls (final (_streaming_loop cfg conversation temperature max_tokens tools s))
    = st_calls s ++ new /\
    contexts_from (default [] (st_heap s !! conversation)) new.
Proof.
  destruct (streaming_loop_calls conversation temperature max_tokens tools s)
    as (new & Hnew & _ & _ & Hctx).
  now exists new.
Qed.

(** ** The events of a run of the loop *)

Lemma paired_app (events others : list event) :
  paired events -> paired others -> paired (events ++ others).
Proof.
  induction 1 as [|e rest He _ IH|tool args tool_result rest _ IH]; intros Ho; cbn [app].
  - assumption.
  - apply paired_text; auto.
  - apply paired_tool; auto.
Qed.

Lemma paired_texts (events : list event) : Forall is_text events -> paired events.
Proof. induction 1; [apply paired_nil | apply paired_text; assumption]. Qed.

Lemma open_request_app (events others : list event) :
  paired events -> open_request others -> open_request (events ++ others).
Proof.
  intros He (answered & tool & args & Ha & ->).
  exists (events ++ answered), tool, args. split; [now apply paired_app|].
  now rewrite app_assoc.
Qed.

Lemma run_paired_texts {A} (r : run event A) : Forall is_text (yielded r) -> run_paired r.
Proof.
  intros H. apply paired_texts in H. unfold run_paired.
  destruct (outcome r); [assumption | now left].
Qed.

Lemma run_paired_bind {A B} (m : Gen event A) (k : A -> Gen event B) :
  (forall s, run_paired (m s)) -> (forall a s, run_paired (k a s)) ->
  forall s, run_paired (bind m k s).
Proof.
  intros Hm Hk s. unfold bind. specialize (Hm s).
  destruct (m s) as [ys [a|e] s1]; unfold run_paired in *;
    cbn [outcome yielded final] in *; [|assumption].
  specialize (Hk a s1).
  destruct (k a s1) as [ys' [b|e'] s2]; cbn [outcome yielded final] in *.
  - now apply paired_app.
  - destruct Hk as [Hk|Hk]; [left; now apply paired_app | right; now apply open_request_app].
Qed.

Lemma run_paired_for_each {A} (l : list A) (body : A -> Gen event unit) :
  (forall x s, run_paired (body x s)) -> forall s, run_paired (for_each l body s).
Proof.
  intros Hbody. induction l as [|x l IH]; intros s.
  - apply run_paired_texts. constructor.
  - cbn [for_each]. apply run_paired_bind; [apply Hbody | intros _; apply IH].
Qed.

Lemma execute_tool_call_paired (ctx : positive) (tc : tool_call) (s : state) :
  run_paired (execute_tool_call cfg ctx tc s).
Proof.
  pose proof (execute_tool_call_run cfg ctx tc s) as Hrun. cbv zeta in Hrun.
  rewrite dispatch_tool_yields_nothing in Hrun. rewrite Hrun.
  destruct (outcome (dispatch_tool cfg (requested_tool tc) (requested_arguments tc) s))
    as [tool_result|err]; unfold run_paired; cbn [outcome yielded app].
  - apply paired_tool, paired_nil.
  - right. exists [], (requested_tool tc), (shown_arguments tc).
    split; [apply paired_nil | reflexivity].
Qed.

Lemma receive_paired (stream_response : list chunk * option exn) (s : state) :
  run_paired (@receive rt stream_response s).
Proof.
  apply run_paired_texts. destruct stream_response as [chunks [err|]].
  - rewrite receive_run_raise. apply collect_yields_text.
  - rewrite receive_run. apply collect_yields_text.
Qed.

Lemma tool_round_paired (ctx : positive) (temperature : float) (max_tokens : Z)
    (tools : option (list pyval)) (s : state) :
  run_paired (tool_round cfg ctx temperature max_tokens tools s).
Proof.
  revert s. unfold tool_round.
  apply run_paired_bind; [intros s; apply run_paired_texts; constructor|].
  intros context. apply run_paired_bind.
  { intros s. apply run_paired_texts. unfold client_chat_stream.
    destruct (client_chat _ _) as [[chunks err] e]. constructor. }
  intros stream_response. apply run_paired_bind; [apply receive_paired|].
  intros acc. apply run_paired_bind.
  { intros s. apply run_paired_texts. unfold append_assistant.
    destruct (has_field_besides_role _); constructor. }
  intros _. destruct (collected_tool_calls acc) as [|tc calls].
  - intros s. apply run_paired_texts. constructor.
  - apply run_paired_bind.
    + apply run_paired_for_each. intros x. apply execute_tool_call_paired.
    + intros _ s. apply run_paired_texts. constructor.
Qed.

Lemma tool_rounds_paired (ctx : positive) (temperature : float) (max_tokens : Z)
    (tools : option (list pyval)) (rounds : nat) (s : state) :
  run_paired (tool_rounds cfg rounds ctx temperature max_tokens tools s).
Proof.
  revert s. induction rounds as [|n IH]; intros s.
  - apply run_paired_texts. constructor.
  - cbn [tool_rounds]. revert s. apply run_paired_bind; [apply tool_round_paired|].
    intros [|] s; [apply IH | apply run_paired_texts; constructor].
Qed.

Lemma streaming_loop_paired (conversation : positive) (temperature : float)
    (max_tokens : Z) (tools : option (list pyval)) (s : state) :
  run_paired (_streaming_loop cfg conversation temperature max_tokens tools s).
Proof.
  revert s. unfold _streaming_loop. apply run_paired_bind.
  { intros s. rewrite list_copy_run. apply run_paired_texts. constructor. }
  intros ctx. unfold streaming_loop_on. apply run_paired_bind; [apply tool_rounds_paired|].
  intros [|] s; apply run_paired_texts; repeat constructor.
Qed.

(** X18.  Requests and results come in pairs.  In the events of a run of
    the loop that ends normally (it returns or reaches the round limit),
    every [tool_request] is directly followed by the [tool_result] of the
    same tool and every [tool_result] directly follows such a request,
    whatever the model and the tools do.  When the run ends with an
    exception the same holds, except that the last event may be a
    [tool_request] left without result (the tool raised). *)
Theorem streaming_loop_events_paired (conversation : positive) (temperature : float)
    (max_tokens : Z) (tools : option (list pyval)) (s : state) :
  let r := _streaming_loop cfg conversation temperature max_tokens tools s in
  match outcome r with
  | Ok _ => paired (yielded r)
  | Raise _ => paired (yielded r) \/ open_request (yielded r)
  end.
Proof. exact (streaming_loop_paired conversation temperature max_tokens tools s). Qed.

(** X19.  Tool calls are answered in order.  When the tool calls of a
    round have all been executed, there is one result per call, in the
    order of the calls: the events are, call after call, the request (it
    shows an empty mapping when the arguments are falsy) and the result,
    and the context has received, call after call, one tool message with
    the name of the tool, the call id when there is one, and that same
    result as its content. *)
Theorem tool_calls_answered_in_order (ctx : positive) (calls : list tool_call) :
  forall (s : state) (items : list message),
    st_heap s !! ctx = Some items ->
    outcome (for_each calls (execute_tool_call cfg ctx) s) = Ok tt ->
    exists results,
      length results = length calls /\
      yielded (for_each calls (execute_tool_call cfg ctx) s)
      = concat (zip_with call_events calls results) /\
      st_heap (final (for_each calls (execute_tool_call cfg ctx) s)) !! ctx
      = Some (items ++ zip_with call_message calls results).
Proof.
  induction calls as [|tc calls IH]; intros s items Hitems Hok.
  - exists []. cbn. now rewrite app_nil_r.
  - cbn [for_each] in Hok |- *.
    destruct (bind_ok_inv _ _ _ _ Hok) as ([] & Hone & Hrest & Hyield & Hfinal).
    rewrite Hyield, Hfinal.
    pose proof (execute_tool_call_run cfg ctx tc s) as Hrun. cbv zeta in Hrun.
    rewrite dispatch_tool_yields_nothing in Hrun.
    destruct (dispatch_tool_same cfg (Y:=event) (requested_tool tc) (requested_arguments tc) s)
      as [Hheap _].
    destruct (outcome (dispatch_tool cfg (requested_tool tc) (requested_arguments tc) s))
      as [tool_result|err].
    2:{ rewrite Hrun in Hone. discriminate. }
    revert Hrest. rewrite Hrun. cbn [final yielded app]. intros Hrest.
    match type of Hrest with
    | outcome (for_each _ _ ?s1) = _ =>
        destruct (IH s1 (items ++ [call_message tc tool_result])) as (results & Hlen & Hev & Hctx);
        [|exact Hrest|]
    end.
    { cbn [st_heap set_heap]. rewrite lookup_alter_eq, Hheap, Hitems. reflexivity. }
    exists (tool_result :: results).
    split; [simpl; now rewrite Hlen|].
    split.
    + rewrite Hev. reflexivity.
    + rewrite Hctx. cbn [zip_with]. now rewrite <- app_assoc.
Qed.


(** ** How a run of the loop ends *)

Lemma copied_context (conversation : positive) (s : state) :
  default [] (st_heap (set_heap (<[fresh (dom (st_heap s))
                                  := default [] (st_heap s !! conversation)]> (st_heap s)) s)
                !! fresh (dom (st_heap s)))
  = default [] (st_heap s !! conversation).
Proof. now rewrite list_new_lookup. Qed.

(** X21.  A plain answer ends the loop.  With a round limit of at least
    one, when the stream of the first model call ends normally and
    carries no tool call, the loop yields the text events of that stream
    and nothing else, returns normally without the round-limit message,
    and has called the model exactly once, on the caller's conversation. *)
Theorem streaming_loop_returns_plain_answer (conversation : positive) (temperature : float)
    (max_tokens : Z) (tools : option (list pyval)) (s : state) (chunks : list chunk)
    (e : ext) :
  0 < MAX_TOOL_ROUNDS cfg ->
  client_chat (round_call cfg (default [] (st_heap s !! conversation)) temperature
                          max_tokens tools) (st_ext s)
  = (chunks, None, e) ->
  collected_tool_calls (snd (collect chunks)) = [] ->
  let r := _streaming_loop cfg conversation temperature max_tokens tools s in
  yielded r = fst (collect chunks) /\
  outcome r = Ok tt /\
  st_calls (final r)
  = st_calls s ++ [round_call cfg (default [] (st_heap s !! conversation)) temperature
                              max_tokens tools].
Proof.
  intros Hmax Hc Hnone r. subst r. unfold _streaming_loop.
  rewrite (bind_run_ok _ _ _ _ _ _ (list_copy_run conversation s)).
  pose proof (tool_round_run cfg (fresh (dom (st_heap s))) temperature max_tokens tools
                (set_heap (<[fresh (dom (st_heap s))
                            := default [] (st_heap s !! conversation)]> (st_heap s)) s)
                chunks e) as Hr.
  cbv zeta in Hr. rewrite copied_context in Hr. specialize (Hr Hc).
  rewrite Hnone in Hr.
  set (s2 := final (append_assistant _ _ _)) in Hr.
  assert (Hcalls : st_calls s2
                   = st_calls s ++ [round_call cfg (default [] (st_heap s !! conversation))
                                               temperature max_tokens tools])
    by (subst s2; now rewrite append_assistant_calls).
  clearbody s2.
  unfold streaming_loop_on.
  destruct (Z.to_nat (MAX_TOOL_ROUNDS cfg)) as [|n] eqn:En; [lia|].
  cbn [tool_rounds].
  rewrite (bind_run_ok (bind _ _) _ _ s2 (fst (collect chunks)) Return).
  2:{ rewrite (bind_run_ok _ _ _ _ _ _ Hr). cbn [outcome yielded final ret].
      now rewrite app_nil_r. }
  cbn [outcome yielded final ret]. rewrite app_nil_r.
  split; [reflexivity|]. split; [reflexivity | exact Hcalls].
Qed.

(** X22.  No round at all.  With a round limit of zero or less the loop
    calls no model and runs no tool: it yields the round-limit message as
    its only event and returns normally. *)
Theorem streaming_loop_without_rounds (conversation : positive) (temperature : float)
    (max_tokens : Z) (tools : option (list pyval)) (s : state) :
  MAX_TOOL_ROUNDS cfg <= 0 ->
  let r := _streaming_loop cfg conversation temperature max_tokens tools s in
  yielded r = [EvContent limit_message] /\
  outcome r = Ok tt /\
  st_calls (final r) = st_calls s /\
  st_ext (final r) = st_ext s /\
  st_memory_file (final r) = st_memory_file s.
Proof.
  intros Hmax r. subst r. unfold _streaming_loop.
  rewrite (bind_run_ok _ _ _ _ _ _ (list_copy_run conversation s)).
  unfold streaming_loop_on.
  replace (Z.to_nat (MAX_TOOL_ROUNDS cfg)) with 0%nat by lia.
  repeat split.
Qed.

(** X23.  A failing backend ends the loop.  With a round limit of at
    least one, when the stream of the first model call ends with an
    exception, the loop yields the text events received before it, then
    ends with that same exception: the call is not retried and no
    round-limit message is yielded. *)
Theorem streaming_loop_raises_stream_failure (conversation : positive)
    (temperature : float) (max_tokens : Z) (tools : option (list pyval)) (s : state)
    (chunks : list chunk) (err : exn) (e : ext) :
  0 < MAX_TOOL_ROUNDS cfg ->
  client_chat (round_call cfg (default [] (st_heap s !! conversation)) temperature
                          max_tokens tools) (st_ext s)
  = (chunks, Some err, e) ->
  let r := _streaming_loop cfg conversation temperature max_tokens tools s in
  yielded r = fst (collect chunks) /\
  outcome r = Raise err /\
  st_calls (final r)
  = st_calls s ++ [round_call cfg (default [] (st_heap s !! conversation)) temperature
                              max_tokens tools].
Proof.
  intros Hmax Hc r. subst r. unfold _streaming_loop.
  rewrite (bind_run_ok _ _ _ _ _ _ (list_copy_run conversation s)).
  pose proof (tool_round_failure_run (fresh (dom (st_heap s))) temperature max_tokens tools
                (set_heap (<[fresh (dom (st_heap s))
                            := default [] (st_heap s !! conversation)]> (st_heap s)) s)
                chunks err e) as Hr.
  rewrite copied_context in Hr. specialize (Hr Hc).
  unfold streaming_loop_on.
  destruct (Z.to_nat (MAX_TOOL_ROUNDS cfg)) as [|n] eqn:En; [lia|].
  cbn [tool_rounds].
  rewrite (bind_run_raise _ _ _ _ _ _ (bind_run_raise _ _ _ _ _ _ Hr)).
  cbn [outcome yielded final app]. repeat split.
Qed.

(** X24.  The round limit.  When the model asks for at least one tool
    call at every invocation and the dispatcher answers each of them, the
    loop runs exactly [MAX_TOOL_ROUNDS] rounds, each yielding its text
    events and then its [tool_request]/[tool_result] pairs, calls the
    model once per round and not again, yields the round-limit message as
    its last event, and ends normally. *)
Theorem streaming_loop_stops_at_round_limit (conversation : positive)
    (temperature : float) (max_tokens : Z) (tools : option (list pyval)) (s : state) :
  always_calls_tools cfg ->
  let r := _streaming_loop cfg conversation temperature max_tokens tools s in
  exists rounds,
    length rounds = Z.to_nat (MAX_TOOL_ROUNDS cfg) /\
    Forall round_events rounds /\
    yielded r = concat rounds ++ [EvContent limit_message] /\
    outcome r = Ok tt /\
    length (st_calls (final r))
    = (length (st_calls s) + Z.to_nat (MAX_TOOL_ROUNDS cfg))%nat.
Proof.
  intros Hmodel. exact (streaming_loop_round_limit cfg conversation temperature max_tokens
                          tools s Hmodel).
Qed.

(** ** The chat endpoint *)

Lemma flat_map_forward (events : list event) :
  flat_map forward events = map _sse_from_event events.
Proof.
  induction events as [|e events IH]; [reflexivity|].
  cbn [flat_map map]. now rewrite forward_one, IH.
Qed.

Lemma feed_forward (events : list event) :
  feed (fun (_ : unit) event => (forward event, tt)) events tt
  = (map _sse_from_event events, tt).
Proof.
  induction events as [|e events IH]; [reflexivity|].
  cbn [feed]. rewrite IH, forward_one. reflexivity.
Qed.

Lemma feed_texts (events : list event) (acc : string * string) :
  feed (fun (acc : string * string) event =>
          match event with
          | EvContent text => (@nil string, (fst acc +:+ text, snd acc))
          | EvThinking text => ([], (fst acc, snd acc +:+ text))
          | _ => ([], acc)
          end) events acc
  = ([], (content_text events (fst acc), thinking_text events (snd acc))).
Proof.
  revert acc. induction events as [|e events IH]; intros [c t]; [reflexivity|].
  cbn [feed]. destruct e; rewrite IH; reflexivity.
Qed.

Lemma bind_ret_run {Y A B} (m : Gen Y A) (f : A -> B) (s : state) :
  bind m (fun a => ret (f a)) s
  = Run (yielded (m s))
        (match outcome (m s) with Ok a => Ok (f a) | Raise e => Raise e end)
        (final (m s)).
Proof.
  unfold bind, ret. destruct (m s) as [ys [a|e] s1]; cbn [outcome yielded final];
    rewrite ?app_nil_r; reflexivity.
Qed.

Lemma chat_generate_run (request : ChatRequest) (outgoing : positive) (s : state) :
  let r := _streaming_loop cfg outgoing (temperature request) (max_tokens request)
                           (Some (PYTHON_ONLY_TOOLS cfg)) s in
  chat_generate cfg request outgoing s
  = Run (map _sse_from_event (yielded r) ++ [closing_frame (outcome r)]) (Ok tt) (final r).
Proof.
  cbv zeta. unfold chat_generate. rewrite try_except_run.
  unfold bind, async_for. rewrite feed_forward.
  generalize (_streaming_loop cfg outgoing (temperature request) (max_tokens request)
                              (Some (PYTHON_ONLY_TOOLS cfg)) s).
  intros [ys [[]|e] s1]; reflexivity.
Qed.

Lemma chat_collect_run (request : ChatRequest) (outgoing : positive) (s : state) :
  let r := _streaming_loop cfg outgoing (temperature request) (max_tokens request)
                           (Some (PYTHON_ONLY_TOOLS cfg)) s in
  chat_collect cfg request outgoing s
  = Run []
        (match outcome r with
         | Ok _ => Ok (chat_answer (content_text (yielded r) "") (thinking_text (yielded r) ""))
         | Raise e => Raise (HTTPException 500 (exn_str e))
         end)
        (final r).
Proof.
  cbv zeta. unfold chat_collect. rewrite try_except_run.
  unfold bind, async_for. rewrite feed_texts.
  generalize (_streaming_loop cfg outgoing (temperature request) (max_tokens request)
                              (Some (PYTHON_ONLY_TOOLS cfg)) s).
  intros [ys [[]|e] s1]; reflexivity.
Qed.

(** X25.  The stream of the chat endpoint.  When the request asks for a
    stream, the endpoint never raises: its body is one frame for every
    event of the loop run on the request's messages, in order and none
    dropped, followed by exactly one closing frame, which is the
    terminator when the loop ended normally and the error frame carrying
    the text of the exception when the loop raised. *)
Theorem chat_stream_frames (request : ChatRequest) (s : state) :
  stream request = true ->
  let outgoing := fresh (dom (st_heap s)) in
  let r := _streaming_loop cfg outgoing (temperature request) (max_tokens request)
             (Some (PYTHON_ONLY_TOOLS cfg))
             (set_heap (<[outgoing := map outgoing_message (messages request)]> (st_heap s)) s) in
  chat cfg request s
  = Run (map _sse_from_event (yielded r) ++ [closing_frame (outcome r)]) (Ok None) (final r).
Proof.
  intros Hstream. cbv zeta. unfold chat.
  rewrite (bind_run_ok _ _ _ _ _ _ (list_new_run _ s)). rewrite Hstream.
  rewrite (bind_run_ok _ _ _ _ _ _ (chat_generate_run request _ _)).
  cbn [outcome yielded final ret app]. now rewrite !app_nil_r.
Qed.

(** X26.  The answer of the chat endpoint without a stream.  When the
    request asks for no stream, the endpoint yields nothing; if the loop
    run on the request's messages ends normally it returns one assistant
    message whose content is the concatenation of the content events of
    the run (the round-limit message included, tool events left out) and
    whose thinking is the concatenation of its thinking events; if the
    loop raises, it raises an HTTP error 500 with the text of that
    exception. *)
Theorem chat_answer_collects_texts (request : ChatRequest) (s : state) :
  stream request = false ->
  let outgoing := fresh (dom (st_heap s)) in
  let r := _streaming_loop cfg outgoing (temperature request) (max_tokens request)
             (Some (PYTHON_ONLY_TOOLS cfg))
             (set_heap (<[outgoing := map outgoing_message (messages request)]> (st_heap s)) s) in
  chat cfg request s
  = Run []
        (match outcome r with
         | Ok _ => Ok (Some (chat_answer (content_text (yielded r) "")
                                         (thinking_text (yielded r) "")))
         | Raise e => Raise (HTTPException 500 (exn_str e))
         end)
        (final r).
Proof.
  intros Hstream. cbv zeta. unfold chat.
  rewrite (bind_run_ok _ _ _ _ _ _ (list_new_run _ s)). rewrite Hstream.
  rewrite bind_ret_run, chat_collect_run.
  cbn [outcome yielded final app].
  generalize (_streaming_loop cfg (fresh (dom (st_heap s))) (temperature request)
                (max_tokens request) (Some (PYTHON_ONLY_TOOLS cfg))
                (set_heap (<[fresh (dom (st_heap s))
                            := map outgoing_message (messages request)]> (st_heap s)) s)).
  intros [ys [[]|e] s1]; reflexivity.
Qed.

(** ** The team endpoint *)

(** X27.  The team stream always closes.  For every request and whatever
    the model and the tools do, the generator of the team endpoint ends
    normally, and the last frame of its stream is the terminator or an
    error frame: an exception raised anywhere in the pipeline is turned
    into a frame, never propagated. *)
Theorem chat_team_always_closes (request : ChatRequest) (s : state) :
  outcome (chat_team cfg request s) = Ok tt /\
  exists frames closing,
    yielded (chat_team cfg request s) = frames ++ [closing] /\
    (closing = sse_done \/ exists e, closing = sse_error e).
Proof.
  rewrite chat_team_guard.
  destruct (outcome (chat_team_unguarded cfg request s)) as [[]|e] eqn:Ho.
  - split; [assumption|].
    destruct (team_pipeline_order cfg request s Ho) as (blocks & leader_out & _ & _ & Hy).
    exists (concat blocks ++ leader_out), sse_done.
    split; [now rewrite Hy, app_assoc | now left].
  - split; [reflexivity|].
    exists (yielded (chat_team_unguarded cfg request s)), (sse_error e).
    split; [reflexivity | right; now exists e].
Qed.

(** ** The model calls of a request *)

Lemma calls_within_bind {Y A B} (n k : nat) (m : Gen Y A) (f : A -> Gen Y B) :
  (forall s, calls_within n s (final (m s))) ->
  (forall a s, calls_within k s (final (f a s))) ->
  forall s, calls_within (n + k) s (final (bind m f s)).
Proof.
  intros Hm Hf s. unfold bind. specialize (Hm s).
  destruct (m s) as [ys [a|e] s1]; cbn [outcome yielded final] in *.
  - destruct Hm as (new & Hnew & Hlen). destruct (Hf a s1) as (new' & Hnew' & Hlen').
    exists (new ++ new'). split; [now rewrite Hnew', Hnew, app_assoc|].
    rewrite length_app. lia.
  - destruct Hm as (new & Hnew & Hlen). exists new. split; [assumption | lia].
Qed.

Lemma calls_within_same {Y A} (m : Gen Y A) :
  (forall s, st_calls (final (m s)) = st_calls s) ->
  forall s, calls_within 0 s (final (m s)).
Proof. intros H s. exists []. rewrite H, app_nil_r. split; [reflexivity | simpl; lia]. Qed.

Lemma streaming_loop_calls_within (conversation : positive) (temperature : float)
    (max_tokens : Z) (tools : option (list pyval)) (s : state) :
  calls_within (Z.to_nat (MAX_TOOL_ROUNDS cfg)) s
               (final (_streaming_loop cfg conversation temperature max_tokens tools s)).
Proof.
  destruct (streaming_loop_calls conversation temperature max_tokens tools s)
    as (new & Hnew & Hlen & _).
  now exists new.
Qed.

Lemma member_turn_calls_within (request : ChatRequest) (outgoing : positive)
    (member_answers : gmap string string) (m : member) (s : state) :
  calls_within (Z.to_nat (MAX_TOOL_ROUNDS cfg)) s
               (final (member_turn cfg request outgoing member_answers m s)).
Proof.
  rewrite member_turn_run. cbv zeta.
  match goal with
  | |- context [_streaming_loop cfg ?ctx ?t ?mt ?tl ?s1] =>
      pose proof (streaming_loop_calls_within ctx t mt tl s1) as H;
      generalize dependent (_streaming_loop cfg ctx t mt tl s1)
  end.
  intros [ys [[]|e] s2] H; exact H.
Qed.

Lemma leader_turn_calls_within (request : ChatRequest) (outgoing : positive)
    (member_answers : gmap string string) (s : state) :
  calls_within (Z.to_nat (MAX_TOOL_ROUNDS cfg)) s
               (final (leader_turn cfg request outgoing member_answers s)).
Proof.
  rewrite leader_turn_run. cbv zeta.
  match goal with
  | |- context [_streaming_loop cfg ?ctx ?t ?mt ?tl ?s1] =>
      pose proof (streaming_loop_calls_within ctx t mt tl s1) as H;
      generalize dependent (_streaming_loop cfg ctx t mt tl s1)
  end.
  intros [ys [[]|e] s2] H; exact H.
Qed.

Lemma member_turns_calls_within (request : ChatRequest) (outgoing : positive)
    (members : list member) :
  forall (member_answers : gmap string string) (s : state),
    calls_within (length members * Z.to_nat (MAX_TOOL_ROUNDS cfg)) s
                 (final (for_fold members (member_turn cfg request outgoing) member_answers s)).
Proof.
  induction members as [|m members IH]; intros member_answers s.
  - exists []. cbn. rewrite app_nil_r. split; [reflexivity | lia].
  - rewrite for_fold_cons. cbn [length Nat.mul].
    revert s. apply calls_within_bind.
    + intros s. apply member_turn_calls_within.
    + intros answers s. apply IH.
Qed.

(** X28.  The model calls of a request.  Whatever the model answers, a
    request to the chat endpoint makes at most [MAX_TOOL_ROUNDS] model
    calls, and a request to the team endpoint at most [MAX_TOOL_ROUNDS]
    for each member and for the leader. *)
Theorem endpoints_bound_model_calls (request : ChatRequest) (s : state) :
  (exists new,
     st_calls (final (chat cfg request s)) = st_calls s ++ new /\
     (length new <= Z.to_nat (MAX_TOOL_ROUNDS cfg))%nat) /\
  (exists new,
     st_calls (final (chat_team cfg request s)) = st_calls s ++ new /\
     (length new <= (length (TEAM_MEMBERS cfg) + 1) * Z.to_nat (MAX_TOOL_ROUNDS cfg))%nat).
Proof.
  split.
  - unfold chat. rewrite (bind_run_ok _ _ _ _ _ _ (list_new_run _ s)). cbn [final].
    match goal with
    | |- context [if _ then bind (chat_generate cfg request ?o) _ else _] =>
        pose proof (chat_generate_run request o) as Hg;
        pose proof (chat_collect_run request o) as Hc
    end.
    cbv zeta in Hg, Hc.
    match goal with
    | |- context [final (_ ?s1)] =>
        specialize (Hg s1); specialize (Hc s1);
        pose proof (streaming_loop_calls_within (fresh (dom (st_heap s))) (temperature request)
                      (max_tokens request) (Some (PYTHON_ONLY_TOOLS cfg)) s1) as Hloop
    end.
    destruct (stream request).
    + rewrite (bind_run_ok _ _ _ _ _ _ Hg). exact Hloop.
    + rewrite bind_ret_run, Hc. cbn [outcome final]. exact Hloop.
  - assert (Hfinal : final (chat_team cfg request s)
                     = final (chat_team_unguarded cfg request s)).
    { rewrite chat_team_guard.
      now destruct (outcome (chat_team_unguarded cfg request s)). }
    rewrite Hfinal. unfold chat_team_unguarded.
    rewrite (bind_run_ok _ _ _ _ _ _ (list_new_run _ s)). cbn [final].
    rewrite team_pipeline_eq.
    match goal with
    | |- context [final (_ ?s1)] =>
        pose proof (calls_within_bind _ _ _ _
                      (member_turns_calls_within request (fresh (dom (st_heap s)))
                         (TEAM_MEMBERS cfg) ∅)
                      (fun answers =>
                         calls_within_bind _ 0 _ _
                           (leader_turn_calls_within request (fresh (dom (st_heap s))) answers)
                           (fun _ => calls_within_same (yield sse_done) (fun s => eq_refl)))
                      s1) as (new & Hnew & Hlen)
    end.
    exists new. split; [exact Hnew | lia].
Qed.

End More.

(** ** The further properties at concrete inputs *)

(** X1 on an eight-character text and a cap of 4. *)
Lemma truncate_text_keeps_both_ends_witness :
  2 <= 4 /\ 4 < str_len "abcdefgh" /\
  exists prefix middle suffix : string,
    "abcdefgh" = prefix +:+ middle +:+ suffix /\
    str_len prefix = 4 / 2 /\
    str_len suffix = 4 / 2 /\
    middle <> "" /\
    _truncate_text "abcdefgh" 4 = prefix +:+ truncation_marker +:+ suffix /\
    str_len (_truncate_text "abcdefgh" 4) = 2 * (4 / 2) + 19.
Proof.
  assert (H1 : 2 <= 4) by lia.
  assert (H2 : 4 < str_len "abcdefgh") by (vm_compute; reflexivity).
  split; [exact H1|]. split; [exact H2|].
  exact (truncate_text_keeps_both_ends "abcdefgh" 4 H1 H2).
Defined.

(** X2 on a three-character text and a cap of 1. *)
Lemma truncate_text_small_cap_witness :
  _truncate_text "abc" 1 = truncation_marker +:+ "abc".
Proof.
  apply (truncate_text_small_cap "abc" 1); [lia | vm_compute; reflexivity].
Defined.

(** X3 on a tool that is not registered. *)
Lemma dispatch_answers_unknown_tool_witness :
  let rt := Stub.runtime Stub.silent_model in
  let s := Stub.initial rt 0%nat in
  @dispatch_tool Stub.config rt event "web_search" (PDict [("query", PStr "tea")]) s
  = Run [] (Ok (PDict [("ok", PBool false); ("error", PStr "unknown tool: web_search")])) s.
Proof.
  intros rt s.
  apply (dispatch_answers_unknown_tool Stub.config "web_search"); discriminate.
Defined.

(** X5 on arguments that are a number, and on a code made of blanks. *)
Lemma dispatch_python_exec_without_code_witness :
  let rt := Stub.runtime Stub.silent_model in
  let s := Stub.initial rt 0%nat in
  @dispatch_tool Stub.config rt event "python_exec" (PInt 7) s = Run [] (Ok code_is_empty) s /\
  @dispatch_tool Stub.config rt event "python_exec" (PDict [("code", PStr "  ")]) s
  = Run [] (Ok code_is_empty) s.
Proof.
  intros rt s. split.
  - apply (proj1 (dispatch_python_exec_without_code Stub.config (PInt 7) s)); discriminate.
  - apply (proj2 (dispatch_python_exec_without_code Stub.config (PDict [("code", PStr "  ")]) s)
             [("code", PStr "  ")] "  "); reflexivity.
Defined.

(** X6 on a subprocess that prints sixteen characters, with a cap of 8. *)
Lemma python_exec_output_bounded_witness :
  let rt := Scenario.chatty_runtime in
  let s := Stub.initial rt 0%nat in
  outcome (@run_python_tool Stub.config rt event "print(1)" s)
  = Ok (PDict [("ok", PBool true); ("returncode", PInt 0);
               ("stdout", PStr ("0123" +:+ truncation_marker +:+ "cdef"));
               ("stderr", PStr "")]) /\
  str_len ("0123" +:+ truncation_marker +:+ "cdef") <= 8 + 19.
Proof.
  intros rt s.
  assert (H : outcome (@run_python_tool Stub.config rt event "print(1)" s)
              = Ok (PDict [("ok", PBool true); ("returncode", PInt 0);
                           ("stdout", PStr ("0123" +:+ truncation_marker +:+ "cdef"));
                           ("stderr", PStr "")])) by reflexivity.
  split; [exact H|].
  apply (python_exec_output_bounded Stub.config "print(1)" s _ _ ltac:(simpl; lia) H).
  left. reflexivity.
Defined.

(** X9 on arguments that are a bare text, and on an empty content. *)
Lemma dispatch_memory_tool_without_content_witness :
  let rt := Stub.runtime Stub.silent_model in
  let s := Stub.initial rt 0%nat in
  @dispatch_tool Stub.config rt event "memory_tool" (PStr "[]") s
  = Run [] (Ok content_required) s /\
  @dispatch_tool Stub.config rt event "memory_tool" (PDict [("content", PStr "")]) s
  = Run [] (Ok content_required) s.
Proof.
  intros rt s. split.
  - apply (proj1 (proj2 (dispatch_memory_tool_without_content Stub.config (PStr "[]") s)) "[]");
      [reflexivity | discriminate].
  - apply (proj2 (proj2 (dispatch_memory_tool_without_content Stub.config
                           (PDict [("content", PStr "")]) s)) [("content", PStr "")]);
      reflexivity.
Defined.



(** X12: no memory file, and a memory file that holds a JSON list. *)
Lemma memory_reads_empty_without_document_witness :
  let rt := Stub.runtime Stub.silent_model in
  let s := Stub.initial rt 0%nat in
  @get_memory_system_prompt rt event s = Run [] (Ok "") s /\
  @load_memories rt event (set_memory_file (Some "[]") s)
  = Run [] (Ok "") (set_memory_file (Some "[]") s).
Proof.
  intros rt s. split.
  - apply (memory_reads_empty_without_document s). left. reflexivity.
  - apply (memory_reads_empty_without_document (set_memory_file (Some "[]") s)).
    right. exists "[]". split; [reflexivity | discriminate].
Defined.

(** X19: one [python_exec] call and one unknown tool, executed in turn. *)
Lemma tool_calls_answered_in_order_witness :
  let rt := Stub.runtime Stub.silent_model in
  let s := Stub.holding rt 0%nat [user_message "hi"] in
  let calls := [Stub.call_tool "python_exec" (PDict [("code", PStr "print(1)")]);
                Stub.call_tool "web_search" PNone] in
  exists results,
    length results = 2%nat /\
    yielded (for_each calls (execute_tool_call Stub.config 1%positive) s)
    = concat (zip_with call_events calls results) /\
    st_heap (final (for_each calls (execute_tool_call Stub.config 1%positive) s)) !! 1%positive
    = Some ([user_message "hi"] ++ zip_with call_message calls results).
Proof.
  intros rt s calls.
  apply (tool_calls_answered_in_order Stub.config 1%positive calls s [user_message "hi"]);
    reflexivity.
Defined.


(** X21: a model that answers [hello]. *)
Lemma streaming_loop_returns_plain_answer_witness :
  let rt := Stub.runtime Scenario.plain_model in
  let s := Stub.holding rt 0%nat [user_message "hi"] in
  let r := @_streaming_loop Stub.config rt 1%positive 0.5%float 100 None s in
  yielded r = [EvContent "hello"] /\
  outcome r = Ok tt /\
  st_calls (final r) = [Scenario.first_call None].
Proof.
  intros rt s r.
  apply (streaming_loop_returns_plain_answer Stub.config 1%positive 0.5%float 100 None s
           (fst (Scenario.plain_model (Scenario.first_call None) 0%nat)) 1%nat);
    [reflexivity | reflexivity | reflexivity].
Defined.

(** X22: a configuration without any round. *)
Lemma streaming_loop_without_rounds_witness :
  let rt := Stub.runtime Stub.python_model in
  let s := Stub.holding rt 0%nat [user_message "hi"] in
  let r := @_streaming_loop Scenario.no_rounds rt 1%positive 0.5%float 100 None s in
  yielded r = [EvContent limit_message] /\
  outcome r = Ok tt /\
  st_calls (final r) = [] /\
  st_ext (final r) = 0%nat /\
  st_memory_file (final r) = None.
Proof.
  intros rt s r.
  apply (streaming_loop_without_rounds Scenario.no_rounds 1%positive 0.5%float 100 None s).
  simpl. lia.
Defined.

(** X23: a backend that cannot be reached. *)
Lemma streaming_loop_raises_stream_failure_witness :
  let rt := Stub.runtime Stub.failing_model in
  let s := Stub.holding rt 0%nat [user_message "hi"] in
  let r := @_streaming_loop Stub.config rt 1%positive 0.5%float 100 None s in
  yielded r = [] /\
  outcome r = Raise (OtherError "connection refused") /\
  st_calls (final r) = [Scenario.first_call None].
Proof.
  intros rt s r.
  apply (streaming_loop_raises_stream_failure Stub.config 1%positive 0.5%float 100 None s
           [] (OtherError "connection refused") 1%nat);
    [reflexivity | reflexivity].
Defined.

(** X24: a model that always asks to run a line of Python, with a limit
    of three rounds. *)
Lemma streaming_loop_stops_at_round_limit_witness :
  let rt := Stub.runtime Stub.python_model in
  let s := Stub.holding rt 0%nat [user_message "hi"] in
  let r := @_streaming_loop Stub.config rt 1%positive 0.5%float 100 None s in
  exists rounds,
    length rounds = 3%nat /\
    Forall round_events rounds /\
    yielded r = concat rounds ++ [EvContent limit_message] /\
    outcome r = Ok tt /\
    length (st_calls (final r)) = 3%nat.
Proof.
  intros rt s r.
  apply (streaming_loop_stops_at_round_limit Stub.config 1%positive 0.5%float 100 None s).
  intros call e.
  exists (fst (Stub.python_model call e)), (S e).
  split; [reflexivity|]. split; [discriminate|].
  repeat constructor. intros s'. eexists. reflexivity.
Defined.

(** X25: the stream of a request answered with [hello]. *)
Lemma chat_stream_frames_witness :
  let rt := Stub.runtime Scenario.plain_model in
  let r := @chat Stub.config rt (Stub.request "hi") (Stub.initial rt 0%nat) in
  yielded r = [_sse_from_event (EvContent "hello"); sse_done] /\ outcome r = Ok None.
Proof.
  intros rt r. subst r.
  rewrite (chat_stream_frames Stub.config (Stub.request "hi") (Stub.initial rt 0%nat) eq_refl).
  split; reflexivity.
Defined.

(** X26: the answer to a request without stream, with a model that
    answers [hello] and with a backend that cannot be reached. *)
Lemma chat_answer_collects_texts_witness :
  (let rt := Stub.runtime Scenario.plain_model in
   @chat Stub.config rt (Scenario.plain_request "hi") (Stub.initial rt 0%nat)
   = Run [] (Ok (Some (chat_answer "hello" "")))
         (final (@chat Stub.config rt (Scenario.plain_request "hi") (Stub.initial rt 0%nat)))) /\
  (let rt := Stub.runtime Stub.failing_model in
   outcome (@chat Stub.config rt (Scenario.plain_request "hi") (Stub.initial rt 0%nat))
   = Raise (HTTPException 500 "connection refused")).
Proof.
  split.
  - intros rt.
    rewrite (chat_answer_collects_texts Stub.config (Scenario.plain_request "hi")
               (Stub.initial rt 0%nat) eq_refl).
    reflexivity.
  - intros rt.
    rewrite (chat_answer_collects_texts Stub.config (Scenario.plain_request "hi")
               (Stub.initial rt 0%nat) eq_refl).
    reflexivity.
Defined.

(** X29: a text that decodes to an object, and the text of a JSON list
    given to [python_exec]. *)
Lemma dispatch_string_arguments_witness :
  let rt := Stub.runtime Stub.silent_model in
  let s := Stub.initial rt 0%nat in
  @dispatch_tool Stub.config rt event "memory_tool" (PStr "abc") s
  = @dispatch_tool Stub.config rt event "memory_tool" (PDict [("content", PStr "abc")]) s /\
  @dispatch_tool Stub.config rt event "python_exec" (PStr "[]") s
  = @run_python_tool Stub.config rt event "[]" s.
Proof.
  intros rt s. split.
  - apply (proj1 (dispatch_string_arguments Stub.config "memory_tool" "abc" s)). reflexivity.
  - apply (proj2 (dispatch_string_arguments Stub.config "python_exec" "[]" s)). discriminate.
Defined.
